(** * The simulation engine of web_app.py ([run_simulation]), embedded in Rocq

    The engine is one Python function over four constant tables. Its numbers
    are Python [int]s (unbounded) and binary64 floats; both are kept apart
    here, as Python keeps them apart, and floats are the kernel's primitive
    binary64 numbers, so that every arithmetic step rounds as the program's
    does. *)

From Stdlib Require Import ZArith List String Bool Lia Floats.
Import ListNotations.

Set Warnings "-inexact-float".

Local Open Scope string_scope.
Local Open Scope Z_scope.

(** ** Python values and exceptions *)

Inductive pynum : Type :=
| PyInt (z : Z)
| PyFloat (f : float).

Inductive pyerr : Type :=
| KeyError (key : string)
| OverflowError
| ValueError
| TypeError
| ZeroDivisionError.

Inductive result (A : Type) : Type :=
| Ok (a : A)
| Raise (e : pyerr).

Arguments Ok {A} a.
Arguments Raise {A} e.

Definition bind {A B : Type} (r : result A) (k : A -> result B) : result B :=
  match r with
  | Ok a => k a
  | Raise e => Raise e
  end.

Notation "x <- r ;; k" := (bind r (fun x => k))
  (at level 61, r at next level, right associativity).

(** ** Binary64 helpers on top of [SpecFloat] *)

Module F64.

(** [float(z)]: the nearest double, ties to even; a magnitude that rounds
    past the largest double raises [OverflowError]. *)
Definition of_Z (z : Z) : result float :=
  match binary_normalize prec emax z 0 false with
  | S754_infinity _ => Raise OverflowError
  | sf => Ok (SF2Prim sf)
  end.

(** The integer part of a finite double, rounded toward zero. *)
Definition trunc_SF (sf : spec_float) : result Z :=
  match sf with
  | S754_zero _ => Ok 0
  | S754_infinity _ => Raise OverflowError
  | S754_nan => Raise ValueError
  | S754_finite s m e =>
      let a := match e with
               | Z0 => Zpos m
               | Zpos _ => Zpos m * 2 ^ e
               | Zneg _ => Zpos m / 2 ^ (- e)
               end in
      Ok (if s then - a else a)
  end.

Definition trunc (f : float) : result Z := trunc_SF (Prim2SF f).

(** The least integer not below a double, as a double ([-0.0] when a
    negative number rounds up to zero, as C's [ceil] has it). *)
Definition ceil_SF (sf : spec_float) : spec_float :=
  match sf with
  | S754_finite s m (Zneg p) =>
      let q := Zpos m / 2 ^ Zpos p in
      let exact := Zpos m mod 2 ^ Zpos p =? 0 in
      let c := if s then - q else if exact then q else q + 1 in
      binary_normalize prec emax c 0 s
  | _ => sf
  end.

Definition ceil (f : float) : float := SF2Prim (ceil_SF (Prim2SF f)).

(** Exact comparison of an integer with a double. *)
Definition Zcompare_SF (z : Z) (sf : spec_float) : option comparison :=
  match sf with
  | S754_nan => None
  | S754_zero _ => Some (z ?= 0)
  | S754_infinity s => Some (if s then Gt else Lt)
  | S754_finite s m e =>
      let v := if s then Zneg m else Zpos m in
      Some (match e with
            | Z0 => z ?= v
            | Zpos _ => z ?= v * 2 ^ e
            | Zneg _ => z * 2 ^ (- e) ?= v
            end)
  end.

(** [a / b] on integers: the correctly rounded quotient. *)
Definition div_Z (a b : Z) : result float :=
  match a, b with
  | _, Z0 => Raise ZeroDivisionError
  | Z0, _ => Ok (if b <? 0 then neg_zero else zero)
  | _, _ =>
      let '(q, e, l) := SFdiv_core_binary prec emax (Z.abs a) 0 (Z.abs b) 0 in
      match binary_round_aux prec emax (xorb (a <? 0) (b <? 0)) q e l with
      | S754_infinity _ => Raise OverflowError
      | sf => Ok (SF2Prim sf)
      end
  end.

End F64.

(** ** Python arithmetic on [int] and [float] operands *)

Definition to_float (x : pynum) : result float :=
  match x with
  | PyInt z => F64.of_Z z
  | PyFloat f => Ok f
  end.

Definition py_arith (opZ : Z -> Z -> Z) (opF : float -> float -> float)
    (x y : pynum) : result pynum :=
  match x, y with
  | PyInt a, PyInt b => Ok (PyInt (opZ a b))
  | _, _ =>
      a <- to_float x ;;
      b <- to_float y ;;
      Ok (PyFloat (opF a b))
  end.

Definition py_add := py_arith Z.add PrimFloat.add.
Definition py_sub := py_arith Z.sub PrimFloat.sub.
Definition py_mul := py_arith Z.mul PrimFloat.mul.

(** [x / y]: true division. A float divided by zero raises; the only float
    dividends the engine has are divided by the literal 200000. *)
Definition py_truediv (x y : pynum) : result pynum :=
  match x, y with
  | PyInt a, PyInt b => f <- F64.div_Z a b ;; Ok (PyFloat f)
  | _, _ =>
      a <- to_float x ;;
      b <- to_float y ;;
      if PrimFloat.eqb b zero then Raise ZeroDivisionError
      else Ok (PyFloat (a / b)%float)
  end.

(** [x < y]; a comparison with a NaN is false, an int is compared with a
    float by value. *)
Definition py_lt (x y : pynum) : bool :=
  match x, y with
  | PyInt a, PyInt b => a <? b
  | PyFloat a, PyFloat b => PrimFloat.ltb a b
  | PyInt a, PyFloat b =>
      match F64.Zcompare_SF a (Prim2SF b) with Some Lt => true | _ => false end
  | PyFloat a, PyInt b =>
      match F64.Zcompare_SF b (Prim2SF a) with Some Gt => true | _ => false end
  end.

Definition py_gt (x y : pynum) : bool := py_lt y x.

(** [x <= y] and [x == y], by value as well. *)
Definition py_le (x y : pynum) : bool :=
  match x, y with
  | PyInt a, PyInt b => a <=? b
  | PyFloat a, PyFloat b => PrimFloat.leb a b
  | PyInt a, PyFloat b =>
      match F64.Zcompare_SF a (Prim2SF b) with
      | Some Lt | Some Eq => true
      | _ => false
      end
  | PyFloat a, PyInt b =>
      match F64.Zcompare_SF b (Prim2SF a) with
      | Some Gt | Some Eq => true
      | _ => false
      end
  end.

Definition py_eq (x y : pynum) : bool :=
  match x, y with
  | PyInt a, PyInt b => a =? b
  | PyFloat a, PyFloat b => PrimFloat.eqb a b
  | PyInt a, PyFloat b | PyFloat b, PyInt a =>
      match F64.Zcompare_SF a (Prim2SF b) with Some Eq => true | _ => false end
  end.

(** The builtins [max(a, b)] and [min(a, b)] keep the first argument unless
    the second is strictly greater (smaller). *)
Definition py_max (a b : pynum) : pynum := if py_gt b a then b else a.
Definition py_min (a b : pynum) : pynum := if py_lt b a then b else a.

(** [int(x)] *)
Definition py_int (x : pynum) : result Z :=
  match x with
  | PyInt z => Ok z
  | PyFloat f => F64.trunc f
  end.

(** [np.sqrt(x)]: a Python int is first stored as a 64-bit machine integer;
    one that does not fit has no square root loop. *)
Definition np_sqrt (x : pynum) : result pynum :=
  match x with
  | PyFloat f => Ok (PyFloat (PrimFloat.sqrt f))
  | PyInt z =>
      if (- 2 ^ 63 <=? z) && (z <? 2 ^ 64)
      then f <- F64.of_Z z ;; Ok (PyFloat (PrimFloat.sqrt f))
      else Raise TypeError
  end.

(** [np.ceil(x)] *)
Definition np_ceil (x : pynum) : result pynum :=
  match x with
  | PyFloat f => Ok (PyFloat (F64.ceil f))
  | PyInt z =>
      if (- 2 ^ 63 <=? z) && (z <? 2 ^ 64)
      then f <- F64.of_Z z ;; Ok (PyFloat (F64.ceil f))
      else Raise TypeError
  end.

(** ** The constant tables *)

Record venue_t := { Capacity : Z; Fixed_Cost : Z; Vibe : Z }.
Record catering_t := { Cost : Z; Quality : Z }.
Record staffing_t := { Ratio : Z; CostPer : Z }.
Record risk_t := { DemandMult : float; SatPenalty : Z }.

Definition VENUES : list (string * venue_t) :=
  [ ("Grand Hall", {| Capacity := 500; Fixed_Cost := 5000; Vibe := 8 |});
    ("Tech Hub", {| Capacity := 1000; Fixed_Cost := 12000; Vibe := 6 |});
    ("City Center", {| Capacity := 2000; Fixed_Cost := 25000; Vibe := 9 |});
    ("Open Grounds", {| Capacity := 5000; Fixed_Cost := 40000; Vibe := 7 |}) ].

Definition CATERING : list (string * catering_t) :=
  [ ("Basic Snacks", {| Cost := 15; Quality := 2 |});
    ("Standard Buffet", {| Cost := 35; Quality := 6 |});
    ("Premium Gourmet", {| Cost := 60; Quality := 9 |}) ].

Definition STAFFING : list (string * staffing_t) :=
  [ ("Skeleton Crew", {| Ratio := 1; CostPer := 200 |});
    ("Standard", {| Ratio := 2; CostPer := 250 |});
    ("Premium Service", {| Ratio := 4; CostPer := 300 |}) ].

Definition RISKS : list (string * risk_t) :=
  [ ("None (Normal)", {| DemandMult := 1.0; SatPenalty := 0 |});
    ("Heavy Rain", {| DemandMult := 0.7; SatPenalty := -10 |});
    ("Competitor Event", {| DemandMult := 0.6; SatPenalty := 0 |});
    ("Viral Buzz", {| DemandMult := 1.5; SatPenalty := 5 |}) ].

(** [table[key]] *)
Fixpoint getitem {A : Type} (table : list (string * A)) (key : string) : result A :=
  match table with
  | [] => Raise (KeyError key)
  | (k, v) :: rest => if String.eqb k key then Ok v else getitem rest key
  end.

(** ** The engine

    [inputs_t] is the dict the sidebar builds (line 165); the sub-expressions
    of [run_simulation] are named after the local variable they are assigned
    to, and [locals] keeps every local of one run. *)

Record inputs_t := {
  in_Venue : string;
  in_Catering : string;
  in_Staffing : string;
  in_Price : pynum;
  in_Marketing : pynum;
  in_Risk : string
}.

(** Line 75:
    [max(0, 2000 - 3.5 * price + 0.04 * marketing + 10 * np.sqrt(marketing))] *)
Definition base_demand_expr (price marketing : pynum) : result pynum :=
  t1 <- py_mul (PyFloat 3.5) price ;;
  t2 <- py_sub (PyInt 2000) t1 ;;
  t3 <- py_mul (PyFloat 0.04) marketing ;;
  t4 <- py_add t2 t3 ;;
  root <- np_sqrt marketing ;;
  t5 <- py_mul (PyInt 10) root ;;
  t6 <- py_add t4 t5 ;;
  Ok (py_max (PyInt 0) t6).

(** Lines 81-82: [int(min(risk_demand, venue['Capacity']))] *)
Definition attendance_expr (risk_demand : pynum) (capacity : Z) : result Z :=
  py_int (py_min risk_demand (PyInt capacity)).

(** Line 91: [np.ceil((attendance / 100) * staff['Ratio'])] *)
Definition num_staff_expr (attendance ratio : Z) : result pynum :=
  hundreds <- py_truediv (PyInt attendance) (PyInt 100) ;;
  scaled <- py_mul hundreds (PyInt ratio) ;;
  np_ceil scaled.

(** Line 98: [attendance / venue['Capacity'] if venue['Capacity'] > 0 else 0] *)
Definition crowding_expr (attendance capacity : Z) : result pynum :=
  if 0 <? capacity
  then py_truediv (PyInt attendance) (PyInt capacity)
  else Ok (PyInt 0).

(** Line 99: [15 if crowding > 0.9 else 0] *)
Definition crowding_penalty_expr (crowding : pynum) : Z :=
  if py_gt crowding (PyFloat 0.9) then 15 else 0.

(** Line 101:
    [(venue['Vibe'] * 3.3) + (cat['Quality'] * 3.3) + (staff['Ratio'] * 8)] *)
Definition sat_base_expr (vibe quality ratio : Z) : result pynum :=
  s1 <- py_mul (PyInt vibe) (PyFloat 3.3) ;;
  s2 <- py_mul (PyInt quality) (PyFloat 3.3) ;;
  s3 <- py_mul (PyInt ratio) (PyInt 8) ;;
  s4 <- py_add s1 s2 ;;
  py_add s4 s3.

(** Lines 102-103: [sat_score -= crowding_penalty; sat_score += risk['SatPenalty']] *)
Definition sat_adjust_expr (sat_base : pynum) (crowding_penalty sat_penalty : Z)
    : result pynum :=
  s <- py_sub sat_base (PyInt crowding_penalty) ;;
  py_add s (PyInt sat_penalty).

(** Line 104: [min(100, max(0, sat_score))] *)
Definition sat_clamp_expr (sat_score : pynum) : pynum :=
  py_min (PyInt 100) (py_max (PyInt 0) sat_score).

(** Line 108, left summand: [max(0, profit) / 200000 * 50] *)
Definition profit_points_expr (profit : pynum) : result pynum :=
  p1 <- py_truediv (py_max (PyInt 0) profit) (PyInt 200000) ;;
  py_mul p1 (PyInt 50).

(** Line 108: [(max(0, profit) / 200000 * 50) + (sat_score * 0.5)] *)
Definition score_expr (profit sat_score : pynum) : result pynum :=
  p2 <- profit_points_expr profit ;;
  p3 <- py_mul sat_score (PyFloat 0.5) ;;
  py_add p2 p3.

Record locals := {
  venue : venue_t;
  cat : catering_t;
  staff : staffing_t;
  risk : risk_t;
  price : pynum;
  marketing : pynum;
  base_demand : pynum;
  risk_demand : pynum;
  attendance : Z;
  revenue : pynum;
  venue_cost : pynum;
  marketing_cost : pynum;
  catering_cost : pynum;
  num_staff : pynum;
  staff_cost : pynum;
  total_cost : pynum;
  profit : pynum;
  crowding : pynum;
  crowding_penalty : Z;
  sat_base : pynum;
  sat_unclamped : pynum;
  sat_score : pynum;
  score : pynum
}.

(** Lines 65-108: the body of [run_simulation] up to its [return]. *)
Definition simulate (inputs : inputs_t) : result locals :=
  (* Unpack *)
  venue <- getitem VENUES (in_Venue inputs) ;;
  cat <- getitem CATERING (in_Catering inputs) ;;
  staff <- getitem STAFFING (in_Staffing inputs) ;;
  risk <- getitem RISKS (in_Risk inputs) ;;
  let price := in_Price inputs in
  let marketing := in_Marketing inputs in
  (* 1. Demand *)
  base_demand <- base_demand_expr price marketing ;;
  risk_demand <- py_mul base_demand (PyFloat (DemandMult risk)) ;;
  attendance <- attendance_expr risk_demand (Capacity venue) ;;
  (* 2. Financials *)
  revenue <- py_mul (PyInt attendance) price ;;
  let venue_cost := PyInt (Fixed_Cost venue) in
  let marketing_cost := marketing in
  catering_cost <- py_mul (PyInt attendance) (PyInt (Cost cat)) ;;
  num_staff <- num_staff_expr attendance (Ratio staff) ;;
  staff_cost <- py_mul num_staff (PyInt (CostPer staff)) ;;
  c1 <- py_add venue_cost marketing_cost ;;
  c2 <- py_add c1 catering_cost ;;
  total_cost <- py_add c2 staff_cost ;;
  profit <- py_sub revenue total_cost ;;
  (* 3. Satisfaction *)
  crowding <- crowding_expr attendance (Capacity venue) ;;
  let crowding_penalty := crowding_penalty_expr crowding in
  sat_base <- sat_base_expr (Vibe venue) (Quality cat) (Ratio staff) ;;
  sat_unclamped <- sat_adjust_expr sat_base crowding_penalty (SatPenalty risk) ;;
  let sat_score := sat_clamp_expr sat_unclamped in
  (* 4. Final Score *)
  score <- score_expr profit sat_score ;;
  Ok {| venue := venue; cat := cat; staff := staff; risk := risk;
        price := price; marketing := marketing;
        base_demand := base_demand; risk_demand := risk_demand;
        attendance := attendance; revenue := revenue;
        venue_cost := venue_cost; marketing_cost := marketing_cost;
        catering_cost := catering_cost; num_staff := num_staff;
        staff_cost := staff_cost; total_cost := total_cost; profit := profit;
        crowding := crowding; crowding_penalty := crowding_penalty;
        sat_base := sat_base; sat_unclamped := sat_unclamped;
        sat_score := sat_score; score := score |}.

(** The returned dict (lines 110-124). *)
Record details_t := {
  Venue_Cost : pynum;
  Marketing_Cost : pynum;
  Catering_Cost : pynum;
  Staff_Cost : pynum
}.

Record outcome := {
  Attendance : Z;
  Revenue : pynum;
  Total_Cost : pynum;
  Profit : pynum;
  Satisfaction : pynum;
  Score : pynum;
  Crowding : pynum;
  Details : details_t
}.

Definition returned (l : locals) : result outcome :=
  crowding100 <- py_mul (crowding l) (PyInt 100) ;;
  Ok {| Attendance := attendance l;
        Revenue := revenue l;
        Total_Cost := total_cost l;
        Profit := profit l;
        Satisfaction := sat_score l;
        Score := score l;
        Crowding := crowding100;
        Details := {| Venue_Cost := venue_cost l;
                      Marketing_Cost := marketing_cost l;
                      Catering_Cost := catering_cost l;
                      Staff_Cost := staff_cost l |} |}.

Definition run_simulation (inputs : inputs_t) : result outcome :=
  l <- simulate inputs ;;
  returned l.

(** ** Valid decisions *)

(** A number the sidebar can hand over: a non-negative finite double, or a
    non-negative integer small enough that every integer the engine forms
    from it stays within a 64-bit machine word. *)
Definition valid_number (x : pynum) : bool :=
  match x with
  | PyInt z => (0 <=? z) && (z <? 2 ^ 50)
  | PyFloat f => is_finite f && PrimFloat.leb zero f
  end.

Definition resolves {A : Type} (table : list (string * A)) (key : string) : bool :=
  match getitem table key with
  | Ok _ => true
  | Raise _ => false
  end.

Definition labels_resolve (inputs : inputs_t) : bool :=
  resolves VENUES (in_Venue inputs) && resolves CATERING (in_Catering inputs)
  && resolves STAFFING (in_Staffing inputs) && resolves RISKS (in_Risk inputs).

Definition valid_decision (inputs : inputs_t) : bool :=
  labels_resolve inputs
  && valid_number (in_Price inputs) && valid_number (in_Marketing inputs).

(** The worked scenario of the specification. *)
Definition scenario : inputs_t :=
  {| in_Venue := "City Center"; in_Catering := "Standard Buffet";
     in_Staffing := "Standard"; in_Price := PyInt 250;
     in_Marketing := PyInt 20000; in_Risk := "None (Normal)" |}.

(** ** The sidebar (lines 147-168)

    What the three kinds of widget hand to the engine: a select box returns
    one of its options; a slider with integer bounds and step returns an
    integer of its grid; a number input with integer bounds returns an
    integer between them (a typed value need not be a multiple of the
    step). *)

(** [list(table.keys())] *)
Definition keys {A : Type} (table : list (string * A)) : list string :=
  map fst table.

Definition selectbox_returns (options : list string) (choice : string) : bool :=
  existsb (String.eqb choice) options.

Definition slider_returns (lo hi step : Z) (x : pynum) : bool :=
  match x with
  | PyInt z => (lo <=? z) && (z <=? hi) && ((z - lo) mod step =? 0)
  | PyFloat _ => false
  end.

Definition number_input_returns (lo hi : Z) (x : pynum) : bool :=
  match x with
  | PyInt z => (lo <=? z) && (z <=? hi)
  | PyFloat _ => false
  end.

(** Lines 154-168: the dicts [inputs] that the sidebar can build. *)
Definition sidebar_inputs (inputs : inputs_t) : bool :=
  selectbox_returns (keys VENUES) (in_Venue inputs)
  && selectbox_returns (keys CATERING) (in_Catering inputs)
  && selectbox_returns (keys STAFFING) (in_Staffing inputs)
  && slider_returns 50 500 10 (in_Price inputs)
  && number_input_returns 0 100000 (in_Marketing inputs)
  && selectbox_returns (keys RISKS) (in_Risk inputs).

(** The dict built from the widgets' initial values ([index=2], [index=1],
    [index=1], 250, 20000, [index=0]). *)
Definition sidebar_default : inputs_t :=
  {| in_Venue := nth 2 (keys VENUES) EmptyString;
     in_Catering := nth 1 (keys CATERING) EmptyString;
     in_Staffing := nth 1 (keys STAFFING) EmptyString;
     in_Price := PyInt 250;
     in_Marketing := PyInt 20000;
     in_Risk := nth 0 (keys RISKS) EmptyString |}.

(** ** The financial snapshot of the dashboard (lines 191-214) *)

(** [-x] *)
Definition py_neg (x : pynum) : pynum :=
  match x with
  | PyInt z => PyInt (- z)
  | PyFloat f => PyFloat (- f)
  end.

(** The rows of [df_fin] (lines 194-205): category, amount, type. *)
Definition df_fin (results : outcome) : list (string * pynum * string) :=
  [ ("Revenue", Revenue results, "Income");
    ("Venue", py_neg (Venue_Cost (Details results)), "Expense");
    ("Marketing", py_neg (Marketing_Cost (Details results)), "Expense");
    ("Catering", py_neg (Catering_Cost (Details results)), "Expense");
    ("Staffing", py_neg (Staff_Cost (Details results)), "Expense");
    ("NET PROFIT", Profit results, "Total") ].

(** The [measure] and [y] arguments of the waterfall (lines 206-214), bar
    by bar. *)
Definition waterfall_bars (results : outcome) : list (string * pynum) :=
  combine ["relative"; "relative"; "relative"; "relative"; "relative"; "total"]
          (map (fun row => snd (fst row)) (df_fin results)).

(** The level a waterfall reaches: a relative bar adds its amount to the
    level, a total bar shows the level and leaves it. *)
Fixpoint waterfall_level (level : pynum) (bars : list (string * pynum)) : result pynum :=
  match bars with
  | [] => Ok level
  | (measure, y) :: rest =>
      if String.eqb measure "relative"
      then level' <- py_add level y ;; waterfall_level level' rest
      else waterfall_level level rest
  end.

(** ** The submission workbook ([generate_excel_download], lines 126-144)

    The workbook is kept as the frames handed to [to_excel], sheet by sheet;
    the encoding of the sheets as bytes is not part of the model. *)

Inductive cell : Type :=
| CStr (s : string)
| CNum (x : pynum).

Definition frame : Type := list (string * list cell).

(** The column pandas stores for a list of cells: a list of numbers with a
    float among them becomes a float64 column, every integer being converted
    to the nearest double; any other list is kept cell by cell (an integer
    column when every cell is an [int], an object column otherwise, also
    when an integer is too large for a double). *)
Definition is_number (c : cell) : bool :=
  match c with
  | CNum _ => true
  | CStr _ => false
  end.

Definition is_float_cell (c : cell) : bool :=
  match c with
  | CNum (PyFloat _) => true
  | _ => false
  end.

Definition float_cell (c : cell) : result cell :=
  match c with
  | CNum x => f <- to_float x ;; Ok (CNum (PyFloat f))
  | CStr _ => Raise TypeError
  end.

Fixpoint map_result {A B : Type} (f : A -> result B) (l : list A) : result (list B) :=
  match l with
  | [] => Ok []
  | a :: rest => b <- f a ;; bs <- map_result f rest ;; Ok (b :: bs)
  end.

Definition as_column (cells : list cell) : list cell :=
  if forallb is_number cells && existsb is_float_cell cells
  then match map_result float_cell cells with
       | Ok floats => floats
       | Raise _ => cells
       end
  else cells.

(** [pd.DataFrame(data)] on a dict of lists: the lists must have one length,
    and each becomes a column. *)
Definition DataFrame (data : list (string * list cell)) : result frame :=
  match data with
  | [] => Ok []
  | (_, col) :: rest =>
      if forallb (fun c => Nat.eqb (List.length (snd c)) (List.length col)) rest
      then Ok (map (fun c => (fst c, as_column (snd c))) data)
      else Raise ValueError
  end.

(** The items of the dict [inputs], in insertion order (lines 165-168). *)
Definition inputs_items (inputs : inputs_t) : list (string * cell) :=
  [ ("Venue", CStr (in_Venue inputs));
    ("Catering", CStr (in_Catering inputs));
    ("Staffing", CStr (in_Staffing inputs));
    ("Price", CNum (in_Price inputs));
    ("Marketing", CNum (in_Marketing inputs));
    ("Risk", CStr (in_Risk inputs)) ].

(** The items of [results['Details']], in insertion order (lines 118-123). *)
Definition details_items (d : details_t) : list (string * cell) :=
  [ ("Venue Cost", CNum (Venue_Cost d));
    ("Marketing Cost", CNum (Marketing_Cost d));
    ("Catering Cost", CNum (Catering_Cost d));
    ("Staff Cost", CNum (Staff_Cost d)) ].

Definition generate_excel_download (inputs : inputs_t) (results : outcome)
    (team_name : string) : result (list (string * frame)) :=
  (* Sheet 1: Summary *)
  summary <- DataFrame
    [ ("Metric", map CStr ["Team Name"; "Success Score"; "Net Profit"; "Satisfaction";
                           "Attendance"; "Total Revenue"; "Total Cost"]);
      ("Value", [CStr team_name; CNum (Score results); CNum (Profit results);
                 CNum (Satisfaction results); CNum (PyInt (Attendance results));
                 CNum (Revenue results); CNum (Total_Cost results)]) ] ;;
  (* Sheet 2: Decisions *)
  decisions <- DataFrame
    [ ("Decision Variable", map (fun kv => CStr (fst kv)) (inputs_items inputs));
      ("Selected Option", map snd (inputs_items inputs)) ] ;;
  (* Sheet 3: Cost Breakdown *)
  costs <- DataFrame
    [ ("Category", map (fun kv => CStr (fst kv)) (details_items (Details results)));
      ("Amount", map snd (details_items (Details results))) ] ;;
  Ok [("Summary", summary); ("Decisions", decisions); ("Cost Breakdown", costs)].

(** * Definitions used by the proofs

    ** Rounding to binary64, seen on integers

    A double is read through its _rank_: its value scaled by [2^1074], which
    is an integer for every finite double; the infinities get the ranks
    [INF] and [- INF]. Rounding to nearest-even then becomes a function
    [RND] on integers scaled by [2^K], and the correctly rounded square root
    a function [SQRT]; both are monotone, which is what the comparisons of
    computed demands rest on. *)

Definition rne (m n : Z) : Z :=
  let q := m / 2 ^ n in
  match 2 * (m mod 2 ^ n) ?= 2 ^ n with
  | Lt => q
  | Eq => if Z.even q then q else q + 1
  | Gt => q + 1
  end.

(* state after n shifts from (m, false, false) *)
Definition shifted (m : Z) (n : nat) : shr_record :=
  match n with
  | O => {| shr_m := m; shr_r := false; shr_s := false |}
  | S j => {| shr_m := m / 2 ^ Z.of_nat n;
              shr_r := Z.odd (m / 2 ^ Z.of_nat j);
              shr_s := negb (m mod 2 ^ Z.of_nat j =? 0) |}
  end.

Abbreviation fexp64 := (fexp prec emax).

(* the integer mantissa kept when [m] loses [n] low bits *)
Definition rnd (m n : Z) : Z := if 0 <? n then rne m n else m.

(* closed form of the rounding core on an exact, non-negative mantissa *)
Definition bra_spec (s : bool) (m e : Z) : spec_float :=
  let n1 := fexp64 (Zdigits2 m + e) - e in
  let m1 := rnd m n1 in
  let e1 := if 0 <? n1 then fexp64 (Zdigits2 m + e) else e in
  let n2 := fexp64 (Zdigits2 m1 + e1) - e1 in
  let e2 := if 0 <? n2 then fexp64 (Zdigits2 m1 + e1) else e1 in
  match (if 0 <? n2 then m1 / 2 ^ n2 else m1) with
  | Z0 => S754_zero s
  | Zpos p => if e2 <=? emax - prec then S754_finite s p e2 else S754_infinity s
  | Zneg _ => S754_nan
  end.

Definition K : Z := 2148.
Definition cexpK (X : Z) : Z := fexp64 (Z.log2 X + 1 - K).
Definition RNDu (X : Z) : Z := rne X (cexpK X + K) * 2 ^ (cexpK X + 1074).
Definition INF : Z := 2 ^ 2098.
Definition RND (X : Z) : Z := Z.min (RNDu X) INF.

(** the rank of a double: its value scaled by [2^1074], an integer *)
Definition rank (x : spec_float) : Z :=
  match x with
  | S754_zero _ | S754_nan => 0
  | S754_infinity s => cond_Zopp s INF
  | S754_finite s m e => cond_Zopp s (Zpos m * 2 ^ (e + 1074))
  end.

Definition has_sign (s : bool) (x : spec_float) : Prop :=
  match x with
  | S754_zero s' | S754_infinity s' | S754_finite s' _ _ => s' = s
  | S754_nan => False
  end.

Definition rankF (f : float) : Z := rank (Prim2SF f).

(** signed rounding *)
Definition sRND (X : Z) : Z := if X <? 0 then - RND (- X) else RND X.

Definition nonnan (x : spec_float) : Prop := x <> S754_nan.

Definition finite_or_zero (x : spec_float) : Prop :=
  match x with
  | S754_zero _ | S754_finite _ _ _ => True
  | _ => False
  end.

Definition SQRT (X : Z) : Z :=
  let e := (Z.log2 X - 1178) / 2 in
  let a := - 2 * e - 1074 in
  let m := if 0 <=? a then X * 2 ^ a else X / 2 ^ (- a) in
  let q := Z.sqrt m in
  (if m - q * q <=? q then q else q + 1) * 2 ^ (e + 1074).

(** ** Non-negative doubles, and the demand formula on doubles *)

Definition nn (x : spec_float) : Prop :=
  match x with
  | S754_zero _ | S754_finite false _ _ | S754_infinity false => True
  | _ => False
  end.

Definition demand_float (fp fm : float) : float :=
  (2000 - 3.5 * fp + 0.04 * fm + 10 * sqrt fm)%float.

(** ** Bounded enumeration, and the facts established by it

    Attendance is at most the largest capacity of [VENUES], so what the
    program computes from it alone (the quotient by 100, the crowding ratio,
    the ceiling of the staff count) is settled by running the model on
    every attendance up to that bound. *)

Fixpoint all_upto (n : nat) (P : Z -> bool) : bool :=
  match n with
  | O => P 0
  | S k => P (Z.of_nat n) && all_upto k P
  end.

Definition is_ok {A} (r : result A) : bool :=
  match r with Ok _ => true | Raise _ => false end.

Definition capacities : list Z := map (fun v => Capacity (snd v)) VENUES.

Definition div_check (a : Z) : bool :=
  is_ok (F64.div_Z a 100) && forallb (fun c => is_ok (F64.div_Z a c)) capacities.

Definition small (x : pynum) : Prop :=
  match x with
  | PyInt z => - 2 ^ 63 <= z <= 2 ^ 63
  | PyFloat _ => True
  end.

Definition is_float (x : pynum) : Prop :=
  match x with
  | PyInt _ => False
  | PyFloat _ => True
  end.

(** ** The equations of one run

    [steps inputs l] says that the local variables [l] are related as the
    assignments of [run_simulation] relate them. *)

Definition steps (inputs : inputs_t) (l : locals) : Prop :=
  getitem VENUES (in_Venue inputs) = Ok (venue l) /\
  getitem CATERING (in_Catering inputs) = Ok (cat l) /\
  getitem STAFFING (in_Staffing inputs) = Ok (staff l) /\
  getitem RISKS (in_Risk inputs) = Ok (risk l) /\
  price l = in_Price inputs /\ marketing l = in_Marketing inputs /\
  base_demand_expr (price l) (marketing l) = Ok (base_demand l) /\
  py_mul (base_demand l) (PyFloat (DemandMult (risk l))) = Ok (risk_demand l) /\
  attendance_expr (risk_demand l) (Capacity (venue l)) = Ok (attendance l) /\
  py_mul (PyInt (attendance l)) (price l) = Ok (revenue l) /\
  venue_cost l = PyInt (Fixed_Cost (venue l)) /\
  marketing_cost l = marketing l /\
  py_mul (PyInt (attendance l)) (PyInt (Cost (cat l))) = Ok (catering_cost l) /\
  num_staff_expr (attendance l) (Ratio (staff l)) = Ok (num_staff l) /\
  py_mul (num_staff l) (PyInt (CostPer (staff l))) = Ok (staff_cost l) /\
  (exists c1 c2,
     py_add (venue_cost l) (marketing_cost l) = Ok c1 /\
     py_add c1 (catering_cost l) = Ok c2 /\
     py_add c2 (staff_cost l) = Ok (total_cost l)) /\
  py_sub (revenue l) (total_cost l) = Ok (profit l) /\
  crowding_expr (attendance l) (Capacity (venue l)) = Ok (crowding l) /\
  crowding_penalty l = crowding_penalty_expr (crowding l) /\
  sat_base_expr (Vibe (venue l)) (Quality (cat l)) (Ratio (staff l)) = Ok (sat_base l) /\
  sat_adjust_expr (sat_base l) (crowding_penalty l) (SatPenalty (risk l))
    = Ok (sat_unclamped l) /\
  sat_score l = sat_clamp_expr (sat_unclamped l) /\
  score_expr (profit l) (sat_score l) = Ok (score l).

Ltac inv_bind H :=
  match type of H with
  | bind ?r _ = Ok _ =>
      let E := fresh "E" in
      destruct r eqn:E; cbn [bind] in H; [|discriminate H]
  end.

Definition ratios : list Z := map (fun s => Ratio (snd s)) STAFFING.

Definition crowding_check (a : Z) : bool :=
  forallb (fun cap =>
    if a <=? cap then
      match crowding_expr a cap with
      | Ok c => crowding_penalty_expr c =? (if 9 * cap <? 10 * a then 15 else 0)
      | Raise _ => false
      end
    else true) capacities.

Definition staff_check (a : Z) : bool :=
  forallb (fun ratio =>
    match num_staff_expr a ratio with
    | Ok ns => py_eq ns (PyInt ((a * ratio + 99) / 100))
    | Raise _ => false
    end) ratios.

(** ** Inputs and checkers of the individual properties *)

Definition lowered_check (v : venue_t) (c : catering_t) (s : staffing_t) (pen : Z)
    : bool :=
  match sat_base_expr (Vibe v) (Quality c) (Ratio s) with
  | Ok base =>
      match py_sub base (PyInt pen) with
      | Ok lowered =>
          match py_sub base lowered with
          | Ok drop => py_eq drop (PyInt pen)
          | Raise _ => false
          end
      | Raise _ => false
      end
  | Raise _ => false
  end.

Definition unknown_venue : inputs_t :=
  {| in_Venue := "Moon Base"; in_Catering := "Standard Buffet";
     in_Staffing := "Standard"; in_Price := PyInt 250;
     in_Marketing := PyInt 20000; in_Risk := "None (Normal)" |}.

Definition one_guest : inputs_t :=
  {| in_Venue := "City Center"; in_Catering := "Standard Buffet";
     in_Staffing := "Skeleton Crew"; in_Price := PyInt 571;
     in_Marketing := PyInt 0; in_Risk := "None (Normal)" |}.

(** the value of a Python number, scaled as ranks are *)
Definition prank (x : pynum) : Z :=
  match x with
  | PyInt z => z * 2 ^ 1074
  | PyFloat f => rankF f
  end.

Definition exact (x : pynum) : Prop :=
  match x with
  | PyInt z => - 2 ^ 53 < z < 2 ^ 53
  | PyFloat f => nonnan (Prim2SF f)
  end.

Definition overpriced : inputs_t :=
  {| in_Venue := "Grand Hall"; in_Catering := "Basic Snacks";
     in_Staffing := "Standard"; in_Price := PyInt 1000;
     in_Marketing := PyInt 0; in_Risk := "Heavy Rain" |}.

(** ** Numbers outside the valid range

    [run_simulation] checks nothing about the two numbers it is handed: any
    float, NaN and the infinities included, and any integer. The integers
    considered here are those of magnitude under [2^50]. *)

Definition any_number (x : pynum) : bool :=
  match x with
  | PyInt z => (- 2 ^ 50 <? z) && (z <? 2 ^ 50)
  | PyFloat _ => true
  end.

(** ** Decisions derived from others *)

Definition unknown_everything (price marketing : pynum) : inputs_t :=
  {| in_Venue := "Moon Base"; in_Catering := "Air"; in_Staffing := "Nobody";
     in_Price := price; in_Marketing := marketing; in_Risk := "Meteor" |}.

Definition with_numbers (inputs : inputs_t) (price marketing : pynum) : inputs_t :=
  {| in_Venue := in_Venue inputs; in_Catering := in_Catering inputs;
     in_Staffing := in_Staffing inputs; in_Price := price;
     in_Marketing := marketing; in_Risk := in_Risk inputs |}.

(** ** Further checkers over the tables *)

Definition crowding_percent_check (a : Z) : bool :=
  forallb (fun cap =>
    if a <=? cap then
      match crowding_expr a cap with
      | Ok c =>
          match py_mul c (PyInt 100) with
          | Ok pc =>
              py_le (PyInt 0) pc && py_le pc (PyInt 100)
              && Bool.eqb (py_eq pc (PyInt 100)) (a =? cap)
              && Bool.eqb (py_eq pc (PyInt 0)) (a =? 0)
          | Raise _ => false
          end
      | Raise _ => false
      end
    else true) capacities.

Definition with_risk (inputs : inputs_t) (risk : string) : inputs_t :=
  {| in_Venue := in_Venue inputs; in_Catering := in_Catering inputs;
     in_Staffing := in_Staffing inputs; in_Price := in_Price inputs;
     in_Marketing := in_Marketing inputs; in_Risk := risk |}.

Definition sat_range_check (v : venue_t) (c : catering_t) (s : staffing_t)
    (r : risk_t) (pen : Z) : bool :=
  match sat_base_expr (Vibe v) (Quality c) (Ratio s) with
  | Ok base =>
      match sat_adjust_expr base pen (SatPenalty r) with
      | Ok (PyFloat u) =>
          py_lt (PyInt 0) (PyFloat u) && py_lt (PyFloat u) (PyInt 100)
          && py_lt (PyInt 9) (PyFloat u) && py_lt (PyFloat u) (PyInt 97)
          && is_finite (u * 0.5) && py_lt (PyInt 4) (PyFloat (u * 0.5))
      | _ => false
      end
  | Raise _ => false
  end.

(** ** Reading a workbook

    A sheet by name, a column by name, and the cell of one column on the row
    where another column holds a given text. *)

(** Reading a workbook: a sheet by name, a column by name, and the cell of
    one column on the row where another column holds a given text. *)
Fixpoint assoc {A : Type} (key : string) (l : list (string * A)) : option A :=
  match l with
  | [] => None
  | (k, v) :: rest => if String.eqb k key then Some v else assoc key rest
  end.

Fixpoint row_of (key : string) (labels : list cell) (values : list cell) : option cell :=
  match labels, values with
  | CStr k :: labels', v :: values' =>
      if String.eqb k key then Some v else row_of key labels' values'
  | _ :: labels', _ :: values' => row_of key labels' values'
  | _, _ => None
  end.

Definition read_cell (workbook : list (string * frame))
    (sheet label_column value_column key : string) : option cell :=
  match assoc sheet workbook with
  | Some f =>
      match assoc label_column f, assoc value_column f with
      | Some labels, Some values => row_of key labels values
      | _, _ => None
      end
  | None => None
  end.

(** The total of a column of numbers, as the builtin [sum] forms it. *)
Fixpoint sum_cells (acc : pynum) (cells : list cell) : result pynum :=
  match cells with
  | [] => Ok acc
  | CNum x :: rest => acc' <- py_add acc x ;; sum_cells acc' rest
  | CStr _ :: _ => Raise TypeError
  end.

(** ** Numbers that are integers *)

(** [holds x z]: the Python number [x] has the integer value [z], which a
    double represents exactly. *)
Definition holds (x : pynum) (z : Z) : Prop :=
  - 2 ^ 53 < z < 2 ^ 53 /\
  match x with
  | PyInt a => a = z
  | PyFloat f => finite_or_zero (Prim2SF f) /\ rankF f = z * 2 ^ 1074
  end.

(** ** Further inputs, and the checker of what the penalty costs *)

(** The satisfaction lost to the penalty once the risk has been added, row
    combination by row combination. *)
Definition fall_check (v : venue_t) (c : catering_t) (s : staffing_t)
    (r : risk_t) (pen : Z) : bool :=
  match sat_base_expr (Vibe v) (Quality c) (Ratio s) with
  | Ok base =>
      match sat_adjust_expr base 0 (SatPenalty r),
            sat_adjust_expr base pen (SatPenalty r) with
      | Ok free, Ok u =>
          match py_sub free u with
          | Ok fall =>
              py_eq fall (PyInt pen)
              || ((pen =? 15) && py_eq fall (PyFloat 14.999999999999993))
          | Raise _ => false
          end
      | _, _ => false
      end
  | Raise _ => false
  end.

(** A venue that fills at price 400 and is three quarters full at 500. *)
Definition crowded : inputs_t :=
  {| in_Venue := "Grand Hall"; in_Catering := "Standard Buffet";
     in_Staffing := "Standard"; in_Price := PyInt 400;
     in_Marketing := PyInt 0; in_Risk := "Viral Buzz" |}.

Definition roomy : inputs_t := with_numbers crowded (PyInt 500) (PyInt 0).

(** A decision whose risk-adjusted demand, 596.5, is below the capacity. *)
Definition undersold : inputs_t := with_numbers scenario (PyInt 401) (PyInt 0).

(** Integers that are non-negative and finite, and too large for the engine. *)
Definition huge_budget : inputs_t := with_numbers scenario (PyInt 250) (PyInt (2 ^ 64)).
Definition huge_price : inputs_t := with_numbers scenario (PyInt (10 ^ 400)) (PyInt 20000).

(** * Rounding to nearest-even: the library's shift-and-round loop in closed form *)

Lemma iter_pos_nat {A} (f : A -> A) (p : positive) (x : A) :
  iter_pos f p x = Nat.iter (Pos.to_nat p) f x.
Proof.
  revert x; induction p as [p IH | p IH |]; intro x; cbn [iter_pos].
  - rewrite !IH, Pos2Nat.inj_xI.
    replace (S (2 * Pos.to_nat p)) with (Pos.to_nat p + Pos.to_nat p + 1)%nat by lia.
    rewrite !Nat.iter_add. reflexivity.
  - rewrite !IH, Pos2Nat.inj_xO.
    replace (2 * Pos.to_nat p)%nat with (Pos.to_nat p + Pos.to_nat p)%nat by lia.
    rewrite Nat.iter_add. reflexivity.
  - reflexivity.
Qed.

Lemma digits2_bounds (m : positive) :
  2 ^ (Zpos (digits2_pos m) - 1) <= Zpos m < 2 ^ Zpos (digits2_pos m).
Proof.
  induction m as [m IH | m IH |]; simpl digits2_pos.
  - rewrite Pos2Z.inj_succ, Z.pow_succ_r by lia.
    replace (Z.succ (Zpos (digits2_pos m)) - 1) with (Z.succ (Zpos (digits2_pos m) - 1)) by lia.
    rewrite Z.pow_succ_r by lia. lia.
  - rewrite Pos2Z.inj_succ, Z.pow_succ_r by lia.
    replace (Z.succ (Zpos (digits2_pos m)) - 1) with (Z.succ (Zpos (digits2_pos m) - 1)) by lia.
    rewrite Z.pow_succ_r by lia. lia.
  - simpl. lia.
Qed.

Lemma odd_mod2 x : Z.odd x = (x mod 2 =? 1).
Proof. rewrite Zmod_odd. destruct (Z.odd x); reflexivity. Qed.

Lemma shr_1_spec m r s : 0 <= m ->
  shr_1 {| shr_m := m; shr_r := r; shr_s := s |} =
  {| shr_m := m / 2; shr_r := Z.odd m; shr_s := r || s |}.
Proof.
  intros Hm. rewrite <- Z.div2_div.
  destruct m as [|[p|p|]|]; try reflexivity; lia.
Qed.

Lemma shr_1_shifted m n : 0 <= m ->
  shr_1 (shifted m n) = shifted m (S n).
Proof.
  intros Hm. destruct n as [|j].
  - cbn [shifted]. rewrite shr_1_spec by assumption.
    change (Z.of_nat 1) with 1. change (Z.of_nat 0) with 0.
    rewrite Z.pow_1_r, Z.pow_0_r, Z.div_1_r, Z.mod_1_r. reflexivity.
  - cbn [shifted].
    assert (Hp : 0 < 2 ^ Z.of_nat j) by (apply Z.pow_pos_nonneg; lia).
    rewrite shr_1_spec by (apply Z.div_pos; [assumption | apply Z.pow_pos_nonneg; lia]).
    f_equal.
    + rewrite Z.div_div by lia.
      rewrite (Nat2Z.inj_succ (S j)), Z.pow_succ_r by lia. f_equal. lia.
    + rewrite (Nat2Z.inj_succ j), Z.pow_succ_r by lia.
      rewrite (Z.mul_comm 2), Z.rem_mul_r by lia.
      rewrite odd_mod2.
      pose proof (Z.mod_pos_bound m (2 ^ Z.of_nat j) Hp).
      pose proof (Z.mod_pos_bound (m / 2 ^ Z.of_nat j) 2 ltac:(lia)).
      destruct (Z.eqb_spec ((m / 2 ^ Z.of_nat j) mod 2) 1) as [E|E];
      destruct (Z.eqb_spec (m mod 2 ^ Z.of_nat j) 0) as [F|F];
      destruct (Z.eqb_spec (m mod 2 ^ Z.of_nat j + 2 ^ Z.of_nat j * ((m / 2 ^ Z.of_nat j) mod 2)) 0) as [G|G];
      try reflexivity; exfalso; nia.
Qed.

Lemma iter_shr_1 m n : 0 <= m ->
  Nat.iter n shr_1 (shifted m 0) = shifted m n.
Proof.
  intros Hm. induction n as [|n IH]; [reflexivity|].
  cbn [Nat.iter nat_rect]. 
  change (nat_rect _ ?a ?b n) with (Nat.iter n shr_1 a) in *.
  rewrite IH. apply shr_1_shifted. assumption.
Qed.

Lemma rne_shifted m p : 0 <= m ->
  round_nearest_even (shr_m (shifted m (Pos.to_nat p)))
    (loc_of_shr_record (shifted m (Pos.to_nat p))) = rne m (Zpos p).
Proof.
  intros Hm.
  destruct (Pos2Nat.is_succ p) as [j Hj]. rewrite Hj.
  assert (Hp : Zpos p = Z.of_nat j + 1) by lia.
  unfold rne. rewrite Hp. cbn [shifted shr_m].
  rewrite (Nat2Z.inj_succ j). unfold Z.succ.
  set (k := Z.of_nat j). assert (0 <= k) by lia.
  assert (Hk : 0 < 2 ^ k) by (apply Z.pow_pos_nonneg; lia).
  rewrite Z.pow_add_r, Z.pow_1_r by lia.
  rewrite (Z.rem_mul_r m (2 ^ k) 2) by lia.
  rewrite odd_mod2.
  pose proof (Z.mod_pos_bound m (2 ^ k) Hk).
  pose proof (Z.mod_pos_bound (m / 2 ^ k) 2 ltac:(lia)).
  unfold loc_of_shr_record.
  destruct (Z.eqb_spec ((m / 2 ^ k) mod 2) 1) as [E|E];
  destruct (Z.eqb_spec (m mod 2 ^ k) 0) as [F|F]; cbn [negb round_nearest_even];
  destruct (Z.compare_spec (2 * (m mod 2 ^ k + 2 ^ k * ((m / 2 ^ k) mod 2))) (2 ^ k * 2));
  try reflexivity; exfalso; nia.
Qed.

Lemma fexp64_eq x : fexp64 x = Z.max (x - 53) (-1074).
Proof. reflexivity. Qed.

Lemma Zdigits2_log2 m : 0 < m -> Zdigits2 m = Z.log2 m + 1.
Proof.
  intros Hm. destruct m as [|p|p]; try lia. cbn [Zdigits2].
  pose proof (digits2_bounds p) as [H1 H2].
  rewrite (Z.log2_unique (Zpos p) (Zpos (digits2_pos p) - 1)); [lia | lia |].
  replace (Z.succ (Zpos (digits2_pos p) - 1)) with (Zpos (digits2_pos p)) by lia.
  split; assumption.
Qed.

Lemma shr_fexp_exact m e : 0 <= m ->
  shr_fexp prec emax m e loc_Exact =
  (shifted m (Z.to_nat (fexp64 (Zdigits2 m + e) - e)),
   if 0 <? fexp64 (Zdigits2 m + e) - e then fexp64 (Zdigits2 m + e) else e).
Proof.
  intros Hm. unfold shr_fexp, shr.
  change (shr_record_of_loc m loc_Exact) with (shifted m 0).
  destruct (fexp64 (Zdigits2 m + e) - e) as [|p|p] eqn:En; try reflexivity.
  rewrite iter_pos_nat, iter_shr_1 by assumption.
  cbn [Z.to_nat]. replace (0 <? Z.pos p) with true by (symmetry; apply Z.ltb_lt; lia).
  f_equal. lia.
Qed.

Lemma rnd_shifted m n : 0 <= m ->
  round_nearest_even (shr_m (shifted m (Z.to_nat n)))
    (loc_of_shr_record (shifted m (Z.to_nat n))) = rnd m n.
Proof.
  intros Hm. unfold rnd. destruct n as [|p|p]; try reflexivity.
  cbn [Z.to_nat]. replace (0 <? Z.pos p) with true by (symmetry; apply Z.ltb_lt; lia).
  apply rne_shifted; assumption.
Qed.

Lemma shifted_m m n : shr_m (shifted m (Z.to_nat n)) = if 0 <? n then m / 2 ^ n else m.
Proof.
  destruct n as [|p|p]; try reflexivity.
  cbn [Z.to_nat]. destruct (Pos2Nat.is_succ p) as [j Hj]. rewrite Hj. cbn [shifted shr_m].
  replace (0 <? Z.pos p) with true by (symmetry; apply Z.ltb_lt; lia).
  do 2 f_equal. lia.
Qed.

Lemma rne_nonneg m n : 0 <= m -> 0 <= n -> 0 <= rne m n.
Proof.
  intros Hm Hn. unfold rne.
  assert (0 < 2 ^ n) by (apply Z.pow_pos_nonneg; lia).
  assert (0 <= m / 2 ^ n) by (apply Z.div_pos; lia).
  destruct (_ ?= _); [destruct (Z.even _)|..]; lia.
Qed.

Lemma rnd_nonneg m n : 0 <= m -> 0 <= rnd m n.
Proof.
  intros Hm. unfold rnd. destruct (Z.ltb_spec 0 n); [apply rne_nonneg; lia | assumption].
Qed.

Lemma binary_round_aux_exact s m e : 0 <= m ->
  binary_round_aux prec emax s m e loc_Exact = bra_spec s m e.
Proof.
  intros Hm. unfold binary_round_aux, bra_spec.
  rewrite shr_fexp_exact by assumption.
  rewrite rnd_shifted by assumption.
  rewrite shr_fexp_exact by (apply rnd_nonneg; assumption).
  rewrite shifted_m. reflexivity.
Qed.

(** * Properties of integer rounding: bounds, exactness, monotonicity *)

Lemma pow2_pos n : 0 <= n -> 0 < 2 ^ n.
Proof. intros; apply Z.pow_pos_nonneg; lia. Qed.

Lemma rne_bounds m n : 0 <= n -> m / 2 ^ n <= rne m n <= m / 2 ^ n + 1.
Proof.
  intros Hn. unfold rne. destruct (_ ?= _); [destruct (Z.even _)|..]; lia.
Qed.

Lemma rne_exact q n : 0 <= n -> rne (q * 2 ^ n) n = q.
Proof.
  intros Hn. pose proof (pow2_pos n Hn) as Hp. unfold rne.
  rewrite Z.mod_mul, Z.div_mul by lia.
  destruct (Z.compare_spec (2 * 0) (2 ^ n)); try lia.
Qed.

Lemma rne_mono a b n : 0 <= n -> a <= b -> rne a n <= rne b n.
Proof.
  intros Hn Hab. pose proof (pow2_pos n Hn) as Hp. unfold rne.
  pose proof (Z.div_mod a (2 ^ n) ltac:(lia)) as Ea.
  pose proof (Z.div_mod b (2 ^ n) ltac:(lia)) as Eb.
  pose proof (Z.mod_pos_bound a (2 ^ n) Hp) as Ba.
  pose proof (Z.mod_pos_bound b (2 ^ n) Hp) as Bb.
  pose proof (Z.div_le_mono a b (2 ^ n) Hp Hab) as Hq.
  set (P := 2 ^ n) in *. set (qa := a / P) in *. set (qb := b / P) in *.
  set (ra := a mod P) in *. set (rb := b mod P) in *.
  assert (Hc : qa < qb \/ (qa = qb /\ ra <= rb)) by nia.
  destruct Hc as [Hc | [Hc Hr]].
  - destruct (Z.compare_spec (2 * ra) P); destruct (Z.compare_spec (2 * rb) P);
      try destruct (Z.even qa); try destruct (Z.even qb); lia.
  - rewrite <- Hc.
    destruct (Z.compare_spec (2 * ra) P); destruct (Z.compare_spec (2 * rb) P);
      try destruct (Z.even qa); lia.
Qed.

Lemma rne_scale m n j : 0 <= n -> 0 <= j -> rne (m * 2 ^ j) (n + j) = rne m n.
Proof.
  intros Hn Hj. pose proof (pow2_pos n Hn). pose proof (pow2_pos j Hj).
  unfold rne. rewrite Z.pow_add_r by lia.
  rewrite Z.div_mul_cancel_r by lia.
  rewrite Z.mul_mod_distr_r by lia.
  rewrite Z.mul_assoc, <- Zmult_compare_compat_r by lia. reflexivity.
Qed.

Lemma cexpK_eq X : cexpK X = Z.max (Z.log2 X - 2200) (-1074).
Proof. unfold cexpK, K. rewrite fexp64_eq. lia. Qed.

Lemma pow2_add a b : 0 <= a -> 0 <= b -> 2 ^ a * 2 ^ b = 2 ^ (a + b).
Proof. intros. rewrite Z.pow_add_r; lia. Qed.

Lemma RNDu_mono X Y : 0 < X -> X <= Y -> RNDu X <= RNDu Y.
Proof.
  intros HX HXY. unfold RNDu. rewrite !cexpK_eq. unfold K.
  pose proof (Z.log2_le_mono X Y HXY) as Hl.
  pose proof (Z.log2_nonneg X) as HlX.
  pose proof (Z.log2_spec X HX) as [HX1 HX2].
  pose proof (Z.log2_spec Y ltac:(lia)) as [HY1 HY2].
  set (lx := Z.log2 X) in *. set (ly := Z.log2 Y) in *.
  destruct (Z.eq_dec (Z.max (lx - 2200) (-1074)) (Z.max (ly - 2200) (-1074))) as [E|E].
  - rewrite E. apply Z.mul_le_mono_nonneg_r.
    + apply Z.lt_le_incl, pow2_pos. lia.
    + apply rne_mono; lia.
  - assert (HcY : Z.max (ly - 2200) (-1074) = ly - 2200) by lia.
    assert (Hlt : lx < ly) by lia.
    rewrite HcY.
    set (cX := Z.max (lx - 2200) (-1074)) in *.
    assert (HcX : -1074 <= cX <= ly - 2200) by lia.
    assert (HXP : X <= 2 ^ ly).
    { apply Z.lt_le_incl. eapply Z.lt_le_trans; [exact HX2|].
      apply Z.pow_le_mono_r; lia. }
    transitivity (2 ^ (ly - 1074)).
    + transitivity (rne (2 ^ ly) (cX + 2148) * 2 ^ (cX + 1074)).
      * apply Z.mul_le_mono_nonneg_r; [apply Z.lt_le_incl, pow2_pos; lia|].
        apply rne_mono; lia.
      * replace (2 ^ ly) with (2 ^ (ly - (cX + 2148)) * 2 ^ (cX + 2148))
          by (rewrite pow2_add by lia; f_equal; lia).
        rewrite rne_exact by lia. rewrite pow2_add by lia.
        apply Z.pow_le_mono_r; lia.
    + transitivity (rne (2 ^ ly) (ly - 2200 + 2148) * 2 ^ (ly - 2200 + 1074)).
      * replace (2 ^ ly) with (2 ^ 52 * 2 ^ (ly - 2200 + 2148))
          by (rewrite pow2_add by lia; f_equal; lia).
        rewrite rne_exact by lia. rewrite pow2_add by lia.
        apply Z.pow_le_mono_r; lia.
      * apply Z.mul_le_mono_nonneg_r; [apply Z.lt_le_incl, pow2_pos; lia|].
        apply rne_mono; lia.
Qed.

Lemma RNDu_0 : RNDu 0 = 0.
Proof. reflexivity. Qed.

Lemma RNDu_nonneg X : 0 <= X -> 0 <= RNDu X.
Proof.
  intros HX. unfold RNDu. rewrite cexpK_eq. unfold K.
  apply Z.mul_nonneg_nonneg.
  - apply rne_nonneg; lia.
  - apply Z.lt_le_incl, pow2_pos. lia.
Qed.

Lemma RND_mono X Y : 0 <= X -> X <= Y -> RND X <= RND Y.
Proof.
  intros HX HXY. unfold RND.
  destruct (Z.eq_dec X 0) as [->|].
  - rewrite RNDu_0. pose proof (RNDu_nonneg Y HXY).
    assert (0 < INF) by (unfold INF; apply pow2_pos; lia). lia.
  - pose proof (RNDu_mono X Y ltac:(lia) HXY). lia.
Qed.

Lemma pow2_mul_lt a p b q :
  0 <= a < 2 ^ p -> 0 <= b <= q -> 0 <= p -> a * 2 ^ b < 2 ^ (p + q).
Proof.
  intros Ha Hb Hp.
  apply Z.lt_le_trans with (2 ^ p * 2 ^ b).
  - apply Z.mul_lt_mono_pos_r; [apply pow2_pos|]; lia.
  - rewrite pow2_add by lia. apply Z.pow_le_mono_r; lia.
Qed.

Lemma pow2_mul_ge a p b q :
  2 ^ p <= a -> 0 <= q <= b -> 0 <= p -> 2 ^ (p + q) <= a * 2 ^ b.
Proof.
  intros Ha Hb Hp.
  apply Z.le_trans with (2 ^ p * 2 ^ b).
  - rewrite pow2_add by lia. apply Z.pow_le_mono_r; lia.
  - apply Z.mul_le_mono_nonneg_r; [apply Z.lt_le_incl, pow2_pos|]; lia.
Qed.

Lemma Zdigits2_le m p : 0 < m < 2 ^ p -> 0 <= p -> Zdigits2 m <= p.
Proof.
  intros [H0 H1] Hp. rewrite Zdigits2_log2 by assumption.
  apply Z.log2_lt_pow2 in H1; lia.
Qed.

Lemma Zdigits2_pow2 p : 0 <= p -> Zdigits2 (2 ^ p) = p + 1.
Proof.
  intros Hp. rewrite Zdigits2_log2 by (apply pow2_pos; assumption).
  rewrite Z.log2_pow2; lia.
Qed.

(** * Ranks of rounded results and of comparisons *)

Lemma bra_spec_rank s M E :
  0 < M -> - K <= E -> E <= fexp64 (Zdigits2 M + E) ->
  has_sign s (bra_spec s M E) /\
  rank (bra_spec s M E) = cond_Zopp s (RND (M * 2 ^ (E + K))) /\
  valid_binary (bra_spec s M E) = true.
Proof.
  intros HM HE Hpre. unfold K in HE.
  assert (Hlog : Z.log2 (M * 2 ^ (E + K)) = Z.log2 M + E + K).
  { unfold K. rewrite Z.log2_mul_pow2 by lia. lia. }
  assert (Hc : cexpK (M * 2 ^ (E + K)) = fexp64 (Zdigits2 M + E)).
  { unfold cexpK. rewrite Hlog, Zdigits2_log2 by assumption. f_equal. lia. }
  unfold RND, RNDu. rewrite Hc.
  unfold bra_spec.
  set (c := fexp64 (Zdigits2 M + E)) in *.
  assert (Hc1 : -1074 <= c) by (unfold c; rewrite fexp64_eq; lia).
  assert (Hc2 : Zdigits2 M + E - 53 <= c) by (unfold c; rewrite fexp64_eq; lia).
  assert (Hm1 : rnd M (c - E) = rne (M * 2 ^ (E + K)) (c + K)).
  { replace (c + K) with ((c - E) + (E + K)) by lia.
    unfold K. rewrite rne_scale by lia. unfold rnd.
    destruct (Z.ltb_spec 0 (c - E)); [reflexivity|].
    replace (c - E) with 0 by lia.
    rewrite <- (Z.mul_1_r M) at 2. change 1 with (2 ^ 0). rewrite rne_exact; lia. }
  rewrite <- Hm1.
  assert (He1 : (if 0 <? c - E then c else E) = c)
    by (destruct (Z.ltb_spec 0 (c - E)); lia).
  rewrite He1.
  assert (HdM : 2 ^ (Zdigits2 M - 1) <= M < 2 ^ Zdigits2 M).
  { destruct M as [|p|p]; try lia. apply digits2_bounds. }
  assert (HdM0 : 1 <= Zdigits2 M) by (rewrite Zdigits2_log2 by lia; pose proof (Z.log2_nonneg M); lia).
  assert (Hrn : rnd M (c - E) = rne M (c - E)).
  { unfold rnd. destruct (Z.ltb_spec 0 (c - E)); [reflexivity|].
    replace (c - E) with 0 by lia.
    rewrite <- (Z.mul_1_r M) at 2. change 1 with (2 ^ 0). rewrite rne_exact; lia. }
  pose proof (rne_bounds M (c - E) ltac:(lia)) as [Hlo Hhi].
  pose proof (rne_nonneg M (c - E) ltac:(lia) ltac:(lia)) as Hnn.
  rewrite <- Hrn in Hlo, Hhi, Hnn.
  assert (Hq : M / 2 ^ (c - E) < 2 ^ 53).
  { apply Z.div_lt_upper_bound; [apply pow2_pos; lia|].
    rewrite pow2_add by lia.
    eapply Z.lt_le_trans; [apply HdM|]. apply Z.pow_le_mono_r; lia. }
  set (m1 := rnd M (c - E)) in *.
  assert (Hbig : -1074 < c -> 2 ^ 52 <= m1).
  { intros Hc3. assert (c = Zdigits2 M + E - 53) by (unfold c in *; rewrite fexp64_eq in *; lia).
    eapply Z.le_trans; [|exact Hlo].
    apply Z.div_le_lower_bound; [apply pow2_pos; lia|].
    rewrite pow2_add by lia.
    eapply Z.le_trans; [|apply HdM]. apply Z.pow_le_mono_r; lia. }
  assert (Hcases : m1 = 0 \/ 0 < m1 < 2 ^ 53 \/ m1 = 2 ^ 53) by lia.
  change (emax - prec) with 971.
  destruct Hcases as [H0 | [H1 | H2]].
  - (* rounds to zero *)
    rewrite H0. cbn [Zdigits2]. rewrite fexp64_eq.
    replace (0 <? Z.max (0 + c - 53) (-1074) - c) with false
      by (symmetry; apply Z.ltb_ge; lia).
    cbv iota. split; [reflexivity|]. split; [|reflexivity]. cbn [rank].
    rewrite Z.mul_0_l.
    rewrite Z.min_l by (unfold INF; apply Z.lt_le_incl, pow2_pos; lia).
    destruct s; reflexivity.
  - pose proof (Zdigits2_le m1 53 H1 ltac:(lia)) as Hd1.
    rewrite fexp64_eq.
    replace (0 <? Z.max (Zdigits2 m1 + c - 53) (-1074) - c) with false
      by (symmetry; apply Z.ltb_ge; lia).
    destruct m1 as [|p|p] eqn:Em1; try lia.
    destruct (Z.leb_spec c 971) as [Hle|Hgt].
    + split; [reflexivity|]. split.
      * cbn [rank]. f_equal.
        rewrite Z.min_l; [reflexivity|].
        unfold INF. apply Z.lt_le_incl.
        replace 2098 with (53 + 2045) by lia. apply pow2_mul_lt; lia.
      * cbn [SpecFloat.valid_binary]. unfold bounded, canonical_mantissa.
        change (Zpos (digits2_pos p)) with (Zdigits2 (Zpos p)).
        change (emax - prec) with 971.
        apply andb_true_iff; split; [|apply Z.leb_le; assumption].
        apply Z.eqb_eq. rewrite fexp64_eq.
        destruct (Z.eq_dec c (-1074)) as [Ec|Ec]; [lia|].
        specialize (Hbig ltac:(lia)).
        rewrite Zdigits2_log2 in * by lia.
        apply Z.log2_le_pow2 in Hbig; lia.
    + split; [reflexivity|]. split; [|reflexivity]. cbn [rank]. f_equal.
      rewrite Z.min_r; [reflexivity|].
      unfold INF. replace 2098 with (52 + 2046) by lia.
      apply pow2_mul_ge; lia.
  - rewrite H2. rewrite Zdigits2_pow2 by lia. rewrite fexp64_eq.
    replace (Z.max (53 + 1 + c - 53) (-1074)) with (c + 1) by lia.
    replace (c + 1 - c) with 1 by lia. cbn [Z.ltb Z.compare].
    replace (2 ^ 53 / 2 ^ 1) with (2 ^ 52) by reflexivity.
    change (2 ^ 52) with (Zpos (Z.to_pos (2 ^ 52))).
    cbv iota.
    destruct (Z.leb_spec (c + 1) 971) as [Hle|Hgt].
    + split; [reflexivity|]. split.
      * cbn [rank]. f_equal.
        change (Zpos (Z.to_pos (2 ^ 52))) with (2 ^ 52).
        rewrite Z.min_l.
        -- replace (c + 1 + 1074) with (1 + (c + 1074)) by lia.
           rewrite <- pow2_add by lia. change (2 ^ 53) with (2 ^ 52 * 2 ^ 1). ring.
        -- unfold INF. replace 2098 with (53 + 2045) by lia.
           apply Z.lt_le_incl.
           assert (2 ^ 53 * 2 ^ (c + 1074) < 2 ^ (54 + 2044)); [|lia].
           apply pow2_mul_lt; lia.
      * cbn [SpecFloat.valid_binary]. unfold bounded, canonical_mantissa.
        change (emax - prec) with 971.
        apply andb_true_iff; split; [|apply Z.leb_le; assumption].
        apply Z.eqb_eq. rewrite fexp64_eq.
        change (Zpos (digits2_pos (Z.to_pos (2 ^ 52)))) with 53. lia.
    + split; [reflexivity|]. split; [|reflexivity]. cbn [rank]. f_equal.
      rewrite Z.min_r; [reflexivity|].
      unfold INF. replace 2098 with (53 + 2045) by lia.
      apply pow2_mul_ge; lia.
Qed.

Lemma valid_finite s m e :
  valid_binary (S754_finite s m e) = true ->
  -1074 <= e <= 971 /\ Zpos m < 2 ^ 53 /\ (-1074 < e -> 2 ^ 52 <= Zpos m).
Proof.
  cbn [SpecFloat.valid_binary]. unfold bounded, canonical_mantissa.
  rewrite andb_true_iff, Z.eqb_eq, Z.leb_le, fexp64_eq.
  change (emax - prec) with 971. intros [Hc He].
  pose proof (digits2_bounds m) as [Hlo Hhi].
  assert (Hd : Zpos (digits2_pos m) <= 53) by lia.
  repeat split; try lia.
  - eapply Z.lt_le_trans; [exact Hhi|]. apply Z.pow_le_mono_r; lia.
  - intros He'. assert (Zpos (digits2_pos m) = 53) as Hd' by lia.
    rewrite Hd' in Hlo. exact Hlo.
Qed.

Lemma rank_finite_bounds m e :
  valid_binary (S754_finite false m e) = true ->
  0 < Zpos m * 2 ^ (e + 1074) < INF.
Proof.
  intros Hv. apply valid_finite in Hv. destruct Hv as (He & Hm & _). split.
  - apply Z.mul_pos_pos; [lia | apply pow2_pos; lia].
  - unfold INF. replace 2098 with (53 + 2045) by lia. apply pow2_mul_lt; lia.
Qed.

Lemma rank_finite_lt m1 e1 m2 e2 :
  valid_binary (S754_finite false m1 e1) = true ->
  valid_binary (S754_finite false m2 e2) = true ->
  e1 < e2 -> Zpos m1 * 2 ^ (e1 + 1074) < Zpos m2 * 2 ^ (e2 + 1074).
Proof.
  intros H1 H2 Hlt. apply valid_finite in H1, H2.
  destruct H1 as (He1 & Hm1 & _). destruct H2 as (He2 & _ & Hm2).
  specialize (Hm2 ltac:(lia)).
  apply Z.lt_le_trans with (2 ^ (53 + (e1 + 1074))).
  - apply pow2_mul_lt; lia.
  - replace (53 + (e1 + 1074)) with (52 + (e1 + 1075)) by lia.
    apply pow2_mul_ge; lia.
Qed.

Lemma compare_finite_pos m1 e1 m2 e2 :
  valid_binary (S754_finite false m1 e1) = true ->
  valid_binary (S754_finite false m2 e2) = true ->
  match e1 ?= e2 with
  | Lt => Lt
  | Gt => Gt
  | Eq => Pos.compare_cont Eq m1 m2
  end = (Zpos m1 * 2 ^ (e1 + 1074) ?= Zpos m2 * 2 ^ (e2 + 1074)).
Proof.
  intros H1 H2. destruct (Z.compare_spec e1 e2) as [E|L|G].
  - subst e2. apply valid_finite in H1. destruct H1 as (He & _).
    assert (Hp : 2 ^ (e1 + 1074) > 0) by (apply Z.lt_gt, pow2_pos; lia).
    rewrite <- (Zmult_compare_compat_r _ _ _ Hp).
    reflexivity.
  - symmetry. apply Z.compare_lt_iff. apply rank_finite_lt; assumption.
  - symmetry. apply Z.compare_gt_iff. apply rank_finite_lt; assumption.
Qed.

Lemma SFcompare_rank x y :
  valid_binary x = true -> valid_binary y = true ->
  x <> S754_nan -> y <> S754_nan ->
  SFcompare x y = Some (rank x ?= rank y).
Proof.
  intros Hx Hy Nx Ny.
  assert (HI : 0 < INF) by (unfold INF; apply pow2_pos; lia).
  destruct x as [sx|sx| |sx mx ex], y as [sy|sy| |sy my ey]; try congruence;
    cbn [SFcompare rank].
  - reflexivity.
  - f_equal. destruct sy; cbn [cond_Zopp]; symmetry;
      [apply Z.compare_gt_iff | apply Z.compare_lt_iff]; lia.
  - assert (Hy' : valid_binary (S754_finite false my ey) = true) by exact Hy.
    apply rank_finite_bounds in Hy'.
    f_equal. destruct sy; cbn [cond_Zopp]; symmetry;
      [apply Z.compare_gt_iff | apply Z.compare_lt_iff]; lia.
  - f_equal. destruct sx; cbn [cond_Zopp]; symmetry;
      [apply Z.compare_lt_iff | apply Z.compare_gt_iff]; lia.
  - f_equal. destruct sx, sy; cbn [cond_Zopp]; symmetry;
      first [apply Z.compare_eq_iff | apply Z.compare_lt_iff | apply Z.compare_gt_iff]; lia.
  - assert (Hy' : valid_binary (S754_finite false my ey) = true) by exact Hy.
    apply rank_finite_bounds in Hy'.
    f_equal. destruct sx, sy; cbn [cond_Zopp]; symmetry;
      first [apply Z.compare_lt_iff | apply Z.compare_gt_iff]; lia.
  - assert (Hx' : valid_binary (S754_finite false mx ex) = true) by exact Hx.
    apply rank_finite_bounds in Hx'.
    f_equal. destruct sx; cbn [cond_Zopp]; symmetry;
      [apply Z.compare_lt_iff | apply Z.compare_gt_iff]; lia.
  - assert (Hx' : valid_binary (S754_finite false mx ex) = true) by exact Hx.
    apply rank_finite_bounds in Hx'.
    f_equal. destruct sx, sy; cbn [cond_Zopp]; symmetry;
      first [apply Z.compare_lt_iff | apply Z.compare_gt_iff]; lia.
  - assert (Hx' : valid_binary (S754_finite false mx ex) = true) by exact Hx.
    assert (Hy' : valid_binary (S754_finite false my ey) = true) by exact Hy.
    pose proof (rank_finite_bounds _ _ Hx').
    pose proof (rank_finite_bounds _ _ Hy').
    f_equal. destruct sx, sy; cbn [cond_Zopp].
    + destruct (Z.compare_spec ex ey) as [E|L|G].
      * subst ey. rewrite Z.compare_opp.
        assert (Hp : 2 ^ (ex + 1074) > 0)
          by (apply Z.lt_gt, pow2_pos; apply valid_finite in Hx'; lia).
        rewrite <- (Zmult_compare_compat_r _ _ _ Hp).
        change (Zpos my ?= Zpos mx) with (Pos.compare my mx).
        rewrite (Pos.compare_antisym mx my). reflexivity.
      * pose proof (rank_finite_lt _ _ _ _ Hx' Hy' L).
        symmetry. apply Z.compare_gt_iff. lia.
      * pose proof (rank_finite_lt _ _ _ _ Hy' Hx' G).
        symmetry. apply Z.compare_lt_iff. lia.
    + symmetry. apply Z.compare_lt_iff. lia.
    + symmetry. apply Z.compare_gt_iff. lia.
    + apply compare_finite_pos; assumption.
Qed.

Lemma RND_nonneg X : 0 <= X -> 0 <= RND X.
Proof.
  intros HX. unfold RND. pose proof (RNDu_nonneg X HX).
  assert (0 < INF) by (unfold INF; apply pow2_pos; lia). lia.
Qed.

Lemma RND_le_INF X : RND X <= INF.
Proof. unfold RND. lia. Qed.

Lemma RND_0 : RND 0 = 0.
Proof. reflexivity. Qed.

Lemma sRND_mono X Y : X <= Y -> sRND X <= sRND Y.
Proof.
  intros HXY. unfold sRND.
  destruct (Z.ltb_spec X 0), (Z.ltb_spec Y 0); try lia.
  - pose proof (RND_mono (- Y) (- X) ltac:(lia) ltac:(lia)). lia.
  - pose proof (RND_nonneg (- X) ltac:(lia)). pose proof (RND_nonneg Y ltac:(lia)). lia.
  - apply RND_mono; lia.
Qed.

Lemma sRND_bounds X : - INF <= sRND X <= INF.
Proof.
  unfold sRND. destruct (Z.ltb_spec X 0).
  - pose proof (RND_nonneg (- X) ltac:(lia)). pose proof (RND_le_INF (- X)). lia.
  - pose proof (RND_nonneg X ltac:(lia)). pose proof (RND_le_INF X). lia.
Qed.

Lemma sRND_opp X : sRND (- X) = - sRND X.
Proof.
  unfold sRND. destruct (Z.ltb_spec X 0), (Z.ltb_spec (- X) 0); try lia.
  - rewrite Z.opp_involutive. reflexivity.
  - replace X with 0 by lia. rewrite RND_0. reflexivity.
Qed.

Lemma cond_Zopp_sRND s X : 0 <= X -> cond_Zopp s (RND X) = sRND (cond_Zopp s X).
Proof.
  intros HX. destruct s; cbn [cond_Zopp]; [|unfold sRND; destruct (Z.ltb_spec X 0); [lia|reflexivity]].
  rewrite sRND_opp. unfold sRND. destruct (Z.ltb_spec X 0); [lia|reflexivity].
Qed.

(** a representable value is its own rounding *)
Lemma RND_valid m e :
  valid_binary (S754_finite false m e) = true ->
  RND (Zpos m * 2 ^ (e + 1074) * 2 ^ 1074) = Zpos m * 2 ^ (e + 1074).
Proof.
  intros Hv. pose proof (rank_finite_bounds m e Hv) as Hb.
  pose proof (valid_finite _ _ _ Hv) as (He & _ & _).
  revert Hv. cbn [SpecFloat.valid_binary]. unfold bounded, canonical_mantissa.
  rewrite andb_true_iff, Z.eqb_eq. intros [Hc _].
  rewrite <- Z.mul_assoc, pow2_add by lia.
  unfold RND, RNDu, cexpK.
  rewrite Z.log2_mul_pow2 by lia.
  replace (e + 1074 + 1074 + Z.log2 (Zpos m) + 1 - K) with (Zdigits2 (Zpos m) + e)
    by (rewrite Zdigits2_log2 by lia; unfold K; lia).
  cbn [Zdigits2]. rewrite Hc.
  replace (e + 1074 + 1074) with (e + K) by (unfold K; lia).
  rewrite rne_exact by (unfold K; lia). lia.
Qed.

(** * Ranks of products, sums, differences and square roots of finite doubles *)

(** alignment *)
Lemma iter_xO m d : Zpos (Pos.iter xO m d) = Zpos m * 2 ^ Zpos d.
Proof.
  induction d as [|d IH] using Pos.peano_ind.
  - cbn [Pos.iter]. lia.
  - rewrite Pos.iter_succ, Pos2Z.inj_succ, Z.pow_succ_r by lia.
    rewrite Pos2Z.inj_xO, IH. ring.
Qed.

Lemma shl_align_spec m e e' :
  snd (shl_align m e e') = Z.min e e' /\
  Zpos (fst (shl_align m e e')) = Zpos m * 2 ^ (e - Z.min e e').
Proof.
  unfold shl_align. destruct (e' - e) as [|d|d] eqn:Ed; cbn [fst snd].
  - rewrite Z.min_l by lia. rewrite Z.sub_diag. lia.
  - rewrite Z.min_l by lia. rewrite Z.sub_diag. lia.
  - rewrite Z.min_r by lia. rewrite iter_xO. split; [reflexivity|].
    do 2 f_equal. lia.
Qed.

Lemma binary_round_rank s m e :
  - K <= e ->
  has_sign s (binary_round prec emax s m e) /\
  rank (binary_round prec emax s m e) = cond_Zopp s (RND (Zpos m * 2 ^ (e + K))) /\
  valid_binary (binary_round prec emax s m e) = true.
Proof.
  intros He. unfold binary_round.
  pose proof (shl_align_spec m e (fexp64 (Zpos (digits2_pos m) + e))) as [Hs Hf].
  destruct (shl_align m e (fexp64 (Zpos (digits2_pos m) + e))) as [mz ez].
  cbn [fst snd] in Hs, Hf.
  rewrite binary_round_aux_exact by lia.
  assert (Hfe : -1074 <= fexp64 (Zpos (digits2_pos m) + e)) by (rewrite fexp64_eq; lia).
  unfold K in *.
  replace (Zpos m * 2 ^ (e + 2148)) with (Zpos mz * 2 ^ (ez + 2148)).
  2:{ rewrite Hf. rewrite <- Z.mul_assoc, pow2_add by lia. do 2 f_equal. lia. }
  apply bra_spec_rank; unfold K; try lia.
  assert (Hd : Zdigits2 (Zpos mz) + ez = Zpos (digits2_pos m) + e).
  { pose proof (Zdigits2_log2 (Zpos m) ltac:(lia)) as Hdm. cbn [Zdigits2] in Hdm.
    rewrite Hf. rewrite Zdigits2_log2 by (apply Z.mul_pos_pos; [lia | apply pow2_pos; lia]).
    rewrite Z.log2_mul_pow2 by lia. lia. }
  rewrite Hd. lia.
Qed.

Lemma binary_normalize_rank S E :
  - K <= E ->
  nonnan (binary_normalize prec emax S E false) /\
  rank (binary_normalize prec emax S E false) = sRND (S * 2 ^ (E + K)) /\
  valid_binary (binary_normalize prec emax S E false) = true.
Proof.
  intros HE. assert (0 < 2 ^ (E + K)) by (apply pow2_pos; lia).
  destruct S as [|m|m]; cbn [binary_normalize].
  - repeat split; discriminate.
  - destruct (binary_round_rank false m E HE) as (Hs & Hr & Hv).
    repeat split; [|rewrite Hr|exact Hv].
    + intros Hn. rewrite Hn in Hs. exact Hs.
    + apply (cond_Zopp_sRND false). lia.
  - destruct (binary_round_rank true m E HE) as (Hs & Hr & Hv).
    repeat split; [|rewrite Hr|exact Hv].
    + intros Hn. rewrite Hn in Hs. exact Hs.
    + rewrite (cond_Zopp_sRND true) by lia. cbn [cond_Zopp]. f_equal. lia.
Qed.

Lemma sRND_rank x :
  valid_binary x = true -> finite_or_zero x -> sRND (rank x * 2 ^ 1074) = rank x.
Proof.
  intros Hv Hf. destruct x as [s|s| |s m e]; try contradiction; cbn [rank].
  - reflexivity.
  - assert (Hv' : valid_binary (S754_finite false m e) = true) by exact Hv.
    pose proof (rank_finite_bounds m e Hv') as Hb.
    pose proof (RND_valid m e Hv') as Hr.
    replace (cond_Zopp s (Zpos m * 2 ^ (e + 1074)) * 2 ^ 1074)
      with (cond_Zopp s (Zpos m * 2 ^ (e + 1074) * 2 ^ 1074))
      by (destruct s; cbn [cond_Zopp]; ring).
    rewrite <- cond_Zopp_sRND by (apply Z.mul_nonneg_nonneg; [lia | apply Z.lt_le_incl, pow2_pos; lia]).
    rewrite Hr. reflexivity.
Qed.

Lemma SFmul_finite_rank sx mx ex sy my ey :
  valid_binary (S754_finite sx mx ex) = true ->
  valid_binary (S754_finite sy my ey) = true ->
  has_sign (xorb sx sy) (SF64mul (S754_finite sx mx ex) (S754_finite sy my ey)) /\
  rank (SF64mul (S754_finite sx mx ex) (S754_finite sy my ey)) =
    cond_Zopp (xorb sx sy)
      (RND ((Zpos mx * 2 ^ (ex + 1074)) * (Zpos my * 2 ^ (ey + 1074)))).
Proof.
  intros Hx Hy. unfold SF64mul. cbn [SFmul].
  rewrite binary_round_aux_exact by lia.
  pose proof (valid_finite _ _ _ Hx) as (Hex & _ & _).
  pose proof (valid_finite _ _ _ Hy) as (Hey & _ & _).
  replace (Zpos mx * 2 ^ (ex + 1074) * (Zpos my * 2 ^ (ey + 1074)))
    with (Zpos (mx * my) * 2 ^ (ex + ey + K)).
  2:{ unfold K. rewrite Pos2Z.inj_mul.
      replace (ex + ey + 2148) with ((ex + 1074) + (ey + 1074)) by lia.
      rewrite <- pow2_add by lia. ring. }
  destruct (bra_spec_rank (xorb sx sy) (Zpos (mx * my)) (ex + ey)) as (Hs & Hr & _);
    try (unfold K; lia); [|split; assumption].
  revert Hx Hy. cbn [SpecFloat.valid_binary]. unfold bounded, canonical_mantissa.
  rewrite !andb_true_iff, !Z.eqb_eq, !fexp64_eq. intros [Hcx _] [Hcy _].
  rewrite Zdigits2_log2, Pos2Z.inj_mul by lia.
  pose proof (Z.log2_mul_below (Zpos mx) (Zpos my) ltac:(lia) ltac:(lia)) as Hl.
  pose proof (Zdigits2_log2 (Zpos mx) ltac:(lia)) as Hdx.
  pose proof (Zdigits2_log2 (Zpos my) ltac:(lia)) as Hdy.
  cbn [Zdigits2] in Hdx, Hdy.
  pose proof (Z.log2_nonneg (Zpos mx)). pose proof (Z.log2_nonneg (Zpos my)).
  lia.
Qed.

Lemma aligned_sum sx mx ex sy my ey sgn :
  -1074 <= ex -> -1074 <= ey ->
  (cond_Zopp sx (Zpos (fst (shl_align mx ex (Z.min ex ey))))
   + sgn * cond_Zopp sy (Zpos (fst (shl_align my ey (Z.min ex ey)))))
  * 2 ^ (Z.min ex ey + K) =
  (cond_Zopp sx (Zpos mx * 2 ^ (ex + 1074))
   + sgn * cond_Zopp sy (Zpos my * 2 ^ (ey + 1074))) * 2 ^ 1074.
Proof.
  intros Hex Hey. unfold K.
  pose proof (shl_align_spec mx ex (Z.min ex ey)) as [_ Hx].
  pose proof (shl_align_spec my ey (Z.min ex ey)) as [_ Hy].
  rewrite Hx, Hy.
  replace (Z.min ex (Z.min ex ey)) with (Z.min ex ey) by lia.
  replace (Z.min ey (Z.min ex ey)) with (Z.min ex ey) by lia.
  set (ez := Z.min ex ey).
  replace (2 ^ (ex + 1074)) with (2 ^ (ex - ez) * 2 ^ (ez + 1074))
    by (rewrite pow2_add by lia; f_equal; lia).
  replace (2 ^ (ey + 1074)) with (2 ^ (ey - ez) * 2 ^ (ez + 1074))
    by (rewrite pow2_add by lia; f_equal; lia).
  replace (2 ^ (ez + 2148)) with (2 ^ (ez + 1074) * 2 ^ 1074)
    by (rewrite pow2_add by lia; f_equal; lia).
  destruct sx, sy; cbn [cond_Zopp]; ring.
Qed.

Lemma SFadd_finite_rank x y :
  valid_binary x = true -> valid_binary y = true ->
  finite_or_zero x -> finite_or_zero y ->
  nonnan (SF64add x y) /\
  rank (SF64add x y) = sRND ((rank x + rank y) * 2 ^ 1074).
Proof.
  intros Hx Hy Fx Fy. unfold SF64add.
  destruct x as [sx|sx| |sx mx ex], y as [sy|sy| |sy my ey]; try contradiction.
  - split; [destruct sx, sy; discriminate | destruct sx, sy; reflexivity].
  - split; [discriminate|]. cbn [SFadd].
    change (rank (S754_zero sx)) with 0. rewrite Z.add_0_l.
    symmetry. apply sRND_rank; [assumption | exact I].
  - split; [discriminate|]. cbn [SFadd].
    change (rank (S754_zero sy)) with 0. rewrite Z.add_0_r.
    symmetry. apply sRND_rank; [assumption | exact I].
  - cbn [SFadd rank].
    pose proof (valid_finite _ _ _ Hx) as (Hex & _ & _).
    pose proof (valid_finite _ _ _ Hy) as (Hey & _ & _).
    destruct (binary_normalize_rank
      (cond_Zopp sx (Zpos (fst (shl_align mx ex (Z.min ex ey))))
       + cond_Zopp sy (Zpos (fst (shl_align my ey (Z.min ex ey)))))
      (Z.min ex ey)) as (Hn & Hr & _); [unfold K; lia|].
    split; [exact Hn|]. rewrite Hr.
    pose proof (aligned_sum sx mx ex sy my ey 1 ltac:(lia) ltac:(lia)) as Ha.
    rewrite !Z.mul_1_l in Ha. rewrite Ha. reflexivity.
Qed.

Lemma SFsub_finite_rank x y :
  valid_binary x = true -> valid_binary y = true ->
  finite_or_zero x -> finite_or_zero y ->
  nonnan (SF64sub x y) /\
  rank (SF64sub x y) = sRND ((rank x - rank y) * 2 ^ 1074).
Proof.
  intros Hx Hy Fx Fy. unfold SF64sub.
  destruct x as [sx|sx| |sx mx ex], y as [sy|sy| |sy my ey]; try contradiction.
  - split; [destruct sx, sy; discriminate | destruct sx, sy; reflexivity].
  - split; [discriminate|]. cbn [SFsub].
    assert (Hy' : valid_binary (S754_finite (negb sy) my ey) = true) by exact Hy.
    change (rank (S754_zero sx)) with 0. rewrite Z.sub_0_l.
    replace (- rank (S754_finite sy my ey)) with (rank (S754_finite (negb sy) my ey))
      by (cbn [rank]; destruct sy; cbn [negb cond_Zopp]; ring).
    symmetry. apply sRND_rank; [assumption | exact I].
  - split; [discriminate|]. cbn [SFsub].
    change (rank (S754_zero sy)) with 0. rewrite Z.sub_0_r.
    symmetry. apply sRND_rank; [assumption | exact I].
  - cbn [SFsub rank].
    pose proof (valid_finite _ _ _ Hx) as (Hex & _ & _).
    pose proof (valid_finite _ _ _ Hy) as (Hey & _ & _).
    destruct (binary_normalize_rank
      (cond_Zopp sx (Zpos (fst (shl_align mx ex (Z.min ex ey))))
       - cond_Zopp sy (Zpos (fst (shl_align my ey (Z.min ex ey)))))
      (Z.min ex ey)) as (Hn & Hr & _); [unfold K; lia|].
    split; [exact Hn|]. rewrite Hr.
    pose proof (aligned_sum sx mx ex sy my ey (-1) ltac:(lia) ltac:(lia)) as Ha.
    f_equal. lia.
Qed.

Lemma SQRT_radicand X :
  0 < X ->
  let e := (Z.log2 X - 1178) / 2 in
  let a := - 2 * e - 1074 in
  let m := if 0 <=? a then X * 2 ^ a else X / 2 ^ (- a) in
  2 ^ 104 <= m < 2 ^ 106.
Proof.
  intros HX e a m.
  pose proof (Z.log2_spec X HX) as [H1 H2]. pose proof (Z.log2_nonneg X) as HL.
  set (L := Z.log2 X) in *.
  assert (Ha : 104 - L <= a <= 105 - L).
  { unfold a, e. pose proof (Z.div_mod (L - 1178) 2 ltac:(lia)).
    pose proof (Z.mod_pos_bound (L - 1178) 2 ltac:(lia)). lia. }
  unfold m. destruct (Z.leb_spec 0 a) as [Hp|Hn].
  - split.
    + destruct (Z.leb_spec 0 (104 - L)).
      * replace 104 with (L + (104 - L)) by lia.
        apply pow2_mul_ge; lia.
      * replace a with 0 by lia. rewrite Z.pow_0_r, Z.mul_1_r.
        eapply Z.le_trans; [|exact H1]. apply Z.pow_le_mono_r; lia.
    + replace 106 with ((L + 1) + (105 - L)) by lia.
      apply pow2_mul_lt; lia.
  - split.
    + apply Z.div_le_lower_bound; [apply pow2_pos; lia|].
      rewrite pow2_add by lia. eapply Z.le_trans; [|exact H1].
      apply Z.pow_le_mono_r; lia.
    + apply Z.div_lt_upper_bound; [apply pow2_pos; lia|].
      rewrite pow2_add by lia. eapply Z.lt_le_trans; [exact H2|].
      apply Z.pow_le_mono_r; lia.
Qed.

Lemma sqrt_bounds m : 2 ^ 104 <= m < 2 ^ 106 -> 2 ^ 52 <= Z.sqrt m < 2 ^ 53.
Proof.
  intros [H1 H2]. split.
  - change (2 ^ 52) with (Z.sqrt (2 ^ 104)). apply Z.sqrt_le_mono. assumption.
  - apply Z.sqrt_lt_square; [lia | lia |]. exact H2.
Qed.

Lemma sqrt_round_mono m n :
  0 <= m <= n ->
  (if m - Z.sqrt m * Z.sqrt m <=? Z.sqrt m then Z.sqrt m else Z.sqrt m + 1)
  <= (if n - Z.sqrt n * Z.sqrt n <=? Z.sqrt n then Z.sqrt n else Z.sqrt n + 1).
Proof.
  intros [Hm Hmn]. pose proof (Z.sqrt_le_mono m n Hmn) as Hq.
  pose proof (Z.sqrt_spec m Hm) as Sm. pose proof (Z.sqrt_spec n ltac:(lia)) as Sn.
  destruct (Z.leb_spec (m - Z.sqrt m * Z.sqrt m) (Z.sqrt m));
  destruct (Z.leb_spec (n - Z.sqrt n * Z.sqrt n) (Z.sqrt n)); try lia.
  assert (Hc : Z.sqrt m < Z.sqrt n \/ Z.sqrt m = Z.sqrt n) by lia.
  destruct Hc as [Hc|Hc]; [lia|]. rewrite Hc in *. lia.
Qed.

Lemma SQRT_mono X Y : 0 < X -> X <= Y -> SQRT X <= SQRT Y.
Proof.
  intros HX HXY.
  pose proof (SQRT_radicand X HX) as RX. pose proof (SQRT_radicand Y ltac:(lia)) as RY.
  unfold SQRT. cbv zeta in RX, RY.
  pose proof (Z.log2_le_mono X Y HXY) as HL.
  assert (He : (Z.log2 X - 1178) / 2 <= (Z.log2 Y - 1178) / 2)
    by (apply Z.div_le_mono; lia).
  assert (Hlo : -589 <= (Z.log2 X - 1178) / 2).
  { apply Z.div_le_lower_bound; [lia|]. pose proof (Z.log2_nonneg X). lia. }
  set (ex := (Z.log2 X - 1178) / 2) in *. set (ey := (Z.log2 Y - 1178) / 2) in *.
  set (mx := if 0 <=? -2 * ex - 1074 then X * 2 ^ (-2 * ex - 1074) else X / 2 ^ (- (-2 * ex - 1074))) in *.
  set (my := if 0 <=? -2 * ey - 1074 then Y * 2 ^ (-2 * ey - 1074) else Y / 2 ^ (- (-2 * ey - 1074))) in *.
  pose proof (sqrt_bounds mx RX) as QX. pose proof (sqrt_bounds my RY) as QY.
  destruct (Z.eq_dec ex ey) as [E|E].
  - assert (Hmy : my = if 0 <=? -2 * ex - 1074 then Y * 2 ^ (-2 * ex - 1074)
                        else Y / 2 ^ (- (-2 * ex - 1074)))
      by (unfold my; rewrite <- E; reflexivity).
    rewrite <- E. apply Z.mul_le_mono_nonneg_r; [apply Z.lt_le_incl, pow2_pos; lia|].
    apply sqrt_round_mono. split; [lia|].
    rewrite Hmy. unfold mx. destruct (Z.leb_spec 0 (-2 * ex - 1074)).
    + apply Z.mul_le_mono_nonneg_r; [apply Z.lt_le_incl, pow2_pos; lia | assumption].
    + apply Z.div_le_mono; [apply pow2_pos; lia | assumption].
  - transitivity (2 ^ (53 + (ex + 1074))).
    + rewrite <- (pow2_add 53 (ex + 1074)) by lia.
      apply Z.mul_le_mono_nonneg_r; [apply Z.lt_le_incl, pow2_pos; lia|].
      destruct (mx - Z.sqrt mx * Z.sqrt mx <=? Z.sqrt mx); lia.
    + replace (53 + (ex + 1074)) with (52 + (ex + 1075)) by lia.
      apply pow2_mul_ge; try lia.
      destruct (my - Z.sqrt my * Z.sqrt my <=? Z.sqrt my); lia.
Qed.

Lemma Zdigits2_53 q : 2 ^ 52 <= q < 2 ^ 53 -> Zdigits2 q = 53.
Proof.
  intros Hq. rewrite Zdigits2_log2 by lia.
  rewrite (Z.log2_unique q 52); [reflexivity | lia | exact Hq].
Qed.

Lemma binary_round_aux_noshift s q e l :
  2 ^ 52 <= q < 2 ^ 53 -> -1074 <= e <= 900 ->
  has_sign s (binary_round_aux prec emax s q e l) /\
  rank (binary_round_aux prec emax s q e l) =
    cond_Zopp s (round_nearest_even q l * 2 ^ (e + 1074)).
Proof.
  intros Hq He. unfold binary_round_aux.
  assert (Hs : shr_fexp prec emax q e l = (shr_record_of_loc q l, e)).
  { unfold shr_fexp. rewrite (Zdigits2_53 q Hq), fexp64_eq.
    replace (Z.max (53 + e - 53) (-1074) - e) with 0 by lia. reflexivity. }
  rewrite Hs.
  assert (Hl : loc_of_shr_record (shr_record_of_loc q l) = l)
    by (destruct l as [|[]]; reflexivity).
  assert (Hm : shr_m (shr_record_of_loc q l) = q)
    by (destruct l as [|[]]; reflexivity).
  rewrite Hl, Hm.
  assert (Hr : round_nearest_even q l = q \/ round_nearest_even q l = q + 1)
    by (destruct l as [|[]]; cbn [round_nearest_even]; try destruct (Z.even q); lia).
  set (m1 := round_nearest_even q l) in *.
  rewrite shr_fexp_exact by lia. rewrite shifted_m.
  change (emax - prec) with 971.
  assert (Hc : m1 < 2 ^ 53 \/ m1 = 2 ^ 53) by lia.
  destruct Hc as [Hc|Hc].
  - rewrite (Zdigits2_53 m1) by lia. rewrite fexp64_eq.
    replace (Z.max (53 + e - 53) (-1074) - e) with 0 by lia.
    cbn [Z.ltb Z.compare].
    destruct m1 as [|p|p] eqn:Em; try lia.
    replace (e <=? 971) with true by (symmetry; apply Z.leb_le; lia).
    split; reflexivity.
  - rewrite Hc. rewrite Zdigits2_pow2 by lia. rewrite fexp64_eq.
    replace (Z.max (53 + 1 + e - 53) (-1074)) with (e + 1) by lia.
    replace (e + 1 - e) with 1 by lia. cbn [Z.ltb Z.compare].
    replace (2 ^ 53 / 2 ^ 1) with (2 ^ 52) by reflexivity.
    change (2 ^ 52) with (Zpos (Z.to_pos (2 ^ 52))). cbv iota.
    replace (e + 1 <=? 971) with true by (symmetry; apply Z.leb_le; lia).
    split; [reflexivity|]. cbn [rank]. f_equal.
    change (Zpos (Z.to_pos (2 ^ 52))) with (2 ^ 52).
    replace (e + 1 + 1074) with (1 + (e + 1074)) by lia.
    rewrite <- pow2_add by lia. change (2 ^ 53) with (2 ^ 52 * 2 ^ 1). ring.
Qed.

Lemma SFsqrt_finite_rank m e :
  valid_binary (S754_finite false m e) = true ->
  has_sign false (SF64sqrt (S754_finite false m e)) /\
  rank (SF64sqrt (S754_finite false m e)) = SQRT (Zpos m * 2 ^ (e + 1074)).
Proof.
  intros Hv. pose proof (valid_finite _ _ _ Hv) as (He & Hm & _).
  pose proof (rank_finite_bounds m e Hv) as HX.
  pose proof (SQRT_radicand _ (proj1 HX)) as HR. cbv zeta in HR.
  revert Hv. cbn [SpecFloat.valid_binary]. unfold bounded, canonical_mantissa.
  rewrite andb_true_iff, Z.eqb_eq, fexp64_eq. intros [Hc _].
  unfold SF64sqrt, SFsqrt, SFsqrt_core_binary, SQRT.
  rewrite Z.log2_mul_pow2 in * by lia.
  pose proof (Zdigits2_log2 (Zpos m) ltac:(lia)) as Hd. cbn [Zdigits2] in Hd.
  pose proof (Z.log2_nonneg (Zpos m)) as Hl0.
  cbn [Zdigits2]. rewrite Hd in *. rewrite !Z.div2_div, fexp64_eq.
  set (L := Z.log2 (Zpos m)) in *.
  assert (He' : Z.min (Z.max ((L + 1 + e + 1) / 2 - 53) (-1074)) (e / 2)
                = (e + 1074 + L - 1178) / 2).
  { replace ((L + 1 + e + 1) / 2 - 53) with ((e + 1074 + L - 1178) / 2).
    2:{ replace (L + 1 + e + 1) with ((e + 1074 + L - 1178) + 53 * 2) by lia.
        rewrite Z.div_add by lia. lia. }
    pose proof (Z.div_le_mono (e + 1074 + L - 1178) e 2 ltac:(lia) ltac:(lia)).
    pose proof (Z.div_le_lower_bound (e + 1074 + L - 1178) 2 (-1074) ltac:(lia) ltac:(lia)).
    lia. }
  rewrite He'.
  set (e0 := (e + 1074 + L - 1178) / 2) in *.
  assert (Hs : 52 <= e - 2 * e0).
  { unfold e0. pose proof (Z.div_mod (e + 1074 + L - 1178) 2 ltac:(lia)).
    pose proof (Z.mod_pos_bound (e + 1074 + L - 1178) 2 ltac:(lia)). lia. }
  assert (He0 : -589 <= e0 <= 460).
  { unfold e0. split.
    - apply Z.div_le_lower_bound; lia.
    - apply Z.div_le_upper_bound; lia. }
  assert (Hrad : (if 0 <=? -2 * e0 - 1074
                  then Zpos m * 2 ^ (e + 1074) * 2 ^ (-2 * e0 - 1074)
                  else Zpos m * 2 ^ (e + 1074) / 2 ^ (- (-2 * e0 - 1074)))
                 = Zpos m * 2 ^ (e - 2 * e0)).
  { destruct (Z.leb_spec 0 (-2 * e0 - 1074)).
    - rewrite <- Z.mul_assoc, pow2_add by lia. do 2 f_equal. lia.
    - replace (e + 1074) with ((e - 2 * e0) + (- (-2 * e0 - 1074))) by lia.
      rewrite <- pow2_add by lia. rewrite Z.mul_assoc.
      apply Z.div_mul. apply Z.neq_sym, Z.lt_neq, pow2_pos. lia. }
  rewrite Hrad in *.
  destruct (e - 2 * e0) as [|p|p] eqn:Es; try lia.
  rewrite Z.shiftl_mul_pow2 by lia.
  set (m' := Zpos m * 2 ^ Zpos p) in *.
  pose proof (Z.sqrtrem_spec m' ltac:(lia)) as Hsr.
  pose proof (Z.sqrtrem_sqrt m') as Hsq.
  destruct (Z.sqrtrem m') as [q r]. cbn [fst] in Hsq. subst q.
  destruct Hsr as [Hsr Hr].
  pose proof (sqrt_bounds m' HR) as Hq.
  destruct (binary_round_aux_noshift false (Z.sqrt m') e0
    (if r =? 0 then loc_Exact else loc_Inexact (if r <=? Z.sqrt m' then Lt else Gt))
    Hq ltac:(lia)) as [Hsg Hrk].
  split; [exact Hsg|]. rewrite Hrk. cbn [cond_Zopp]. f_equal.
  replace (m' - Z.sqrt m' * Z.sqrt m') with r by lia.
  destruct (Z.eqb_spec r 0) as [Hr0|Hr0].
  - cbn [round_nearest_even]. replace (r <=? Z.sqrt m') with true; [reflexivity|].
    symmetry. apply Z.leb_le. lia.
  - destruct (r <=? Z.sqrt m'); reflexivity.
Qed.

(** * Order-theoretic facts on doubles, through ranks *)

Lemma INF_pos : 0 < INF.
Proof. unfold INF. apply pow2_pos. lia. Qed.

Lemma rank_finite_abs s m e :
  valid_binary (S754_finite s m e) = true ->
  - INF < rank (S754_finite s m e) < INF /\ rank (S754_finite s m e) <> 0.
Proof.
  intros Hv. assert (Hv' : valid_binary (S754_finite false m e) = true) by exact Hv.
  pose proof (rank_finite_bounds m e Hv'). cbn [rank]. destruct s; cbn [cond_Zopp]; lia.
Qed.

Lemma rank_bounds x : valid_binary x = true -> - INF <= rank x <= INF.
Proof.
  pose proof INF_pos. intros Hv. destruct x as [s|s| |s m e]; cbn [rank]; try lia.
  - destruct s; cbn [cond_Zopp]; lia.
  - pose proof (rank_finite_abs s m e Hv) as [Hb _]. cbn [rank] in Hb. lia.
Qed.

Lemma rank_lt_INF x :
  valid_binary x = true -> nonnan x -> rank x < INF -> - INF < rank x ->
  finite_or_zero x.
Proof.
  intros Hv Hn H1 H2. destruct x as [s|s| |s m e]; cbn [finite_or_zero]; auto.
  - cbn [rank] in *. destruct s; cbn [cond_Zopp] in *; lia.
Qed.

Lemma nn_rank x : valid_binary x = true -> nn x -> 0 <= rank x.
Proof.
  pose proof INF_pos. intros Hv Hn. destruct x as [s|s| |s m e]; cbn [rank]; try lia.
  - destruct s; [contradiction|]. cbn [cond_Zopp]. lia.
  - destruct s; [contradiction|].
    pose proof (rank_finite_bounds m e Hv). cbn [cond_Zopp]. lia.
Qed.

Lemma nn_nonnan x : nn x -> nonnan x.
Proof. intros H E. rewrite E in H. exact H. Qed.

Lemma fz_nonnan x : finite_or_zero x -> nonnan x.
Proof. intros H E. rewrite E in H. exact H. Qed.

Lemma rank_nonneg_nn x :
  valid_binary x = true -> nonnan x -> 0 <= rank x -> nn x.
Proof.
  pose proof INF_pos.
  intros Hv Hn Hr. destruct x as [s|s| |s m e]; cbn [nn]; auto.
  - destruct s; auto; cbn [rank cond_Zopp] in Hr; lia.
  - destruct s; auto. pose proof (rank_finite_bounds m e Hv).
    cbn [rank cond_Zopp] in Hr. lia.
Qed.

(** addition *)
Lemma SFadd_inf_l s c : finite_or_zero c -> SF64add (S754_infinity s) c = S754_infinity s.
Proof. destruct c; try contradiction; reflexivity. Qed.

Lemma SFadd_inf_r s x : finite_or_zero x -> SF64add x (S754_infinity s) = S754_infinity s.
Proof. destruct x; try contradiction; reflexivity. Qed.

Lemma shape_cases x :
  valid_binary x = true -> nonnan x ->
  finite_or_zero x \/ (x = S754_infinity false /\ rank x = INF)
  \/ (x = S754_infinity true /\ rank x = - INF).
Proof.
  intros Hv Hn. destruct x as [s|s| |s m e]; cbn [finite_or_zero rank]; auto.
  destruct s; auto.
Qed.

Lemma fz_rank x : valid_binary x = true -> finite_or_zero x -> - INF < rank x < INF.
Proof.
  pose proof INF_pos.
  intros Hv Hf. destruct x as [s|s| |s m e]; try contradiction; cbn [rank]; try lia.
  apply (rank_finite_abs s m e Hv).
Qed.

Lemma add_mono x x' c c' :
  nonnan (Prim2SF x) -> nonnan (Prim2SF x') ->
  finite_or_zero (Prim2SF c) -> finite_or_zero (Prim2SF c') ->
  rankF x <= rankF x' -> rankF c <= rankF c' ->
  nonnan (Prim2SF (x + c)) /\ nonnan (Prim2SF (x' + c')) /\
  rankF (x + c) <= rankF (x' + c').
Proof.
  intros Nx Nx' Fc Fc' Hx Hc.
  pose proof (rank_bounds _ (Prim2SF_valid (x + c))) as B1.
  pose proof (rank_bounds _ (Prim2SF_valid (x' + c'))) as B2.
  unfold rankF in *. rewrite !add_spec in *.
  pose proof (Prim2SF_valid x) as Vx. pose proof (Prim2SF_valid x') as Vx'.
  pose proof (Prim2SF_valid c) as Vc. pose proof (Prim2SF_valid c') as Vc'.
  pose proof (fz_rank _ Vc Fc). pose proof (fz_rank _ Vc' Fc').
  destruct (shape_cases _ Vx Nx) as [Fx | [[Ex Rx] | [Ex Rx]]];
  destruct (shape_cases _ Vx' Nx') as [Fx' | [[Ex' Rx'] | [Ex' Rx']]];
  try (pose proof (fz_rank _ Vx Fx)); try (pose proof (fz_rank _ Vx' Fx'));
  try lia;
  try (destruct (SFadd_finite_rank _ _ Vx Vc Fx Fc) as [N1 R1]);
  try (destruct (SFadd_finite_rank _ _ Vx' Vc' Fx' Fc') as [N2 R2]);
  try (rewrite Ex in * ); try (rewrite Ex' in * );
  try (rewrite (SFadd_inf_l _ _ Fc) in * ); try (rewrite (SFadd_inf_l _ _ Fc') in * );
  cbn [rank cond_Zopp] in *;
  (split; [assumption || discriminate | split; [assumption || discriminate|]]);
  try lia.
  rewrite R1, R2. apply sRND_mono.
  apply Z.mul_le_mono_nonneg_r; [apply Z.lt_le_incl, pow2_pos; lia | lia].
Qed.

(** subtraction from a finite double *)
Lemma SFsub_inf_r s c :
  finite_or_zero c -> SF64sub c (S754_infinity s) = S754_infinity (negb s).
Proof. destruct c; try contradiction; reflexivity. Qed.

Lemma sub_anti c x x' :
  finite_or_zero (Prim2SF c) ->
  nonnan (Prim2SF x) -> nonnan (Prim2SF x') ->
  rankF x <= rankF x' ->
  nonnan (Prim2SF (c - x)) /\ nonnan (Prim2SF (c - x')) /\
  rankF (c - x') <= rankF (c - x).
Proof.
  intros Fc Nx Nx' Hx.
  pose proof (rank_bounds _ (Prim2SF_valid (c - x))) as B1.
  pose proof (rank_bounds _ (Prim2SF_valid (c - x'))) as B2.
  unfold rankF in *. rewrite !sub_spec in *.
  pose proof (Prim2SF_valid x) as Vx. pose proof (Prim2SF_valid x') as Vx'.
  pose proof (Prim2SF_valid c) as Vc.
  destruct (shape_cases _ Vx Nx) as [Fx | [[Ex Rx] | [Ex Rx]]];
  destruct (shape_cases _ Vx' Nx') as [Fx' | [[Ex' Rx'] | [Ex' Rx']]];
  try (pose proof (fz_rank _ Vx Fx)); try (pose proof (fz_rank _ Vx' Fx'));
  try lia;
  try (destruct (SFsub_finite_rank _ _ Vc Vx Fc Fx) as [N1 R1]);
  try (destruct (SFsub_finite_rank _ _ Vc Vx' Fc Fx') as [N2 R2]);
  try (rewrite Ex in * ); try (rewrite Ex' in * );
  try (rewrite !(SFsub_inf_r true _ Fc) in * );
  try (rewrite !(SFsub_inf_r false _ Fc) in * );
  cbn [rank cond_Zopp negb] in *; unfold nonnan in *;
  (split; [assumption || discriminate | split; [assumption || discriminate|]]);
  try lia.
  rewrite R1, R2. apply sRND_mono.
  apply Z.mul_le_mono_nonneg_r; [apply Z.lt_le_incl, pow2_pos; lia | lia].
Qed.

(** multiplication by a positive finite double *)
Lemma has_sign_nn x : has_sign false x -> nn x.
Proof. destruct x as [s|s| |s m e]; cbn; intros H; try rewrite H; auto. Qed.

Lemma mul_pos_rank c mc ec x :
  Prim2SF c = S754_finite false mc ec ->
  nn (Prim2SF x) -> finite_or_zero (Prim2SF x) ->
  nn (Prim2SF (c * x)) /\ rankF (c * x) = RND (rankF c * rankF x).
Proof.
  intros Ec Nx Fx. unfold rankF. rewrite mul_spec, Ec.
  pose proof (Prim2SF_valid c) as Vc. rewrite Ec in Vc.
  pose proof (Prim2SF_valid x) as Vx.
  destruct (Prim2SF x) as [s|s| |s mx ex]; try contradiction.
  - cbn. rewrite Z.mul_0_r. split; [exact I | reflexivity].
  - destruct s; [contradiction|].
    destruct (SFmul_finite_rank false mc ec false mx ex Vc Vx) as [Hs Hr].
    split; [apply has_sign_nn; exact Hs | exact Hr].
Qed.

Lemma mul_pos_inf c mc ec x :
  Prim2SF c = S754_finite false mc ec ->
  Prim2SF x = S754_infinity false ->
  Prim2SF (c * x) = S754_infinity false.
Proof. intros Ec Ex. rewrite mul_spec, Ec, Ex. reflexivity. Qed.

Lemma nn_cases x :
  valid_binary x = true -> nn x ->
  (finite_or_zero x /\ 0 <= rank x < INF) \/ (x = S754_infinity false /\ rank x = INF).
Proof.
  intros Hv Hn. pose proof (nn_rank x Hv Hn).
  destruct (shape_cases x Hv (nn_nonnan x Hn)) as [F | [[E R] | [E R]]].
  - left. split; [exact F|]. pose proof (fz_rank x Hv F). lia.
  - right. split; assumption.
  - rewrite E in Hn. contradiction.
Qed.

Lemma mul_pos_mono c mc ec x x' :
  Prim2SF c = S754_finite false mc ec ->
  nn (Prim2SF x) -> nn (Prim2SF x') -> rankF x <= rankF x' ->
  nn (Prim2SF (c * x)) /\ nn (Prim2SF (c * x')) /\ rankF (c * x) <= rankF (c * x').
Proof.
  intros Ec Nx Nx' Hx.
  pose proof (Prim2SF_valid c) as Vc.
  assert (Hc : 0 < rankF c).
  { unfold rankF. rewrite Ec in *. apply (rank_finite_bounds mc ec Vc). }
  destruct (nn_cases _ (Prim2SF_valid x) Nx) as [[Fx Bx] | [Ex Rx]];
  destruct (nn_cases _ (Prim2SF_valid x') Nx') as [[Fx' Bx'] | [Ex' Rx']];
  unfold rankF in *.
  - destruct (mul_pos_rank c mc ec x Ec Nx Fx) as [N1 R1].
    destruct (mul_pos_rank c mc ec x' Ec Nx' Fx') as [N2 R2].
    unfold rankF in *. rewrite R1, R2. repeat split; try assumption.
    apply RND_mono; [apply Z.mul_nonneg_nonneg; lia|].
    apply Z.mul_le_mono_nonneg_l; lia.
  - destruct (mul_pos_rank c mc ec x Ec Nx Fx) as [N1 R1].
    rewrite (mul_pos_inf c mc ec x' Ec Ex').
    repeat split; try assumption; try exact I.
    unfold rankF in R1. rewrite R1. apply RND_le_INF.
  - lia.
  - rewrite (mul_pos_inf c mc ec x Ec Ex), (mul_pos_inf c mc ec x' Ec Ex').
    repeat split; try exact I. lia.
Qed.

(** multiplication of non-negative doubles keeps the sign *)
Lemma mul_nn_pos x c mc ec :
  nn (Prim2SF x) -> Prim2SF c = S754_finite false mc ec -> nn (Prim2SF (x * c)).
Proof.
  intros Nx Ec. rewrite mul_spec, Ec.
  pose proof (Prim2SF_valid c) as Vc. rewrite Ec in Vc.
  pose proof (Prim2SF_valid x) as Vx.
  destruct (Prim2SF x) as [s|s| |s mx ex]; try contradiction.
  - exact I.
  - destruct s; [contradiction | exact I].
  - destruct s; [contradiction|].
    apply has_sign_nn. apply (SFmul_finite_rank false mx ex false mc ec Vx Vc).
Qed.

(** square root *)
Lemma SQRT_INF : SQRT INF < INF.
Proof. vm_compute. reflexivity. Qed.

Lemma SQRT_pos X : 0 < X -> 0 < SQRT X.
Proof.
  intros HX. pose proof (SQRT_radicand X HX) as HR. cbv zeta in HR.
  pose proof (sqrt_bounds _ HR) as HQ. unfold SQRT.
  assert (-589 <= (Z.log2 X - 1178) / 2).
  { apply Z.div_le_lower_bound; [lia|]. pose proof (Z.log2_nonneg X). lia. }
  apply Z.mul_pos_pos; [|apply pow2_pos; lia].
  match goal with |- 0 < (if ?b then _ else _) => destruct b end; lia.
Qed.

Lemma sqrt_rank x :
  nn (Prim2SF x) -> finite_or_zero (Prim2SF x) ->
  nn (Prim2SF (sqrt x)) /\ finite_or_zero (Prim2SF (sqrt x)) /\
  rankF (sqrt x) = if rankF x =? 0 then 0 else SQRT (rankF x).
Proof.
  intros Nx Fx. pose proof (Prim2SF_valid (sqrt x)) as Vr.
  unfold rankF. rewrite sqrt_spec in *.
  pose proof (Prim2SF_valid x) as Vx.
  destruct (Prim2SF x) as [s|s| |s mx ex]; try contradiction.
  - cbn. repeat split; exact I.
  - destruct s; [contradiction|].
    destruct (SFsqrt_finite_rank mx ex Vx) as [Hs Hr].
    pose proof (rank_finite_bounds mx ex Vx) as Hb.
    cbn [rank cond_Zopp].
    replace (Zpos mx * 2 ^ (ex + 1074) =? 0) with false by (symmetry; apply Z.eqb_neq; lia).
    pose proof (SQRT_mono _ INF (proj1 Hb) ltac:(lia)) as Hm.
    pose proof SQRT_INF. pose proof (SQRT_pos _ (proj1 Hb)).
    split; [apply has_sign_nn; exact Hs|]. split; [|exact Hr].
    apply rank_lt_INF; try assumption; try lia.
    apply nn_nonnan, has_sign_nn; exact Hs.
Qed.

Lemma sqrt_mono x x' :
  nn (Prim2SF x) -> finite_or_zero (Prim2SF x) ->
  nn (Prim2SF x') -> finite_or_zero (Prim2SF x') ->
  rankF x <= rankF x' -> rankF (sqrt x) <= rankF (sqrt x').
Proof.
  intros Nx Fx Nx' Fx' Hx.
  destruct (sqrt_rank x Nx Fx) as (N1 & _ & R1).
  destruct (sqrt_rank x' Nx' Fx') as (N2 & _ & R2).
  pose proof (nn_rank _ (Prim2SF_valid x) Nx) as P1.
  pose proof (nn_rank _ (Prim2SF_valid (sqrt x')) N2) as P2.
  fold (rankF x) in P1. fold (rankF (sqrt x')) in P2.
  rewrite R1. destruct (Z.eqb_spec (rankF x) 0) as [E|E]; [exact P2|].
  rewrite R2. destruct (Z.eqb_spec (rankF x') 0) as [E'|E']; [lia|].
  apply SQRT_mono; lia.
Qed.

(** integers as doubles *)
Lemma RND_exact_int z : 0 <= z < 2 ^ 53 -> RND (z * 2 ^ K) = z * 2 ^ 1074.
Proof.
  intros Hz. destruct (Z.eq_dec z 0) as [->|Hz0]; [reflexivity|].
  assert (HL : 0 <= Z.log2 z < 53).
  { split; [apply Z.log2_nonneg|]. apply Z.log2_lt_pow2; lia. }
  unfold RND, RNDu. rewrite cexpK_eq. unfold K.
  rewrite Z.log2_mul_pow2 by lia.
  set (c := Z.max (2148 + Z.log2 z - 2200) (-1074)).
  assert (Hc : -1074 <= c <= 0) by lia.
  replace (z * 2 ^ 2148) with (z * 2 ^ (- c) * 2 ^ (c + 2148))
    by (rewrite <- Z.mul_assoc, pow2_add by lia; do 2 f_equal; lia).
  rewrite rne_exact by lia.
  rewrite <- Z.mul_assoc, pow2_add by lia.
  replace (- c + (c + 1074)) with 1074 by lia.
  apply Z.min_l. unfold INF.
  replace 2098 with (53 + 2045) by lia. apply Z.lt_le_incl. apply pow2_mul_lt; lia.
Qed.

Lemma sRND_exact_int z : - 2 ^ 53 < z < 2 ^ 53 -> sRND (z * 2 ^ K) = z * 2 ^ 1074.
Proof.
  intros Hz. assert (0 < 2 ^ K) by (apply pow2_pos; unfold K; lia).
  unfold sRND. destruct (Z.ltb_spec (z * 2 ^ K) 0).
  - replace (- (z * 2 ^ K)) with ((- z) * 2 ^ K) by ring.
    rewrite RND_exact_int by nia. ring.
  - apply RND_exact_int. nia.
Qed.

Lemma sRND_int_bound z : - 2 ^ 63 <= z <= 2 ^ 63 -> - INF < sRND (z * 2 ^ K) < INF.
Proof.
  intros Hz. assert (0 < 2 ^ K) by (apply pow2_pos; unfold K; lia).
  assert (Hhi : sRND (2 ^ 63 * 2 ^ K) < INF) by (vm_compute; reflexivity).
  assert (Hlo : - INF < sRND (- 2 ^ 63 * 2 ^ K)) by (vm_compute; reflexivity).
  pose proof (sRND_mono (z * 2 ^ K) (2 ^ 63 * 2 ^ K) ltac:(nia)).
  pose proof (sRND_mono (- 2 ^ 63 * 2 ^ K) (z * 2 ^ K) ltac:(nia)).
  lia.
Qed.

(** * Python comparisons and conversions, through ranks *)

Lemma of_Z_spec z :
  - 2 ^ 63 <= z <= 2 ^ 63 ->
  exists f, F64.of_Z z = Ok f /\
    finite_or_zero (Prim2SF f) /\ rankF f = sRND (z * 2 ^ K) /\
    (0 <= z -> nn (Prim2SF f)).
Proof.
  intros Hz. unfold F64.of_Z.
  destruct (binary_normalize_rank z 0 ltac:(unfold K; lia)) as (Hn & Hr & Hv).
  rewrite Z.add_0_l in Hr.
  pose proof (sRND_int_bound z Hz) as Hb. rewrite <- Hr in Hb.
  pose proof (rank_lt_INF _ Hv Hn (proj2 Hb) (proj1 Hb)) as Hf.
  exists (SF2Prim (binary_normalize prec emax z 0 false)).
  unfold rankF. rewrite (Prim2SF_SF2Prim _ Hv).
  split.
  - destruct (binary_normalize prec emax z 0 false); try contradiction; reflexivity.
  - split; [exact Hf|]. split; [exact Hr|].
    intros Hz0. apply rank_nonneg_nn; try assumption.
    rewrite Hr. assert (0 < 2 ^ K) by (apply pow2_pos; unfold K; lia).
    pose proof (sRND_mono 0 (z * 2 ^ K) ltac:(nia)) as Hm. exact Hm.
Qed.

(** exact comparison of an integer with a double *)
Lemma Zcompare_SF_rank z x :
  valid_binary x = true -> nonnan x -> - INF < z * 2 ^ 1074 < INF ->
  F64.Zcompare_SF z x = Some (z * 2 ^ 1074 ?= rank x).
Proof.
  intros Hv Hn Hz. assert (HP : 2 ^ 1074 > 0) by (apply Z.lt_gt, pow2_pos; lia).
  destruct x as [s|s| |s m e]; cbn [F64.Zcompare_SF rank].
  - f_equal. rewrite (Zmult_compare_compat_r z 0 _ HP). reflexivity.
  - f_equal. destruct s; cbn [cond_Zopp]; symmetry;
      [apply Z.compare_gt_iff | apply Z.compare_lt_iff]; lia.
  - congruence.
  - f_equal. pose proof (valid_finite _ _ _ Hv) as (He & _ & _).
    replace (cond_Zopp s (Zpos m * 2 ^ (e + 1074)))
      with ((if s then Z.neg m else Z.pos m) * 2 ^ (e + 1074))
      by (destruct s; cbn [cond_Zopp]; lia).
    set (v := if s then Z.neg m else Z.pos m).
    destruct e as [|p|p].
    + rewrite (Zmult_compare_compat_r z v _ HP). reflexivity.
    + rewrite (Zmult_compare_compat_r z _ _ HP).
      rewrite <- Z.mul_assoc, pow2_add by lia. reflexivity.
    + assert (HQ : 2 ^ (Z.neg p + 1074) > 0) by (apply Z.lt_gt, pow2_pos; lia).
      rewrite (Zmult_compare_compat_r _ v _ HQ).
      rewrite <- Z.mul_assoc, pow2_add by lia.
      replace (- Z.neg p + (Z.neg p + 1074)) with 1074 by lia. reflexivity.
Qed.

(** primitive comparisons *)
Lemma ltb_rank x y :
  nonnan (Prim2SF x) -> nonnan (Prim2SF y) ->
  PrimFloat.ltb x y = (rankF x <? rankF y).
Proof.
  intros Nx Ny. rewrite ltb_spec. unfold SFltb, rankF.
  rewrite (SFcompare_rank _ _ (Prim2SF_valid x) (Prim2SF_valid y) Nx Ny).
  unfold Z.ltb. destruct (_ ?= _); reflexivity.
Qed.

Lemma leb_rank x y :
  nonnan (Prim2SF x) -> nonnan (Prim2SF y) ->
  PrimFloat.leb x y = (rankF x <=? rankF y).
Proof.
  intros Nx Ny. rewrite leb_spec. unfold SFleb, rankF.
  rewrite (SFcompare_rank _ _ (Prim2SF_valid x) (Prim2SF_valid y) Nx Ny).
  unfold Z.leb. destruct (_ ?= _); reflexivity.
Qed.

Lemma eqb_rank x y :
  nonnan (Prim2SF x) -> nonnan (Prim2SF y) ->
  PrimFloat.eqb x y = (rankF x =? rankF y).
Proof.
  intros Nx Ny. rewrite eqb_spec. unfold SFeqb, rankF.
  rewrite (SFcompare_rank _ _ (Prim2SF_valid x) (Prim2SF_valid y) Nx Ny).
  destruct (Z.compare_spec (rank (Prim2SF x)) (rank (Prim2SF y)));
    destruct (Z.eqb_spec (rank (Prim2SF x)) (rank (Prim2SF y))); try reflexivity; lia.
Qed.

Lemma leb_nonnan x y : PrimFloat.leb x y = true ->
  nonnan (Prim2SF x) /\ nonnan (Prim2SF y).
Proof.
  rewrite leb_spec. unfold SFleb, nonnan.
  destruct (Prim2SF x), (Prim2SF y); cbn; intros; split; congruence.
Qed.

(** finite non-negative doubles *)
Lemma is_finite_spec f :
  is_finite f = true -> finite_or_zero (Prim2SF f).
Proof.
  unfold is_finite, is_nan, is_infinity.
  rewrite !eqb_spec, abs_spec.
  change (Prim2SF infinity) with (S754_infinity false).
  destruct (Prim2SF f) as [s|s| |s m e]; try destruct s; cbn;
    intros H; try discriminate; exact I.
Qed.

Lemma valid_number_float x :
  valid_number x = true ->
  exists f, to_float x = Ok f /\ nn (Prim2SF f) /\ finite_or_zero (Prim2SF f).
Proof.
  destruct x as [z|f]; cbn [valid_number to_float].
  - rewrite andb_true_iff, Z.leb_le, Z.ltb_lt. intros [H0 H1].
    destruct (of_Z_spec z ltac:(lia)) as (f & Ef & Ff & _ & Nf).
    exists f. auto.
  - rewrite andb_true_iff. intros [Hf Hl]. exists f. split; [reflexivity|].
    pose proof (is_finite_spec f Hf) as Ff. split; [|exact Ff].
    destruct (leb_nonnan _ _ Hl) as [N0 Nf].
    rewrite (leb_rank _ _ N0 Nf) in Hl. apply Z.leb_le in Hl.
    apply rank_nonneg_nn; [apply Prim2SF_valid | exact Nf | exact Hl].
Qed.

Lemma int_rank_bound z : 0 <= z < 2 ^ 63 -> - INF < z * 2 ^ 1074 < INF.
Proof.
  intros Hz. pose proof INF_pos. split.
  - assert (0 <= z * 2 ^ 1074); [|lia].
    apply Z.mul_nonneg_nonneg; [lia | apply Z.lt_le_incl, pow2_pos; lia].
  - unfold INF. replace 2098 with (63 + 2035) by lia. apply pow2_mul_lt; lia.
Qed.

Lemma K_split z : z * 2 ^ K = z * 2 ^ 1074 * 2 ^ 1074.
Proof. unfold K. rewrite <- Z.mul_assoc, pow2_add by lia. reflexivity. Qed.

Lemma py_le_rank x y fx fy :
  valid_number x = true -> valid_number y = true ->
  to_float x = Ok fx -> to_float y = Ok fy ->
  py_le x y = true -> rankF fx <= rankF fy.
Proof.
  intros Vx Vy Ex Ey Hle.
  assert (HP : 0 < 2 ^ 1074) by (apply pow2_pos; lia).
  destruct (valid_number_float x Vx) as (fx' & Ex' & Nx & Fx).
  destruct (valid_number_float y Vy) as (fy' & Ey' & Ny & Fy).
  rewrite Ex in Ex'. rewrite Ey in Ey'. injection Ex' as <-. injection Ey' as <-.
  destruct x as [a|a], y as [b|b]; cbn [valid_number to_float py_le] in *.
  - apply andb_true_iff in Vx, Vy. rewrite Z.leb_le, Z.ltb_lt in *.
    destruct (of_Z_spec a ltac:(lia)) as (f1 & E1 & _ & R1 & _).
    destruct (of_Z_spec b ltac:(lia)) as (f2 & E2 & _ & R2 & _).
    rewrite Ex in E1. rewrite Ey in E2. injection E1 as <-. injection E2 as <-.
    rewrite R1, R2. apply sRND_mono.
    apply Z.mul_le_mono_nonneg_r; [apply Z.lt_le_incl, pow2_pos; unfold K; lia | lia].
  - apply andb_true_iff in Vx. rewrite Z.leb_le, Z.ltb_lt in *.
    destruct (of_Z_spec a ltac:(lia)) as (f1 & E1 & _ & R1 & _).
    rewrite Ex in E1. injection E1 as <-. injection Ey as <-.
    rewrite (Zcompare_SF_rank a _ (Prim2SF_valid b) (fz_nonnan _ Fy)
               (int_rank_bound a ltac:(lia))) in Hle.
    rewrite R1, K_split. unfold rankF at 1.
    rewrite <- (sRND_rank _ (Prim2SF_valid b) Fy). apply sRND_mono.
    apply Z.mul_le_mono_nonneg_r; [lia|].
    destruct (Z.compare_spec (a * 2 ^ 1074) (rank (Prim2SF b))); try discriminate; lia.
  - apply andb_true_iff in Vy. rewrite Z.leb_le, Z.ltb_lt in *.
    destruct (of_Z_spec b ltac:(lia)) as (f2 & E2 & _ & R2 & _).
    rewrite Ey in E2. injection E2 as <-. injection Ex as <-.
    rewrite (Zcompare_SF_rank b _ (Prim2SF_valid a) (fz_nonnan _ Fx)
               (int_rank_bound b ltac:(lia))) in Hle.
    rewrite R2, K_split. unfold rankF at 1.
    rewrite <- (sRND_rank _ (Prim2SF_valid a) Fx). apply sRND_mono.
    apply Z.mul_le_mono_nonneg_r; [lia|].
    destruct (Z.compare_spec (b * 2 ^ 1074) (rank (Prim2SF a))); try discriminate; lia.
  - injection Ex as <-. injection Ey as <-.
    rewrite (leb_rank _ _ (fz_nonnan _ Fx) (fz_nonnan _ Fy)) in Hle.
    apply Z.leb_le. exact Hle.
Qed.

(** * The demand formula on doubles is monotone *)

Lemma of_Z_2000 : F64.of_Z 2000 = Ok 2000%float.
Proof. vm_compute. reflexivity. Qed.

Lemma of_Z_10 : F64.of_Z 10 = Ok 10%float.
Proof. vm_compute. reflexivity. Qed.

Lemma np_sqrt_float x f :
  valid_number x = true -> to_float x = Ok f ->
  np_sqrt x = Ok (PyFloat (sqrt f)).
Proof.
  destruct x as [z|g]; cbn [valid_number to_float np_sqrt].
  - rewrite andb_true_iff, Z.leb_le, Z.ltb_lt. intros [H0 H1] E.
    match goal with
    | |- context [(?a <=? z) && (z <? ?b)] =>
        destruct (Z.leb_spec a z); destruct (Z.ltb_spec z b); try lia
    end.
    cbn [andb]. rewrite E. reflexivity.
  - intros _ E. injection E as <-. reflexivity.
Qed.

Lemma py_mul_float_l c x f :
  to_float x = Ok f -> py_mul (PyFloat c) x = Ok (PyFloat (c * f)).
Proof.
  intros E. unfold py_mul, py_arith. cbn [to_float bind].
  destruct x; cbn [to_float] in *; rewrite E; reflexivity.
Qed.

Lemma base_demand_float price marketing fp fm :
  valid_number marketing = true ->
  to_float price = Ok fp -> to_float marketing = Ok fm ->
  base_demand_expr price marketing =
    Ok (py_max (PyInt 0) (PyFloat (demand_float fp fm))).
Proof.
  intros Vm Ep Em. unfold base_demand_expr.
  rewrite (py_mul_float_l _ _ _ Ep). cbn [bind].
  unfold py_sub, py_arith at 1. cbn [to_float bind]. rewrite of_Z_2000. cbn [bind].
  rewrite (py_mul_float_l _ _ _ Em). cbn [bind].
  unfold py_add at 1, py_arith. cbn [to_float bind].
  rewrite (np_sqrt_float _ _ Vm Em). cbn [bind].
  unfold py_mul, py_arith. cbn [to_float bind]. rewrite of_Z_10. cbn [bind].
  unfold py_add, py_arith. cbn [to_float bind]. reflexivity.
Qed.

Lemma const_shapes :
  (exists m e, Prim2SF 3.5 = S754_finite false m e) /\
  (exists m e, Prim2SF 0.04 = S754_finite false m e) /\
  (exists m e, Prim2SF 10 = S754_finite false m e) /\
  finite_or_zero (Prim2SF 2000).
Proof. vm_compute. repeat split; eauto. Qed.

Lemma mul_004_finite fm :
  nn (Prim2SF fm) -> finite_or_zero (Prim2SF fm) ->
  finite_or_zero (Prim2SF (0.04 * fm)).
Proof.
  intros Nm Fm. destruct const_shapes as (_ & (m & e & E) & _).
  destruct (mul_pos_rank _ m e fm E Nm Fm) as [Nr Rr].
  pose proof (fz_rank _ (Prim2SF_valid fm) Fm) as Bm.
  pose proof (nn_rank _ (Prim2SF_valid fm) Nm) as Pm.
  pose proof (nn_rank _ (Prim2SF_valid _) Nr) as Pr.
  fold (rankF fm) in Bm, Pm. fold (rankF (0.04 * fm)) in Pr.
  pose proof INF_pos.
  assert (Hc : 0 < rankF 0.04) by (vm_compute; reflexivity).
  assert (Hb : RND (rankF 0.04 * INF) < INF) by (vm_compute; reflexivity).
  pose proof (RND_mono (rankF 0.04 * rankF fm) (rankF 0.04 * INF)
                ltac:(apply Z.mul_nonneg_nonneg; lia)
                ltac:(apply Z.mul_le_mono_nonneg_l; lia)).
  apply rank_lt_INF; [apply Prim2SF_valid | apply nn_nonnan; exact Nr | |];
    fold (rankF (0.04 * fm)); lia.
Qed.

Lemma mul_10_sqrt_finite fm :
  nn (Prim2SF fm) -> finite_or_zero (Prim2SF fm) ->
  nn (Prim2SF (10 * sqrt fm)) /\ finite_or_zero (Prim2SF (10 * sqrt fm)).
Proof.
  intros Nm Fm. destruct const_shapes as (_ & _ & (m & e & E) & _).
  destruct (sqrt_rank fm Nm Fm) as (Ns & Fs & Rs).
  destruct (mul_pos_rank _ m e (sqrt fm) E Ns Fs) as [Nr Rr].
  split; [exact Nr|].
  pose proof (fz_rank _ (Prim2SF_valid fm) Fm) as Bm.
  pose proof (nn_rank _ (Prim2SF_valid fm) Nm) as Pm.
  pose proof (nn_rank _ (Prim2SF_valid _) Ns) as Ps.
  pose proof (nn_rank _ (Prim2SF_valid _) Nr) as Pr.
  fold (rankF fm) in Bm, Pm. fold (rankF (sqrt fm)) in Ps. fold (rankF (10 * sqrt fm)) in Pr.
  pose proof INF_pos.
  assert (Hs : rankF (sqrt fm) <= SQRT INF).
  { rewrite Rs. destruct (Z.eqb_spec (rankF fm) 0).
    - vm_compute. discriminate.
    - apply SQRT_mono; lia. }
  assert (Hc : 0 < rankF 10) by (vm_compute; reflexivity).
  assert (Hb : RND (rankF 10 * SQRT INF) < INF) by (vm_compute; reflexivity).
  pose proof (RND_mono (rankF 10 * rankF (sqrt fm)) (rankF 10 * SQRT INF)
                ltac:(apply Z.mul_nonneg_nonneg; lia)
                ltac:(apply Z.mul_le_mono_nonneg_l; lia)).
  apply rank_lt_INF; [apply Prim2SF_valid | apply nn_nonnan; exact Nr | |];
    fold (rankF (10 * sqrt fm)); lia.
Qed.

Lemma demand_float_price fp fp' fm :
  nn (Prim2SF fp) -> nn (Prim2SF fp') ->
  nn (Prim2SF fm) -> finite_or_zero (Prim2SF fm) ->
  rankF fp <= rankF fp' ->
  nonnan (Prim2SF (demand_float fp fm)) /\
  nonnan (Prim2SF (demand_float fp' fm)) /\
  rankF (demand_float fp' fm) <= rankF (demand_float fp fm).
Proof.
  intros Np Np' Nm Fm Hp. unfold demand_float.
  destruct const_shapes as ((m35 & e35 & E35) & _ & _ & F2000).
  destruct (mul_pos_mono _ m35 e35 fp fp' E35 Np Np' Hp) as (N1 & N1' & H1).
  destruct (sub_anti 2000 _ _ F2000 (nn_nonnan _ N1) (nn_nonnan _ N1') H1)
    as (N2 & N2' & H2).
  pose proof (mul_004_finite fm Nm Fm) as F3.
  destruct (add_mono _ _ _ _ N2' N2 F3 F3 H2 (Z.le_refl _)) as (N4' & N4 & H4).
  destruct (mul_10_sqrt_finite fm Nm Fm) as [_ F5].
  destruct (add_mono _ _ _ _ N4' N4 F5 F5 H4 (Z.le_refl _)) as (N6' & N6 & H6).
  auto.
Qed.

Lemma demand_float_marketing fp fm fm' :
  nn (Prim2SF fp) ->
  nn (Prim2SF fm) -> finite_or_zero (Prim2SF fm) ->
  nn (Prim2SF fm') -> finite_or_zero (Prim2SF fm') ->
  rankF fm <= rankF fm' ->
  nonnan (Prim2SF (demand_float fp fm)) /\
  nonnan (Prim2SF (demand_float fp fm')) /\
  rankF (demand_float fp fm) <= rankF (demand_float fp fm').
Proof.
  intros Np Nm Fm Nm' Fm' Hm. unfold demand_float.
  destruct const_shapes as ((m35 & e35 & E35) & (m4 & e4 & E4) & (m10 & e10 & E10) & F2000).
  destruct (mul_pos_mono _ m35 e35 fp fp E35 Np Np (Z.le_refl _)) as (N1 & _ & _).
  destruct (sub_anti 2000 _ _ F2000 (nn_nonnan _ N1) (nn_nonnan _ N1) (Z.le_refl _))
    as (N2 & _ & _).
  pose proof (mul_004_finite fm Nm Fm) as F3.
  pose proof (mul_004_finite fm' Nm' Fm') as F3'.
  destruct (mul_pos_mono _ m4 e4 fm fm' E4 Nm Nm' Hm) as (_ & _ & H3).
  destruct (add_mono _ _ _ _ N2 N2 F3 F3' (Z.le_refl _) H3) as (N4 & N4' & H4).
  destruct (mul_10_sqrt_finite fm Nm Fm) as [_ F5].
  destruct (mul_10_sqrt_finite fm' Nm' Fm') as [_ F5'].
  destruct (sqrt_rank fm Nm Fm) as (Ns & _ & _).
  destruct (sqrt_rank fm' Nm' Fm') as (Ns' & _ & _).
  pose proof (sqrt_mono fm fm' Nm Fm Nm' Fm' Hm) as Hs.
  destruct (mul_pos_mono _ m10 e10 _ _ E10 Ns Ns' Hs) as (_ & _ & H5).
  destruct (add_mono _ _ _ _ N4 N4' F5 F5' H4 H5) as (N6 & N6' & H6).
  auto.
Qed.

(** [max(0, t)] keeps the order *)
Lemma py_max_0_le t t' :
  nonnan (Prim2SF t) -> nonnan (Prim2SF t') -> rankF t <= rankF t' ->
  py_le (py_max (PyInt 0) (PyFloat t)) (py_max (PyInt 0) (PyFloat t')) = true.
Proof.
  intros Nt Nt' H. pose proof INF_pos.
  unfold py_max, py_gt. cbn [py_lt].
  rewrite (Zcompare_SF_rank 0 _ (Prim2SF_valid t) Nt ltac:(lia)).
  rewrite (Zcompare_SF_rank 0 _ (Prim2SF_valid t') Nt' ltac:(lia)).
  fold (rankF t). fold (rankF t'). rewrite Z.mul_0_l.
  destruct (Z.compare_spec 0 (rankF t)); destruct (Z.compare_spec 0 (rankF t'));
    cbn [py_le]; try lia; try reflexivity.
  - rewrite (Zcompare_SF_rank 0 _ (Prim2SF_valid t') Nt' ltac:(lia)).
    fold (rankF t'). rewrite Z.mul_0_l.
    destruct (Z.compare_spec 0 (rankF t')); try lia; reflexivity.
  - rewrite (leb_rank _ _ Nt Nt'). apply Z.leb_le. exact H.
  - rewrite (Zcompare_SF_rank 0 _ (Prim2SF_valid t') Nt' ltac:(lia)).
    fold (rankF t'). rewrite Z.mul_0_l.
    destruct (Z.compare_spec 0 (rankF t')); try lia; reflexivity.
Qed.

(** * Every step of [run_simulation] succeeds on a valid decision *)

Lemma all_upto_spec n P :
  all_upto n P = true -> forall z, 0 <= z <= Z.of_nat n -> P z = true.
Proof.
  induction n as [|k IH]; cbn [all_upto]; intros H z Hz.
  - replace z with 0 by lia. exact H.
  - apply andb_true_iff in H. destruct H as [H1 H2].
    destruct (Z.eq_dec z (Z.of_nat (S k))) as [->|Hne]; [exact H1|].
    apply IH; [exact H2 | lia].
Qed.

Lemma is_ok_ex {A} (r : result A) : is_ok r = true -> exists a, r = Ok a.
Proof. destruct r; [eauto | discriminate]. Qed.

Lemma div_check_all : all_upto 5000 div_check = true.
Proof. vm_compute. reflexivity. Qed.

Lemma div_Z_ok a c :
  0 <= a <= 5000 -> (c = 100 \/ In c capacities) -> exists f, F64.div_Z a c = Ok f.
Proof.
  intros Ha Hc. pose proof (all_upto_spec _ _ div_check_all a ltac:(simpl; lia)) as H.
  unfold div_check in H. apply andb_true_iff in H. destruct H as [H1 H2].
  destruct Hc as [->|Hc]; [apply is_ok_ex; exact H1|].
  rewrite forallb_forall in H2. apply is_ok_ex. apply H2. exact Hc.
Qed.

Lemma getitem_In {A} (table : list (string * A)) key v :
  getitem table key = Ok v -> In v (map snd table).
Proof.
  induction table as [|[k w] rest IH]; cbn [getitem map snd]; [discriminate|].
  destruct (String.eqb k key).
  - intros E. injection E as <-. left. reflexivity.
  - intros E. right. apply IH. exact E.
Qed.

Lemma venue_facts v :
  In v (map snd VENUES) ->
  0 < Capacity v <= 5000 /\ In (Capacity v) capacities /\
  0 <= Fixed_Cost v <= 40000 /\ 0 <= Vibe v <= 10.
Proof.
  cbn. intros [<-|[<-|[<-|[<-|[]]]]]; cbn; repeat split; try lia; tauto.
Qed.

Lemma catering_facts c :
  In c (map snd CATERING) -> 0 <= Cost c <= 60 /\ 0 <= Quality c <= 10.
Proof. cbn. intros [<-|[<-|[<-|[]]]]; cbn; lia. Qed.

Lemma staffing_facts s :
  In s (map snd STAFFING) ->
  (Ratio s = 1 \/ Ratio s = 2 \/ Ratio s = 4) /\ 0 <= CostPer s <= 300.
Proof. cbn. intros [<-|[<-|[<-|[]]]]; cbn; lia. Qed.

Lemma risk_facts r :
  In r (map snd RISKS) ->
  (exists m e, Prim2SF (DemandMult r) = S754_finite false m e) /\
  -10 <= SatPenalty r <= 5.
Proof.
  cbn. intros [<-|[<-|[<-|[<-|[]]]]]; cbn [DemandMult SatPenalty];
    (split; [vm_compute; eauto | lia]).
Qed.

Lemma Zcompare_SF_neg z m e :
  0 <= z -> F64.Zcompare_SF z (S754_finite true m e) = Some Gt.
Proof.
  intros Hz. unfold F64.Zcompare_SF. f_equal.
  destruct e as [|p|p]; apply Z.compare_gt_iff.
  - lia.
  - assert (0 < 2 ^ Z.pos p) by (apply pow2_pos; lia). nia.
  - assert (0 < 2 ^ (- Z.neg p)) by (apply pow2_pos; lia). nia.
Qed.

Lemma Zcompare_SF_pos_nn x :
  F64.Zcompare_SF 0 x = Some Lt -> nn x.
Proof.
  destruct x as [s|s| |s m e]; try discriminate.
  - destruct s; [discriminate | intros _; exact I].
  - destruct s; [|intros _; exact I].
    rewrite Zcompare_SF_neg by lia. discriminate.
Qed.

Lemma risk_demand_nn t mult m e :
  Prim2SF mult = S754_finite false m e ->
  exists rd, py_mul (py_max (PyInt 0) (PyFloat t)) (PyFloat mult) = Ok (PyFloat rd)
             /\ nn (Prim2SF rd).
Proof.
  intros Em. unfold py_max, py_gt. cbn [py_lt].
  destruct (F64.Zcompare_SF 0 (Prim2SF t)) as [[| |]|] eqn:Ec;
    unfold py_mul, py_arith; cbn [to_float bind];
    try (change (F64.of_Z 0) with (Ok (A:=float) 0%float); cbn [bind];
         eexists; split; [reflexivity|];
         apply (mul_nn_pos 0 mult m e); [exact I | exact Em]).
  eexists; split; [reflexivity|].
  apply (mul_nn_pos t mult m e); [|exact Em].
  apply Zcompare_SF_pos_nn. exact Ec.
Qed.

Lemma trunc_le_cap m e cap :
  0 <= cap ->
  F64.Zcompare_SF cap (S754_finite false m e) <> Some Lt ->
  exists a, F64.trunc_SF (S754_finite false m e) = Ok a /\ 0 <= a <= cap.
Proof.
  intros Hc Hn. cbn [F64.trunc_SF F64.Zcompare_SF] in *.
  eexists; split; [reflexivity|].
  destruct e as [|p|p].
  - destruct (Z.compare_spec cap (Z.pos m)); try congruence; lia.
  - assert (0 < 2 ^ Z.pos p) by (apply pow2_pos; lia).
    destruct (Z.compare_spec cap (Z.pos m * 2 ^ Z.pos p)); try congruence; nia.
  - assert (0 < 2 ^ (- Z.neg p)) by (apply pow2_pos; lia).
    split; [apply Z.div_pos; lia|].
    destruct (Z.compare_spec (cap * 2 ^ (- Z.neg p)) (Z.pos m)); try congruence;
      apply Z.div_le_upper_bound; lia.
Qed.

Lemma attendance_ok rd cap :
  nn (Prim2SF rd) -> 0 <= cap ->
  exists a, attendance_expr (PyFloat rd) cap = Ok a /\ 0 <= a <= cap.
Proof.
  intros Nr Hc. unfold attendance_expr, py_min. cbn [py_lt].
  destruct (F64.Zcompare_SF cap (Prim2SF rd)) as [[| |]|] eqn:Ec;
    try (exists cap; split; [reflexivity | lia]);
    cbn [py_int]; unfold F64.trunc;
    destruct (Prim2SF rd) as [s|s| |s m e]; try contradiction;
    try (exists 0; split; [reflexivity | lia]);
    try (destruct s; [contradiction|]);
    try discriminate;
    apply trunc_le_cap; try assumption; rewrite Ec; discriminate.
Qed.

Lemma to_float_small x : small x -> exists f, to_float x = Ok f.
Proof.
  destruct x as [z|f]; cbn [small to_float]; [|eauto].
  intros Hz. destruct (of_Z_spec z Hz) as (f & E & _). eauto.
Qed.

Lemma py_arith_float_r opZ opF x g :
  small x -> exists f, py_arith opZ opF x (PyFloat g) = Ok (PyFloat f).
Proof.
  intros Hx. destruct (to_float_small x Hx) as (fx & E).
  unfold py_arith. destruct x; cbn [to_float] in *; rewrite ?E; cbn [bind]; eauto.
Qed.

Lemma py_arith_float_l opZ opF g y :
  small y -> exists f, py_arith opZ opF (PyFloat g) y = Ok (PyFloat f).
Proof.
  intros Hy. destruct (to_float_small y Hy) as (fy & E).
  unfold py_arith. cbn [to_float bind]. rewrite E. cbn [bind]. eauto.
Qed.

Lemma py_arith_small opZ opF x y :
  small x -> small y ->
  exists r, py_arith opZ opF x y = Ok r /\
    match x, y with
    | PyInt a, PyInt b => r = PyInt (opZ a b)
    | _, _ => is_float r
    end.
Proof.
  intros Hx Hy. destruct x as [a|f], y as [b|g].
  - eexists; split; reflexivity.
  - destruct (py_arith_float_r opZ opF (PyInt a) g Hx) as (r & E).
    rewrite E. eexists; split; [reflexivity | exact I].
  - destruct (py_arith_float_l opZ opF f (PyInt b) Hy) as (r & E).
    rewrite E. eexists; split; [reflexivity | exact I].
  - eexists; split; [reflexivity | exact I].
Qed.

Lemma num_staff_ok a ratio :
  0 <= a <= 5000 -> - 2 ^ 63 <= ratio <= 2 ^ 63 ->
  exists ns, num_staff_expr a ratio = Ok (PyFloat ns).
Proof.
  intros Ha Hr. unfold num_staff_expr, py_truediv.
  destruct (div_Z_ok a 100 Ha (or_introl eq_refl)) as (h & Eh).
  rewrite Eh. cbn [bind].
  destruct (py_arith_float_l Z.mul PrimFloat.mul h (PyInt ratio) Hr) as (s & Es).
  unfold py_mul. rewrite Es. cbn [bind np_ceil]. eauto.
Qed.

Lemma crowding_ok a cap :
  0 <= a <= 5000 -> 0 < cap -> In cap capacities ->
  exists c, crowding_expr a cap = Ok (PyFloat c).
Proof.
  intros Ha Hc Hin. unfold crowding_expr, py_truediv.
  replace (0 <? cap) with true by (symmetry; apply Z.ltb_lt; exact Hc).
  destruct (div_Z_ok a cap Ha (or_intror Hin)) as (c & Ec).
  rewrite Ec. cbn [bind]. eauto.
Qed.

Lemma sat_base_ok vibe quality ratio :
  - 2 ^ 60 <= vibe <= 2 ^ 60 -> - 2 ^ 60 <= quality <= 2 ^ 60 ->
  - 2 ^ 60 <= ratio <= 2 ^ 60 ->
  exists b, sat_base_expr vibe quality ratio = Ok (PyFloat b).
Proof.
  intros Hv Hq Hr. unfold sat_base_expr, py_mul, py_add.
  destruct (py_arith_float_r Z.mul PrimFloat.mul (PyInt vibe) 3.3 ltac:(cbn; lia)) as (s1 & E1).
  destruct (py_arith_float_r Z.mul PrimFloat.mul (PyInt quality) 3.3 ltac:(cbn; lia)) as (s2 & E2).
  rewrite E1. cbn [bind]. rewrite E2. cbn [bind].
  change (py_arith Z.mul PrimFloat.mul (PyInt ratio) (PyInt 8)) with (Ok (PyInt (ratio * 8))).
  cbn [bind].
  change (py_arith Z.add PrimFloat.add (PyFloat s1) (PyFloat s2))
    with (Ok (PyFloat (s1 + s2))). cbn [bind].
  apply py_arith_float_l. cbn. lia.
Qed.

Lemma sat_adjust_ok b pen sp :
  - 2 ^ 60 <= pen <= 2 ^ 60 -> - 2 ^ 60 <= sp <= 2 ^ 60 ->
  exists u, sat_adjust_expr (PyFloat b) pen sp = Ok (PyFloat u).
Proof.
  intros Hp Hs. unfold sat_adjust_expr, py_sub, py_add.
  destruct (py_arith_float_l Z.sub PrimFloat.sub b (PyInt pen) ltac:(cbn; lia)) as (s & E).
  rewrite E. cbn [bind]. apply py_arith_float_l. cbn. lia.
Qed.

Lemma sat_clamp_cases u :
  sat_clamp_expr (PyFloat u) = PyInt 0 \/ sat_clamp_expr (PyFloat u) = PyInt 100
  \/ sat_clamp_expr (PyFloat u) = PyFloat u.
Proof.
  unfold sat_clamp_expr, py_max, py_min, py_gt.
  destruct (py_lt (PyInt 0) (PyFloat u)).
  - destruct (py_lt (PyFloat u) (PyInt 100)); auto.
  - change (py_lt (PyInt 0) (PyInt 100)) with true. cbv iota. auto.
Qed.

Lemma profit_points_ok pf :
  exists p, profit_points_expr (PyFloat pf) = Ok (PyFloat p).
Proof.
  unfold profit_points_expr, py_max, py_gt.
  destruct (py_lt (PyInt 0) (PyFloat pf)).
  - unfold py_truediv. cbn [to_float bind].
    change (F64.of_Z 200000) with (Ok (A:=float) 200000%float). cbn [bind].
    change (PrimFloat.eqb 200000 zero) with false. cbv iota. cbn [bind].
    apply py_arith_float_l. cbn. lia.
  - vm_compute. eauto.
Qed.

Lemma score_ok pf u :
  exists s, score_expr (PyFloat pf) (sat_clamp_expr (PyFloat u)) = Ok (PyFloat s).
Proof.
  unfold score_expr. destruct (profit_points_ok pf) as (p & Ep). rewrite Ep. cbn [bind].
  assert (Hs : small (sat_clamp_expr (PyFloat u))).
  { destruct (sat_clamp_cases u) as [E|[E|E]]; rewrite E; cbn; lia || exact I. }
  destruct (py_arith_float_r Z.mul PrimFloat.mul _ 0.5 Hs) as (q & Eq).
  unfold py_mul. rewrite Eq. cbn [bind]. eexists. reflexivity.
Qed.

(** * Inversion of a successful run, and totality on valid decisions *)

Lemma simulate_inv inputs l : simulate inputs = Ok l -> steps inputs l.
Proof.
  unfold simulate. intros H. repeat inv_bind H.
  injection H as <-. unfold steps.
  cbn [venue cat staff risk price marketing base_demand risk_demand attendance
       revenue venue_cost marketing_cost catering_cost num_staff staff_cost
       total_cost profit crowding crowding_penalty sat_base sat_unclamped
       sat_score score].
  repeat (split; [first [assumption | reflexivity]|]).
  split; [eauto|].
  repeat (split; [first [assumption | reflexivity]|]).
  assumption.
Qed.

Lemma returned_inv l o :
  returned l = Ok o ->
  Attendance o = attendance l /\ Revenue o = revenue l /\
  Total_Cost o = total_cost l /\ Profit o = profit l /\
  Satisfaction o = sat_score l /\ Score o = score l /\
  py_mul (crowding l) (PyInt 100) = Ok (Crowding o) /\
  Venue_Cost (Details o) = venue_cost l /\
  Marketing_Cost (Details o) = marketing_cost l /\
  Catering_Cost (Details o) = catering_cost l /\
  Staff_Cost (Details o) = staff_cost l.
Proof.
  unfold returned. intros H. inv_bind H. injection H as <-. cbn.
  repeat split; assumption.
Qed.

Lemma run_simulation_inv inputs o :
  run_simulation inputs = Ok o ->
  exists l, simulate inputs = Ok l /\ returned l = Ok o.
Proof.
  unfold run_simulation. intros H. inv_bind H. eauto.
Qed.

Lemma valid_number_small x : valid_number x = true ->
  match x with PyInt z => 0 <= z < 2 ^ 50 | PyFloat _ => True end.
Proof.
  destruct x as [z|f]; cbn [valid_number]; [|auto].
  rewrite andb_true_iff, Z.leb_le, Z.ltb_lt. auto.
Qed.

Lemma py_mul_small x y :
  small x -> small y ->
  exists r, py_mul x y = Ok r /\
    match x, y with
    | PyInt a, PyInt b => r = PyInt (a * b)
    | _, _ => is_float r
    end.
Proof. exact (py_arith_small Z.mul PrimFloat.mul x y). Qed.

Lemma py_add_small x y :
  small x -> small y ->
  exists r, py_add x y = Ok r /\
    match x, y with
    | PyInt a, PyInt b => r = PyInt (a + b)
    | _, _ => is_float r
    end.
Proof. exact (py_arith_small Z.add PrimFloat.add x y). Qed.

Lemma py_sub_small x y :
  small x -> small y ->
  exists r, py_sub x y = Ok r /\
    match x, y with
    | PyInt a, PyInt b => r = PyInt (a - b)
    | _, _ => is_float r
    end.
Proof. exact (py_arith_small Z.sub PrimFloat.sub x y). Qed.

Lemma is_float_ex r : is_float r -> exists f, r = PyFloat f.
Proof. destruct r; [contradiction | eauto]. Qed.

Lemma finance_ok a price marketing fixed cost sc :
  0 <= a <= 5000 -> valid_number price = true -> valid_number marketing = true ->
  0 <= fixed <= 40000 -> 0 <= cost <= 60 ->
  exists revenue c1 c2 total profit,
    py_mul (PyInt a) price = Ok revenue /\
    py_add (PyInt fixed) marketing = Ok c1 /\
    py_add c1 (PyInt (a * cost)) = Ok c2 /\
    py_add c2 (PyFloat sc) = Ok (PyFloat total) /\
    py_sub revenue (PyFloat total) = Ok (PyFloat profit).
Proof.
  intros Ha Vp Vm Hf Hc.
  apply valid_number_small in Vp, Vm.
  assert (Sp : small price) by (destruct price; cbn; lia || exact I).
  assert (Sm : small marketing) by (destruct marketing; cbn; lia || exact I).
  destruct (py_mul_small (PyInt a) price ltac:(cbn; lia) Sp) as (rev & Er & Hr).
  destruct (py_add_small (PyInt fixed) marketing ltac:(cbn; lia) Sm) as (c1 & E1 & H1).
  assert (S1 : small c1).
  { destruct marketing; [subst c1; cbn; lia | destruct c1; [contradiction | exact I]]. }
  destruct (py_add_small c1 (PyInt (a * cost)) S1 ltac:(cbn; nia)) as (c2 & E2 & H2).
  assert (S2 : small c2).
  { destruct marketing.
    - subst c1 c2. cbn. nia.
    - destruct c1; [contradiction|]. destruct c2; [contradiction | exact I]. }
  destruct (py_add_small c2 (PyFloat sc) S2 I) as (tot & E3 & H3).
  assert (F3 : is_float tot) by (destruct c2; exact H3).
  destruct (is_float_ex tot F3) as (total & ->).
  assert (Sr : small rev).
  { destruct price; [subst rev; cbn; nia | destruct rev; [contradiction | exact I]]. }
  destruct (py_sub_small rev (PyFloat total) Sr I) as (pr & E4 & H4).
  assert (F4 : is_float pr) by (destruct rev; exact H4).
  destruct (is_float_ex pr F4) as (profit & ->).
  exists rev, c1, c2, total, profit. auto.
Qed.

Lemma py_mul_float_int f z :
  - 2 ^ 63 <= z <= 2 ^ 63 -> exists r, py_mul (PyFloat f) (PyInt z) = Ok (PyFloat r).
Proof. intros Hz. apply (py_arith_float_l Z.mul PrimFloat.mul f (PyInt z)). exact Hz. Qed.

Lemma simulate_ok inputs :
  valid_decision inputs = true ->
  exists l, simulate inputs = Ok l /\
    In (venue l) (map snd VENUES) /\ In (cat l) (map snd CATERING) /\
    In (staff l) (map snd STAFFING) /\ In (risk l) (map snd RISKS) /\
    (exists rd, risk_demand l = PyFloat rd /\ nn (Prim2SF rd)) /\
    0 <= attendance l <= Capacity (venue l) /\
    is_float (crowding l) /\ is_float (sat_unclamped l) /\ is_float (profit l).
Proof.
  unfold valid_decision, labels_resolve, resolves. rewrite !andb_true_iff.
  intros [[[[[Hv Hc] Hs] Hr] Vp] Vm].
  destruct (getitem VENUES (in_Venue inputs)) as [v|] eqn:Ev; [|discriminate].
  destruct (getitem CATERING (in_Catering inputs)) as [c|] eqn:Ec; [|discriminate].
  destruct (getitem STAFFING (in_Staffing inputs)) as [s|] eqn:Es; [|discriminate].
  destruct (getitem RISKS (in_Risk inputs)) as [r|] eqn:Er; [|discriminate].
  pose proof (getitem_In _ _ _ Ev) as Iv. pose proof (getitem_In _ _ _ Ec) as Ic.
  pose proof (getitem_In _ _ _ Es) as Is. pose proof (getitem_In _ _ _ Er) as Ir.
  destruct (venue_facts v Iv) as (Hcap & Hcin & Hfix & Hvibe).
  destruct (catering_facts c Ic) as (Hcost & Hqual).
  destruct (staffing_facts s Is) as (Hratio & Hper).
  destruct (risk_facts r Ir) as ((m & e & Em) & Hsp).
  destruct (valid_number_float _ Vp) as (fp & Efp & Np & Fp).
  destruct (valid_number_float _ Vm) as (fm & Efm & Nm & Fm).
  unfold simulate. rewrite Ev, Ec, Es, Er. cbn [bind]. cbv zeta.
  rewrite (base_demand_float _ _ fp fm Vm Efp Efm). cbn [bind].
  destruct (risk_demand_nn (demand_float fp fm) (DemandMult r) m e Em) as (rd & Erd & Nrd).
  rewrite Erd. cbn [bind].
  destruct (attendance_ok rd (Capacity v) Nrd ltac:(lia)) as (a & Ea & Ha).
  rewrite Ea. cbn [bind].
  destruct (num_staff_ok a (Ratio s) ltac:(lia) ltac:(lia)) as (ns & Ens).
  destruct (py_mul_float_int ns (CostPer s) ltac:(lia)) as (sc & Esc).
  destruct (finance_ok a (in_Price inputs) (in_Marketing inputs) (Fixed_Cost v) (Cost c) sc
              ltac:(lia) Vp Vm Hfix Hcost)
    as (rev & c1 & c2 & total & profit & Erev & E1 & E2 & E3 & E4).
  rewrite Erev. cbn [bind].
  change (py_mul (PyInt a) (PyInt (Cost c))) with (Ok (PyInt (a * Cost c))). cbn [bind].
  rewrite Ens. cbn [bind]. rewrite Esc. cbn [bind].
  rewrite E1. cbn [bind]. rewrite E2. cbn [bind]. rewrite E3. cbn [bind].
  rewrite E4. cbn [bind].
  destruct (crowding_ok a (Capacity v) ltac:(lia) ltac:(lia) Hcin) as (cr & Ecr).
  rewrite Ecr. cbn [bind].
  destruct (sat_base_ok (Vibe v) (Quality c) (Ratio s) ltac:(lia) ltac:(lia) ltac:(lia))
    as (b & Eb).
  rewrite Eb. cbn [bind].
  assert (Hpen : 0 <= crowding_penalty_expr (PyFloat cr) <= 15)
    by (unfold crowding_penalty_expr; destruct (py_gt _ _); lia).
  destruct (sat_adjust_ok b (crowding_penalty_expr (PyFloat cr)) (SatPenalty r)
              ltac:(lia) ltac:(lia)) as (u & Eu).
  rewrite Eu. cbn [bind].
  destruct (score_ok profit u) as (sco & Esco).
  rewrite Esco. cbn [bind].
  eexists. split; [reflexivity|]. cbn.
  repeat split; try assumption; try lia. eauto.
Qed.

Lemma returned_ok l :
  is_float (crowding l) -> exists o, returned l = Ok o.
Proof.
  intros Hc. destruct (is_float_ex _ Hc) as (c & Ec). unfold returned. rewrite Ec.
  destruct (py_mul_float_int c 100 ltac:(lia)) as (r & Er). rewrite Er. cbn [bind].
  eauto.
Qed.

Lemma run_ok inputs :
  valid_decision inputs = true ->
  exists l o, simulate inputs = Ok l /\ returned l = Ok o /\
    run_simulation inputs = Ok o /\
    In (venue l) (map snd VENUES) /\ In (cat l) (map snd CATERING) /\
    In (staff l) (map snd STAFFING) /\ In (risk l) (map snd RISKS) /\
    (exists rd, risk_demand l = PyFloat rd /\ nn (Prim2SF rd)) /\
    0 <= attendance l <= Capacity (venue l) /\
    is_float (sat_unclamped l) /\ is_float (profit l).
Proof.
  intros V. destruct (simulate_ok inputs V)
    as (l & El & Iv & Ic & Is & Ir & Hrd & Ha & Fc & Fu & Fp).
  destruct (returned_ok l Fc) as (o & Eo).
  exists l, o. unfold run_simulation. rewrite El. cbn [bind].
  repeat split; try assumption; lia.
Qed.

(** * Crowding threshold and staff ceiling, exactly *)

Lemma crowding_check_all : all_upto 5000 crowding_check = true.
Proof. vm_compute. reflexivity. Qed.

Lemma staff_check_all : all_upto 5000 staff_check = true.
Proof. vm_compute. reflexivity. Qed.

Lemma crowding_penalty_exact a cap :
  0 <= a <= cap -> In cap capacities ->
  exists c, crowding_expr a cap = Ok c /\
    crowding_penalty_expr c = if 9 * cap <? 10 * a then 15 else 0.
Proof.
  intros Ha Hin.
  assert (Hcap : cap <= 5000).
  { revert Hin. cbn. intros [<-|[<-|[<-|[<-|[]]]]]; lia. }
  pose proof (all_upto_spec _ _ crowding_check_all a ltac:(simpl; lia)) as H.
  unfold crowding_check in H. rewrite forallb_forall in H. specialize (H cap Hin).
  replace (a <=? cap) with true in H by (symmetry; apply Z.leb_le; lia).
  destruct (crowding_expr a cap) as [c|]; [|discriminate].
  exists c. split; [reflexivity|]. apply Z.eqb_eq. exact H.
Qed.

Lemma num_staff_exact a ratio :
  0 <= a <= 5000 -> In ratio ratios ->
  exists ns, num_staff_expr a ratio = Ok ns /\
    py_eq ns (PyInt ((a * ratio + 99) / 100)) = true.
Proof.
  intros Ha Hin.
  pose proof (all_upto_spec _ _ staff_check_all a ltac:(simpl; lia)) as H.
  unfold staff_check in H. rewrite forallb_forall in H. specialize (H ratio Hin).
  destruct (num_staff_expr a ratio) as [ns|]; [|discriminate].
  exists ns. split; [reflexivity | exact H].
Qed.

Lemma venue_capacity_in v : In v (map snd VENUES) -> In (Capacity v) capacities.
Proof. intros H. apply (venue_facts v H). Qed.

Lemma staff_ratio_in s : In s (map snd STAFFING) -> In (Ratio s) ratios.
Proof. unfold ratios. rewrite <- (map_map snd Ratio). apply in_map. Qed.

Lemma scenario_valid : valid_decision scenario = true.
Proof. vm_compute. reflexivity. Qed.

Lemma rank_inj x y :
  valid_binary x = true -> valid_binary y = true ->
  nonnan x -> nonnan y -> rank x = rank y -> rank x <> 0 -> x = y.
Proof.
  intros Vx Vy Nx Ny Hr H0.
  pose proof (SFcompare_rank x y Vx Vy Nx Ny) as Hc.
  rewrite Hr, Z.compare_refl in Hc. pose proof INF_pos.
  destruct x as [sx|sx| |sx mx ex], y as [sy|sy| |sy my ey];
    try (cbn [rank] in *; congruence).
  - cbn in Hc. destruct sx, sy; try discriminate; reflexivity.
  - pose proof (rank_finite_abs _ _ _ Vy) as [Hb _].
    rewrite <- Hr in Hb. cbn [rank] in Hb. destruct sx; cbn [cond_Zopp] in Hb; lia.
  - pose proof (rank_finite_abs _ _ _ Vx) as [Hb _].
    rewrite Hr in Hb. cbn [rank] in Hb. destruct sy; cbn [cond_Zopp] in Hb; lia.
  - cbn [SFcompare] in Hc.
    destruct sx, sy; try discriminate;
      destruct (Z.compare_spec ex ey) as [E|E|E]; try discriminate; subst ey;
      injection Hc as Hc;
      try (apply (f_equal CompOpp) in Hc; rewrite CompOpp_involutive in Hc; cbn in Hc);
      apply Pos.compare_eq in Hc; subst my; reflexivity.
Qed.

Lemma float_eq_200000 f :
  py_eq (PyFloat f) (PyInt 200000) = true -> f = 200000%float.
Proof.
  cbn [py_eq]. intros H.
  assert (Nf : nonnan (Prim2SF f)).
  { intros E. rewrite E in H. discriminate. }
  rewrite (Zcompare_SF_rank 200000 _ (Prim2SF_valid f) Nf) in H.
  2:{ apply int_rank_bound. lia. }
  apply Prim2SF_inj.
  apply rank_inj; try apply Prim2SF_valid; try assumption.
  - vm_compute. discriminate.
  - destruct (Z.compare_spec (200000 * 2 ^ 1074) (rank (Prim2SF f))) as [E|E|E];
      try discriminate.
    rewrite <- E. vm_compute. reflexivity.
  - destruct (Z.compare_spec (200000 * 2 ^ 1074) (rank (Prim2SF f))) as [E|E|E];
      try discriminate.
    rewrite <- E. vm_compute. discriminate.
Qed.

Lemma profit_points_nonpositive profit :
  py_gt profit (PyInt 0) = false -> profit_points_expr profit = Ok (PyFloat 0).
Proof.
  intros H. unfold profit_points_expr, py_max. rewrite H. vm_compute. reflexivity.
Qed.

Lemma profit_points_at_200000 profit :
  py_eq profit (PyInt 200000) = true -> profit_points_expr profit = Ok (PyFloat 50).
Proof.
  destruct profit as [z|f].
  - cbn [py_eq]. intros H. apply Z.eqb_eq in H. subst z. vm_compute. reflexivity.
  - intros H. rewrite (float_eq_200000 f H). vm_compute. reflexivity.
Qed.

Lemma profit_points_positive p :
  py_gt (PyFloat p) (PyInt 0) = true ->
  profit_points_expr (PyFloat p) = Ok (PyFloat (p / 200000 * 50)).
Proof.
  intros H. unfold profit_points_expr, py_max. rewrite H.
  unfold py_truediv. cbn [to_float bind].
  change (F64.of_Z 200000) with (Ok (A:=float) 200000%float). cbn [bind].
  change (PrimFloat.eqb 200000 zero) with false. cbv iota. cbn [bind].
  unfold py_mul, py_arith. cbn [to_float bind].
  change (F64.of_Z 50) with (Ok (A:=float) 50%float). reflexivity.
Qed.

Lemma sat_clamp_bounds u :
  py_le (PyInt 0) (sat_clamp_expr u) = true /\
  py_le (sat_clamp_expr u) (PyInt 100) = true.
Proof.
  unfold sat_clamp_expr, py_max, py_min, py_gt.
  destruct (py_lt (PyInt 0) u) eqn:E1.
  - destruct (py_lt u (PyInt 100)) eqn:E2; [|split; reflexivity].
    destruct u as [z|f]; cbn [py_lt py_le] in *.
    + apply Z.ltb_lt in E1, E2. split; apply Z.leb_le; lia.
    + destruct (F64.Zcompare_SF 0 (Prim2SF f)) as [[| |]|]; try discriminate.
      destruct (F64.Zcompare_SF 100 (Prim2SF f)) as [[| |]|]; try discriminate.
      split; reflexivity.
  - change (py_lt (PyInt 0) (PyInt 100)) with true. cbv iota. split; reflexivity.
Qed.

Lemma lowered_check_all :
  forallb (fun v => forallb (fun c => forallb (fun s =>
     lowered_check v c s 0 && lowered_check v c s 15)
     (map snd STAFFING)) (map snd CATERING)) (map snd VENUES) = true.
Proof. vm_compute. reflexivity. Qed.

Lemma lowered_exact v c s pen :
  In v (map snd VENUES) -> In c (map snd CATERING) -> In s (map snd STAFFING) ->
  pen = 0 \/ pen = 15 ->
  exists base lowered drop,
    sat_base_expr (Vibe v) (Quality c) (Ratio s) = Ok base /\
    py_sub base (PyInt pen) = Ok lowered /\
    py_sub base lowered = Ok drop /\
    py_eq drop (PyInt pen) = true.
Proof.
  intros Iv Ic Is Hpen. pose proof lowered_check_all as H.
  rewrite forallb_forall in H. specialize (H v Iv).
  rewrite forallb_forall in H. specialize (H c Ic).
  rewrite forallb_forall in H. specialize (H s Is).
  apply andb_true_iff in H. destruct H as [H0 H15].
  assert (Hc : lowered_check v c s pen = true) by (destruct Hpen; subst pen; assumption).
  unfold lowered_check in Hc.
  destruct (sat_base_expr (Vibe v) (Quality c) (Ratio s)) as [base|] eqn:E0;
    [|discriminate].
  destruct (py_sub base (PyInt pen)) as [lowered|] eqn:E1; [|discriminate].
  destruct (py_sub base lowered) as [drop|] eqn:E2; [|discriminate].
  exists base, lowered, drop. repeat split; assumption.
Qed.

Lemma getitem_raise {A} (table : list (string * A)) key e :
  getitem table key = Raise e -> e = KeyError key.
Proof.
  induction table as [|[k w] rest IH]; cbn [getitem].
  - intros H. injection H as <-. reflexivity.
  - destruct (String.eqb k key); [discriminate | exact IH].
Qed.

Lemma unknown_label_raises inputs :
  labels_resolve inputs = false ->
  exists key,
    run_simulation inputs = Raise (KeyError key) /\
    ((key = in_Venue inputs /\ resolves VENUES key = false) \/
     (key = in_Catering inputs /\ resolves CATERING key = false) \/
     (key = in_Staffing inputs /\ resolves STAFFING key = false) \/
     (key = in_Risk inputs /\ resolves RISKS key = false)).
Proof.
  unfold labels_resolve, resolves, run_simulation, simulate.
  destruct (getitem VENUES (in_Venue inputs)) as [v|e] eqn:Ev.
  2:{ intros _. rewrite (getitem_raise _ _ _ Ev). cbn [bind]. eexists. split; [reflexivity|].
      left. rewrite Ev. auto. }
  destruct (getitem CATERING (in_Catering inputs)) as [c|e] eqn:Ec.
  2:{ intros _. rewrite (getitem_raise _ _ _ Ec). cbn [bind]. eexists. split; [reflexivity|].
      right; left. rewrite Ec. auto. }
  destruct (getitem STAFFING (in_Staffing inputs)) as [s|e] eqn:Es.
  2:{ intros _. rewrite (getitem_raise _ _ _ Es). cbn [bind]. eexists. split; [reflexivity|].
      right; right; left. rewrite Es. auto. }
  destruct (getitem RISKS (in_Risk inputs)) as [r|e] eqn:Er.
  2:{ intros _. rewrite (getitem_raise _ _ _ Er). cbn [bind]. eexists. split; [reflexivity|].
      right; right; right. rewrite Er. auto. }
  discriminate.
Qed.



Lemma mul_zero_l x y s :
  Prim2SF x = S754_zero s -> finite_or_zero (Prim2SF y) ->
  exists s', Prim2SF (x * y) = S754_zero s'.
Proof.
  intros Ex Fy. rewrite mul_spec, Ex. unfold SF64mul.
  destruct (Prim2SF y) as [sy|sy| |sy my ey]; try contradiction; cbn; eauto.
Qed.

Lemma attendance_zero rd cap :
  nn (Prim2SF rd) -> 1 <= cap ->
  py_lt (PyFloat rd) (PyInt 1) = true ->
  attendance_expr (PyFloat rd) cap = Ok 0.
Proof.
  intros Nr Hc H1. unfold attendance_expr, py_min. cbn [py_lt] in *.
  assert (Hlt : match F64.Zcompare_SF cap (Prim2SF rd) with
                | Some Lt => true
                | _ => false
                end = false /\ F64.trunc rd = Ok 0).
  { unfold F64.trunc. revert H1.
    destruct (Prim2SF rd) as [s|s| |s m e]; try contradiction.
    - intros _. cbn [F64.Zcompare_SF F64.trunc_SF].
      destruct (Z.compare_spec cap 0); try lia. split; reflexivity.
    - destruct s; [contradiction | discriminate].
    - destruct s; [contradiction|]. cbn [F64.Zcompare_SF F64.trunc_SF].
      destruct e as [|p|p].
      + destruct (Z.compare_spec 1 (Z.pos m)); try discriminate. lia.
      + assert (0 < 2 ^ Z.pos p) by (apply pow2_pos; lia).
        destruct (Z.compare_spec 1 (Z.pos m * 2 ^ Z.pos p)); try discriminate. nia.
      + assert (0 < 2 ^ (- Z.neg p)) by (apply pow2_pos; lia).
        destruct (Z.compare_spec (1 * 2 ^ (- Z.neg p)) (Z.pos m)); try discriminate.
        intros _. rewrite Z.div_small by lia.
        destruct (Z.compare_spec (cap * 2 ^ (- Z.neg p)) (Z.pos m)); try nia;
          split; reflexivity. }
  destruct Hlt as [-> Ht]. cbn [py_int]. exact Ht.
Qed.


Lemma int_rank_bound' z : - 2 ^ 63 < z < 2 ^ 63 -> - INF < z * 2 ^ 1074 < INF.
Proof.
  intros Hz. destruct (Z.le_gt_cases 0 z).
  - apply int_rank_bound. lia.
  - pose proof (int_rank_bound (- z) ltac:(lia)). lia.
Qed.

Lemma py_eq_prank x y :
  exact x -> exact y -> prank x = prank y -> py_eq x y = true.
Proof.
  assert (HP : 0 < 2 ^ 1074) by (apply pow2_pos; lia).
  destruct x as [a|f], y as [b|g]; cbn [exact prank py_eq]; intros Hx Hy H.
  - apply Z.eqb_eq. nia.
  - rewrite (Zcompare_SF_rank a _ (Prim2SF_valid g) Hy (int_rank_bound' a ltac:(lia))).
    fold (rankF g). rewrite H, Z.compare_refl. reflexivity.
  - rewrite (Zcompare_SF_rank b _ (Prim2SF_valid f) Hx (int_rank_bound' b ltac:(lia))).
    fold (rankF f). rewrite H, Z.compare_refl. reflexivity.
  - rewrite (eqb_rank _ _ Hx Hy). apply Z.eqb_eq. exact H.
Qed.







(** * Lemmas for the further properties

    ** Any number is accepted, and labels are looked up first *)

Lemma any_number_small x : any_number x = true -> small x.
Proof.
  destruct x as [z|f]; cbn [any_number small]; [|auto].
  rewrite andb_true_iff, Z.ltb_lt, Z.ltb_lt. lia.
Qed.

Lemma any_number_bound x : any_number x = true ->
  match x with PyInt z => - 2 ^ 50 < z < 2 ^ 50 | PyFloat _ => True end.
Proof.
  destruct x as [z|f]; cbn [any_number]; [|auto].
  rewrite andb_true_iff, Z.ltb_lt, Z.ltb_lt. lia.
Qed.

Lemma valid_any x : valid_number x = true -> any_number x = true.
Proof.
  destruct x as [z|f]; cbn [valid_number any_number]; [|auto].
  rewrite !andb_true_iff, Z.leb_le, !Z.ltb_lt. lia.
Qed.

Lemma np_sqrt_any x f :
  any_number x = true -> to_float x = Ok f -> np_sqrt x = Ok (PyFloat (sqrt f)).
Proof.
  intros Hx. pose proof (any_number_bound x Hx) as Hb.
  destruct x as [z|g]; cbn [to_float np_sqrt].
  - intros E.
    match goal with
    | |- context [(?a <=? z) && (z <? ?b)] =>
        destruct (Z.leb_spec a z); destruct (Z.ltb_spec z b); try lia
    end.
    cbn [andb]. rewrite E. reflexivity.
  - intros E. injection E as <-. reflexivity.
Qed.

Lemma base_demand_any price marketing fp fm :
  any_number marketing = true ->
  to_float price = Ok fp -> to_float marketing = Ok fm ->
  base_demand_expr price marketing =
    Ok (py_max (PyInt 0) (PyFloat (demand_float fp fm))).
Proof.
  intros Vm Ep Em. unfold base_demand_expr.
  rewrite (py_mul_float_l _ _ _ Ep). cbn [bind].
  unfold py_sub, py_arith at 1. cbn [to_float bind]. rewrite of_Z_2000. cbn [bind].
  rewrite (py_mul_float_l _ _ _ Em). cbn [bind].
  unfold py_add at 1, py_arith. cbn [to_float bind].
  rewrite (np_sqrt_any _ _ Vm Em). cbn [bind].
  unfold py_mul, py_arith. cbn [to_float bind]. rewrite of_Z_10. cbn [bind].
  unfold py_add, py_arith. cbn [to_float bind]. reflexivity.
Qed.

Lemma finance_any a price marketing fixed cost sc :
  0 <= a <= 5000 -> any_number price = true -> any_number marketing = true ->
  0 <= fixed <= 40000 -> 0 <= cost <= 60 ->
  exists revenue c1 c2 total profit,
    py_mul (PyInt a) price = Ok revenue /\
    py_add (PyInt fixed) marketing = Ok c1 /\
    py_add c1 (PyInt (a * cost)) = Ok c2 /\
    py_add c2 (PyFloat sc) = Ok (PyFloat total) /\
    py_sub revenue (PyFloat total) = Ok (PyFloat profit).
Proof.
  intros Ha Vp Vm Hf Hc.
  apply any_number_bound in Vp, Vm.
  assert (Sp : small price) by (destruct price; cbn; lia || exact I).
  assert (Sm : small marketing) by (destruct marketing; cbn; lia || exact I).
  destruct (py_mul_small (PyInt a) price ltac:(cbn; lia) Sp) as (rev & Er & Hr).
  destruct (py_add_small (PyInt fixed) marketing ltac:(cbn; lia) Sm) as (c1 & E1 & H1).
  assert (S1 : small c1).
  { destruct marketing; [subst c1; cbn; lia | destruct c1; [contradiction | exact I]]. }
  destruct (py_add_small c1 (PyInt (a * cost)) S1 ltac:(cbn; nia)) as (c2 & E2 & H2).
  assert (S2 : small c2).
  { destruct marketing.
    - subst c1 c2. cbn. nia.
    - destruct c1; [contradiction|]. destruct c2; [contradiction | exact I]. }
  destruct (py_add_small c2 (PyFloat sc) S2 I) as (tot & E3 & H3).
  assert (F3 : is_float tot) by (destruct c2; exact H3).
  destruct (is_float_ex tot F3) as (total & ->).
  assert (Sr : small rev).
  { destruct price; [subst rev; cbn; nia | destruct rev; [contradiction | exact I]]. }
  destruct (py_sub_small rev (PyFloat total) Sr I) as (pr & E4 & H4).
  assert (F4 : is_float pr) by (destruct rev; exact H4).
  destruct (is_float_ex pr F4) as (profit & ->).
  exists rev, c1, c2, total, profit. auto.
Qed.

Lemma simulate_any inputs :
  labels_resolve inputs = true ->
  any_number (in_Price inputs) = true -> any_number (in_Marketing inputs) = true ->
  exists l, simulate inputs = Ok l /\
    In (venue l) (map snd VENUES) /\ In (cat l) (map snd CATERING) /\
    In (staff l) (map snd STAFFING) /\ In (risk l) (map snd RISKS) /\
    (exists rd, risk_demand l = PyFloat rd /\ nn (Prim2SF rd)) /\
    0 <= attendance l <= Capacity (venue l) /\
    is_float (crowding l) /\ is_float (sat_unclamped l) /\ is_float (profit l).
Proof.
  unfold labels_resolve, resolves. rewrite !andb_true_iff.
  intros [[[Hv Hc] Hs] Hr] Vp Vm.
  destruct (getitem VENUES (in_Venue inputs)) as [v|] eqn:Ev; [|discriminate].
  destruct (getitem CATERING (in_Catering inputs)) as [c|] eqn:Ec; [|discriminate].
  destruct (getitem STAFFING (in_Staffing inputs)) as [s|] eqn:Es; [|discriminate].
  destruct (getitem RISKS (in_Risk inputs)) as [r|] eqn:Er; [|discriminate].
  pose proof (getitem_In _ _ _ Ev) as Iv. pose proof (getitem_In _ _ _ Ec) as Ic.
  pose proof (getitem_In _ _ _ Es) as Is. pose proof (getitem_In _ _ _ Er) as Ir.
  destruct (venue_facts v Iv) as (Hcap & Hcin & Hfix & Hvibe).
  destruct (catering_facts c Ic) as (Hcost & Hqual).
  destruct (staffing_facts s Is) as (Hratio & Hper).
  destruct (risk_facts r Ir) as ((m & e & Em) & Hsp).
  destruct (to_float_small _ (any_number_small _ Vp)) as (fp & Efp).
  destruct (to_float_small _ (any_number_small _ Vm)) as (fm & Efm).
  unfold simulate. rewrite Ev, Ec, Es, Er. cbn [bind]. cbv zeta.
  rewrite (base_demand_any _ _ fp fm Vm Efp Efm). cbn [bind].
  destruct (risk_demand_nn (demand_float fp fm) (DemandMult r) m e Em) as (rd & Erd & Nrd).
  rewrite Erd. cbn [bind].
  destruct (attendance_ok rd (Capacity v) Nrd ltac:(lia)) as (a & Ea & Ha).
  rewrite Ea. cbn [bind].
  destruct (num_staff_ok a (Ratio s) ltac:(lia) ltac:(lia)) as (ns & Ens).
  destruct (py_mul_float_int ns (CostPer s) ltac:(lia)) as (sc & Esc).
  destruct (finance_any a (in_Price inputs) (in_Marketing inputs) (Fixed_Cost v) (Cost c) sc
              ltac:(lia) Vp Vm Hfix Hcost)
    as (rev & c1 & c2 & total & profit & Erev & E1 & E2 & E3 & E4).
  rewrite Erev. cbn [bind].
  change (py_mul (PyInt a) (PyInt (Cost c))) with (Ok (PyInt (a * Cost c))). cbn [bind].
  rewrite Ens. cbn [bind]. rewrite Esc. cbn [bind].
  rewrite E1. cbn [bind]. rewrite E2. cbn [bind]. rewrite E3. cbn [bind].
  rewrite E4. cbn [bind].
  destruct (crowding_ok a (Capacity v) ltac:(lia) ltac:(lia) Hcin) as (cr & Ecr).
  rewrite Ecr. cbn [bind].
  destruct (sat_base_ok (Vibe v) (Quality c) (Ratio s) ltac:(lia) ltac:(lia) ltac:(lia))
    as (b & Eb).
  rewrite Eb. cbn [bind].
  assert (Hpen : 0 <= crowding_penalty_expr (PyFloat cr) <= 15)
    by (unfold crowding_penalty_expr; destruct (py_gt _ _); lia).
  destruct (sat_adjust_ok b (crowding_penalty_expr (PyFloat cr)) (SatPenalty r)
              ltac:(lia) ltac:(lia)) as (u & Eu).
  rewrite Eu. cbn [bind].
  destruct (score_ok profit u) as (sco & Esco).
  rewrite Esco. cbn [bind].
  eexists. split; [reflexivity|]. cbn.
  repeat split; try assumption; try lia. eauto.
Qed.

Lemma run_any inputs :
  labels_resolve inputs = true ->
  any_number (in_Price inputs) = true -> any_number (in_Marketing inputs) = true ->
  exists l o, simulate inputs = Ok l /\ returned l = Ok o /\
    run_simulation inputs = Ok o /\
    In (venue l) (map snd VENUES) /\ In (cat l) (map snd CATERING) /\
    In (staff l) (map snd STAFFING) /\ In (risk l) (map snd RISKS) /\
    (exists rd, risk_demand l = PyFloat rd /\ nn (Prim2SF rd)) /\
    0 <= attendance l <= Capacity (venue l) /\
    is_float (sat_unclamped l) /\ is_float (profit l).
Proof.
  intros Hl Vp Vm. destruct (simulate_any inputs Hl Vp Vm)
    as (l & El & Iv & Ic & Is & Ir & Hrd & Ha & Fc & Fu & Fp).
  destruct (returned_ok l Fc) as (o & Eo).
  exists l, o. unfold run_simulation. rewrite El. cbn [bind].
  repeat split; try assumption; lia.
Qed.

(** ** Negative marketing budgets *)

Lemma Zcompare_SF_0_Gt x :
  F64.Zcompare_SF 0 x = Some Gt ->
  (exists m e, x = S754_finite true m e) \/ x = S754_infinity true.
Proof.
  destruct x as [s|s| |s m e]; cbn [F64.Zcompare_SF]; try discriminate.
  - destruct s; [auto | discriminate].
  - destruct s; [eauto|]. destruct e as [|p|p]; intros H.
    + discriminate.
    + assert (0 < 2 ^ Z.pos p) by (apply pow2_pos; lia).
      assert (0 < Z.pos m * 2 ^ Z.pos p) by (apply Z.mul_pos_pos; lia).
      assert (H' : (0 ?= Z.pos m * 2 ^ Z.pos p) = Gt) by (injection H as H; exact H).
      apply Z.compare_gt_iff in H'. lia.
    + discriminate.
Qed.

Lemma negative_float x f :
  any_number x = true -> py_lt x (PyInt 0) = true -> to_float x = Ok f ->
  (exists m e, Prim2SF f = S754_finite true m e) \/ Prim2SF f = S754_infinity true.
Proof.
  intros Hx. pose proof (any_number_bound x Hx) as Hb.
  destruct x as [z|g]; cbn [py_lt to_float].
  - intros Hz Ef. apply Z.ltb_lt in Hz.
    destruct (of_Z_spec z ltac:(lia)) as (f' & E & Ff & R & _).
    rewrite E in Ef. injection Ef as <-.
    rewrite (sRND_exact_int z ltac:(lia)) in R.
    assert (HP : 0 < 2 ^ 1074) by (apply pow2_pos; lia).
    unfold rankF in R. destruct (Prim2SF f') as [s|s| |s m e]; try contradiction.
    + cbn [rank] in R. nia.
    + destruct s; [eauto|]. cbn [rank cond_Zopp] in R.
      pose proof (Prim2SF_valid f') as V.
      assert (0 <= Z.pos m * 2 ^ (e + 1074)); [|nia].
      apply Z.mul_nonneg_nonneg; [lia|]. apply Z.pow_nonneg. lia.
  - intros Hg Ef. injection Ef as <-.
    destruct (F64.Zcompare_SF 0 (Prim2SF g)) as [[| |]|] eqn:Ec; try discriminate.
    apply Zcompare_SF_0_Gt. exact Ec.
Qed.

Lemma sqrt_negative f :
  (exists m e, Prim2SF f = S754_finite true m e) \/ Prim2SF f = S754_infinity true ->
  Prim2SF (sqrt f) = S754_nan.
Proof.
  intros H. rewrite sqrt_spec. destruct H as [(m & e & ->)| ->]; reflexivity.
Qed.

Lemma demand_float_nan fp fm :
  Prim2SF (sqrt fm) = S754_nan -> Prim2SF (demand_float fp fm) = S754_nan.
Proof.
  intros H. unfold demand_float. rewrite add_spec, (mul_spec 10), H.
  unfold SF64add, SF64mul.
  destruct (Prim2SF (2000 - 3.5 * fp + 0.04 * fm)) as [s|s| |s m e];
    try destruct s; reflexivity.
Qed.

Lemma py_max_nan t :
  Prim2SF t = S754_nan -> py_max (PyInt 0) (PyFloat t) = PyInt 0.
Proof. intros H. unfold py_max, py_gt. cbn [py_lt]. rewrite H. reflexivity. Qed.

Lemma zero_times mult m e :
  Prim2SF mult = S754_finite false m e ->
  exists rd s, py_mul (PyInt 0) (PyFloat mult) = Ok (PyFloat rd) /\
    Prim2SF rd = S754_zero s.
Proof.
  intros Em. unfold py_mul, py_arith. cbn [to_float bind].
  change (F64.of_Z 0) with (Ok (A:=float) 0%float). cbn [bind].
  destruct (mul_zero_l 0 mult false) as (s & Es); [reflexivity | rewrite Em; exact I|].
  eauto.
Qed.

(** ** Attendance as a function of the risk-adjusted demand *)

Lemma trunc_rank m e :
  valid_binary (S754_finite false m e) = true ->
  F64.trunc_SF (S754_finite false m e) = Ok (rank (S754_finite false m e) / 2 ^ 1074).
Proof.
  intros V. destruct (valid_finite _ _ _ V) as (He & _).
  assert (HP : 0 < 2 ^ 1074) by (apply pow2_pos; lia).
  cbn [F64.trunc_SF rank cond_Zopp]. f_equal.
  destruct e as [|p|p].
  - rewrite Z.add_0_l, Z.div_mul by lia. reflexivity.
  - rewrite <- (pow2_add (Z.pos p) 1074) by lia.
    rewrite Z.mul_assoc, Z.div_mul by lia. reflexivity.
  - replace (2 ^ 1074) with (2 ^ (- Z.neg p) * 2 ^ (Z.neg p + 1074))
      by (rewrite pow2_add by lia; f_equal; lia).
    assert (0 < 2 ^ (Z.neg p + 1074)) by (apply pow2_pos; lia).
    rewrite Z.div_mul_cancel_r; [reflexivity | | lia].
    assert (0 < 2 ^ (- Z.neg p)) by (apply pow2_pos; lia). lia.
Qed.

Lemma attendance_rank rd cap :
  nn (Prim2SF rd) -> 0 <= cap <= 5000 ->
  attendance_expr (PyFloat rd) cap = Ok (Z.min (rankF rd / 2 ^ 1074) cap).
Proof.
  intros Nr Hc. pose proof (Prim2SF_valid rd) as V.
  assert (HP : 0 < 2 ^ 1074) by (apply pow2_pos; lia).
  unfold attendance_expr, py_min. cbn [py_lt].
  rewrite (Zcompare_SF_rank cap _ V (nn_nonnan _ Nr)) by (apply int_rank_bound; lia).
  fold (rankF rd).
  destruct (Z.compare_spec (cap * 2 ^ 1074) (rankF rd)) as [E|E|E].
  - cbn [py_int]. unfold F64.trunc. unfold rankF in *.
    destruct (Prim2SF rd) as [s|s| |s m e]; try contradiction.
    + cbn [rank] in *. assert (cap = 0) by nia. subst cap. reflexivity.
    + destruct s; [contradiction|]. exfalso. cbn [rank cond_Zopp] in E.
      pose proof (int_rank_bound cap ltac:(lia)). lia.
    + destruct s; [contradiction|]. rewrite (trunc_rank _ _ V). f_equal.
      rewrite <- E, Z.div_mul by lia. lia.
  - cbn [py_int]. f_equal. symmetry. apply Z.min_r.
    apply Z.div_le_lower_bound; lia.
  - cbn [py_int]. unfold F64.trunc. unfold rankF in *.
    destruct (Prim2SF rd) as [s|s| |s m e]; try contradiction.
    + cbn [rank F64.trunc_SF]. rewrite Z.div_0_l by lia. f_equal. lia.
    + destruct s; [contradiction|]. exfalso. cbn [rank cond_Zopp] in E.
      pose proof (int_rank_bound cap ltac:(lia)). lia.
    + destruct s; [contradiction|]. rewrite (trunc_rank _ _ V). f_equal.
      symmetry. apply Z.min_l. apply Z.div_le_upper_bound; lia.
Qed.

Lemma attendance_mono rd rd' cap a a' :
  nn (Prim2SF rd) -> nn (Prim2SF rd') -> 0 <= cap <= 5000 ->
  rankF rd <= rankF rd' ->
  attendance_expr (PyFloat rd) cap = Ok a ->
  attendance_expr (PyFloat rd') cap = Ok a' ->
  a <= a'.
Proof.
  intros N N' Hc Hr E E'.
  rewrite (attendance_rank rd cap N Hc) in E. injection E as <-.
  rewrite (attendance_rank rd' cap N' Hc) in E'. injection E' as <-.
  assert (HP : 0 < 2 ^ 1074) by (apply pow2_pos; lia).
  apply Z.min_le_compat_r. apply Z.div_le_mono; lia.
Qed.

Lemma SFmul_comm x y : SF64mul x y = SF64mul y x.
Proof.
  unfold SF64mul, SFmul.
  destruct x as [sx|sx| |sx mx ex], y as [sy|sy| |sy my ey];
    try reflexivity; rewrite ?(xorb_comm sx sy); try reflexivity.
  rewrite (Pos.mul_comm mx my), (Z.add_comm ex ey). reflexivity.
Qed.

Lemma mul_comm_float x y : (x * y)%float = (y * x)%float.
Proof. apply Prim2SF_inj. rewrite !mul_spec. apply SFmul_comm. Qed.

Lemma py_max_0_cases t :
  nonnan (Prim2SF t) ->
  (0 < rankF t /\ py_max (PyInt 0) (PyFloat t) = PyFloat t /\ nn (Prim2SF t)) \/
  (rankF t <= 0 /\ py_max (PyInt 0) (PyFloat t) = PyInt 0).
Proof.
  intros N. unfold py_max, py_gt. cbn [py_lt].
  pose proof (Zcompare_SF_rank 0 _ (Prim2SF_valid t) N) as H.
  rewrite Z.mul_0_l in H. pose proof INF_pos.
  rewrite H by lia. fold (rankF t).
  destruct (Z.compare_spec 0 (rankF t)) as [E|E|E]; [right; split; [lia | reflexivity]| |
    right; split; [lia | reflexivity]].
  left. split; [exact E|]. split; [reflexivity|].
  apply rank_nonneg_nn; [apply Prim2SF_valid | exact N | unfold rankF in E; lia].
Qed.

Lemma risk_demand_mono t t' mult m e rd rd' :
  Prim2SF mult = S754_finite false m e ->
  nonnan (Prim2SF t) -> nonnan (Prim2SF t') -> rankF t <= rankF t' ->
  py_mul (py_max (PyInt 0) (PyFloat t)) (PyFloat mult) = Ok (PyFloat rd) ->
  py_mul (py_max (PyInt 0) (PyFloat t')) (PyFloat mult) = Ok (PyFloat rd') ->
  nn (Prim2SF rd) /\ nn (Prim2SF rd') /\ rankF rd <= rankF rd'.
Proof.
  intros Em N N' Hr E E'.
  destruct (risk_demand_nn t mult m e Em) as (x & Ex & Nx).
  destruct (risk_demand_nn t' mult m e Em) as (x' & Ex' & Nx').
  rewrite E in Ex. injection Ex as <-. rewrite E' in Ex'. injection Ex' as <-.
  split; [exact Nx|]. split; [exact Nx'|].
  destruct (py_max_0_cases t N) as [(H0 & M & Nt)|(H0 & M)]; rewrite M in E.
  - destruct (py_max_0_cases t' N') as [(H0' & M' & Nt')|(H0' & M')]; [|lia].
    rewrite M' in E'. unfold py_mul, py_arith in E, E'. cbn [to_float bind] in E, E'.
    injection E as <-. injection E' as <-.
    rewrite (mul_comm_float t mult), (mul_comm_float t' mult).
    apply (mul_pos_mono mult m e t t' Em Nt Nt' Hr).
  - destruct (zero_times mult m e Em) as (z & s & Ez & Es).
    rewrite Ez in E. injection E as <-.
    unfold rankF at 1. rewrite Es. cbn [rank].
    apply nn_rank; [apply Prim2SF_valid | exact Nx'].
Qed.

Lemma risk_demand_mono_mult t c c' rd rd' :
  (exists m e, Prim2SF c = S754_finite false m e) ->
  (exists m e, Prim2SF c' = S754_finite false m e) ->
  rankF c <= rankF c' ->
  py_mul (py_max (PyInt 0) (PyFloat t)) (PyFloat c) = Ok (PyFloat rd) ->
  py_mul (py_max (PyInt 0) (PyFloat t)) (PyFloat c') = Ok (PyFloat rd') ->
  nn (Prim2SF rd) /\ nn (Prim2SF rd') /\ rankF rd <= rankF rd'.
Proof.
  intros (m & e & Ec) (m' & e' & Ec') Hr E E'.
  destruct (risk_demand_nn t c m e Ec) as (x & Ex & Nx).
  destruct (risk_demand_nn t c' m' e' Ec') as (x' & Ex' & Nx').
  rewrite E in Ex. injection Ex as <-. rewrite E' in Ex'. injection Ex' as <-.
  split; [exact Nx|]. split; [exact Nx'|].
  assert (Nc : nn (Prim2SF c)) by (rewrite Ec; exact I).
  assert (Nc' : nn (Prim2SF c')) by (rewrite Ec'; exact I).
  unfold py_max, py_gt in E, E'. cbn [py_lt] in E, E'.
  destruct (F64.Zcompare_SF 0 (Prim2SF t)) as [[| |]|] eqn:Ez.
  2:{ (* t > 0 *)
    pose proof (Zcompare_SF_pos_nn _ Ez) as Nt.
    unfold py_mul, py_arith in E, E'. cbn [to_float bind] in E, E'.
    injection E as <-. injection E' as <-.
    destruct (Prim2SF t) as [s|s| |s mt et] eqn:Et; try contradiction.
    - (* zero *) unfold rankF. rewrite !mul_spec, Et, Ec, Ec'. cbn. lia.
    - destruct s; [contradiction|].
      unfold rankF. rewrite !mul_spec, Et, Ec, Ec'. cbn. lia.
    - destruct s; [contradiction|].
      apply (mul_pos_mono t mt et c c' Et Nc Nc' Hr). }
  all: destruct (zero_times c m e Ec) as (z & s & Hz & Es);
    destruct (zero_times c' m' e' Ec') as (z' & s' & Hz' & Es');
    rewrite Hz in E; rewrite Hz' in E'; injection E as <-; injection E' as <-;
    unfold rankF; rewrite Es, Es'; cbn [rank]; lia.
Qed.

Lemma demand_nonnan fp fm :
  nn (Prim2SF fp) -> nn (Prim2SF fm) -> finite_or_zero (Prim2SF fm) ->
  nonnan (Prim2SF (demand_float fp fm)).
Proof.
  intros Np Nm Fm.
  destruct (demand_float_price fp fp fm Np Np Nm Fm (Z.le_refl _)) as (H & _).
  exact H.
Qed.

(** ** The crowding percentage *)

Lemma crowding_percent_check_all : all_upto 5000 crowding_percent_check = true.
Proof. vm_compute. reflexivity. Qed.

Lemma crowding_percent_exact a cap :
  0 <= a <= cap -> In cap capacities ->
  exists c pc,
    crowding_expr a cap = Ok c /\ py_mul c (PyInt 100) = Ok pc /\
    py_le (PyInt 0) pc = true /\ py_le pc (PyInt 100) = true /\
    py_eq pc (PyInt 100) = (a =? cap) /\ py_eq pc (PyInt 0) = (a =? 0).
Proof.
  intros Ha Hc.
  assert (Hcap : cap <= 5000).
  { cbn in Hc. destruct Hc as [<-|[<-|[<-|[<-|[]]]]]; lia. }
  pose proof (all_upto_spec 5000 crowding_percent_check crowding_percent_check_all a
                ltac:(lia)) as H.
  unfold crowding_percent_check in H. rewrite forallb_forall in H.
  specialize (H cap Hc).
  destruct (Z.leb_spec a cap); [|lia].
  destruct (crowding_expr a cap) as [c|] eqn:Ec; [|discriminate].
  destruct (py_mul c (PyInt 100)) as [pc|] eqn:Epc; [|discriminate].
  rewrite !andb_true_iff in H. destruct H as [[[H1 H2] H3] H4].
  apply eqb_prop in H3, H4. exists c, pc.
  repeat (split; [assumption || reflexivity|]). assumption.
Qed.

Lemma py_le_int_float cap rd :
  nn (Prim2SF rd) -> 0 <= cap <= 5000 ->
  py_le (PyInt cap) (PyFloat rd) = (cap * 2 ^ 1074 <=? rankF rd).
Proof.
  intros N Hc. cbn [py_le].
  rewrite (Zcompare_SF_rank cap _ (Prim2SF_valid rd) (nn_nonnan _ N))
    by (apply int_rank_bound; lia).
  fold (rankF rd).
  destruct (Z.compare_spec (cap * 2 ^ 1074) (rankF rd)); symmetry;
    [apply Z.leb_le | apply Z.leb_le | apply Z.leb_gt]; lia.
Qed.

(** ** Satisfaction over the tables *)

Lemma sat_range_check_all :
  forallb (fun v => forallb (fun c => forallb (fun s => forallb (fun r =>
     sat_range_check v c s r 0 && sat_range_check v c s r 15)
     (map snd RISKS)) (map snd STAFFING)) (map snd CATERING)) (map snd VENUES) = true.
Proof. vm_compute. reflexivity. Qed.

Lemma sat_range v c s r pen base u :
  In v (map snd VENUES) -> In c (map snd CATERING) -> In s (map snd STAFFING) ->
  In r (map snd RISKS) -> pen = 0 \/ pen = 15 ->
  sat_base_expr (Vibe v) (Quality c) (Ratio s) = Ok base ->
  sat_adjust_expr base pen (SatPenalty r) = Ok u ->
  exists f, u = PyFloat f /\ sat_clamp_expr u = u /\
    py_lt (PyInt 9) u = true /\ py_lt u (PyInt 97) = true /\
    is_finite (f * 0.5) = true /\ py_lt (PyInt 4) (PyFloat (f * 0.5)) = true.
Proof.
  intros Iv Ic Is Ir Hpen Eb Eu. pose proof sat_range_check_all as H.
  rewrite forallb_forall in H. specialize (H v Iv).
  rewrite forallb_forall in H. specialize (H c Ic).
  rewrite forallb_forall in H. specialize (H s Is).
  rewrite forallb_forall in H. specialize (H r Ir).
  apply andb_true_iff in H. destruct H as [H0 H15].
  assert (Hc : sat_range_check v c s r pen = true) by (destruct Hpen; subst pen; assumption).
  unfold sat_range_check in Hc. rewrite Eb, Eu in Hc.
  destruct u as [z|f]; [discriminate|].
  rewrite !andb_true_iff in Hc. destruct Hc as [[[[[A B] C] D] E] F].
  exists f. split; [reflexivity|]. split; [|auto].
  unfold sat_clamp_expr, py_max, py_min, py_gt. rewrite A, B. reflexivity.
Qed.

(** ** The sign of a rounded quotient, and a floor for the score *)

Lemma shr_1_nonneg mrs : 0 <= shr_m mrs -> 0 <= shr_m (shr_1 mrs).
Proof.
  destruct mrs as [m r s]. cbn [shr_m]. intros H.
  destruct m as [|p|p]; [cbn; lia | destruct p; cbn; lia | lia].
Qed.

Lemma iter_shr_1_nonneg n mrs :
  0 <= shr_m mrs -> 0 <= shr_m (Nat.iter n shr_1 mrs).
Proof.
  intros H. induction n as [|n IH]; [exact H|].
  cbn [Nat.iter]. apply shr_1_nonneg. exact IH.
Qed.

Lemma shr_fexp_nonneg m e l :
  0 <= m -> 0 <= shr_m (fst (shr_fexp prec emax m e l)).
Proof.
  intros H. unfold shr_fexp, shr.
  assert (H0 : 0 <= shr_m (shr_record_of_loc m l)).
  { destruct l as [|[| |]]; exact H. }
  destruct (fexp prec emax (Zdigits2 m + e) - e) as [|p|p]; cbn [fst]; try exact H0.
  rewrite iter_pos_nat. apply iter_shr_1_nonneg. exact H0.
Qed.

Lemma round_nearest_even_nonneg m l : 0 <= m -> 0 <= round_nearest_even m l.
Proof.
  intros H. unfold round_nearest_even.
  destruct l as [|[| |]]; try lia. destruct (Z.even m); lia.
Qed.

Lemma binary_round_aux_sign s m e l :
  0 <= m -> has_sign s (binary_round_aux prec emax s m e l).
Proof.
  intros H. unfold binary_round_aux.
  pose proof (shr_fexp_nonneg m e l H) as H1.
  destruct (shr_fexp prec emax m e l) as [mrs1 e1]. cbn [fst] in H1.
  pose proof (shr_fexp_nonneg _ e1 loc_Exact
                (round_nearest_even_nonneg _ (loc_of_shr_record mrs1) H1)) as H2.
  destruct (shr_fexp prec emax _ e1 loc_Exact) as [mrs2 e2]. cbn [fst] in H2.
  destruct (shr_m mrs2) as [|p|p]; [reflexivity | | lia].
  destruct (e2 <=? emax - prec); reflexivity.
Qed.

Lemma SFdiv_core_nonneg m1 e1 m2 e2 :
  0 <= fst (fst (SFdiv_core_binary prec emax (Zpos m1) e1 (Zpos m2) e2)).
Proof.
  unfold SFdiv_core_binary.
  set (s := e1 - e2 - _).
  set (m' := match s with Z.pos _ => Z.shiftl (Zpos m1) s | 0 => Zpos m1 | Z.neg _ => 0 end).
  assert (Hm : 0 <= m').
  { subst m'. destruct s; try lia. apply Z.shiftl_nonneg. lia. }
  pose proof (Z_div_mod m' (Zpos m2) ltac:(lia)) as Hd.
  destruct (Z.div_eucl m' (Zpos m2)) as [q r]. cbn [fst].
  destruct Hd as [Hq Hr]. nia.
Qed.

Lemma div_nn x c mc ec :
  nn (Prim2SF x) -> Prim2SF c = S754_finite false mc ec -> nn (Prim2SF (x / c)).
Proof.
  intros Nx Ec. rewrite div_spec, Ec. unfold SF64div, SFdiv.
  destruct (Prim2SF x) as [s|s| |s m e]; try contradiction.
  - exact I.
  - destruct s; [contradiction | exact I].
  - destruct s; [contradiction|].
    pose proof (SFdiv_core_nonneg m e mc ec) as H.
    destruct (SFdiv_core_binary prec emax (Zpos m) e (Zpos mc) ec) as [[q e'] l].
    cbn [fst] in H. apply has_sign_nn.
    apply (binary_round_aux_sign (xorb false false) q e' l H).
Qed.

Lemma profit_points_nn pf :
  exists q, profit_points_expr (PyFloat pf) = Ok (PyFloat q) /\ nn (Prim2SF q) /\
    (py_gt (PyFloat pf) (PyInt 0) = false -> Prim2SF q = S754_zero false).
Proof.
  destruct (py_gt (PyFloat pf) (PyInt 0)) eqn:E.
  - rewrite (profit_points_positive pf E). eexists. split; [reflexivity|].
    split; [|discriminate].
    eapply (mul_nn_pos _ 50); [|vm_compute; reflexivity].
    eapply (div_nn pf 200000); [|vm_compute; reflexivity].
    unfold py_gt in E. cbn [py_lt] in E.
    destruct (F64.Zcompare_SF 0 (Prim2SF pf)) as [[| |]|] eqn:Ec; try discriminate.
    apply Zcompare_SF_pos_nn. exact Ec.
  - rewrite (profit_points_nonpositive _ E). exists 0%float.
    split; [reflexivity|]. split; [exact I | reflexivity].
Qed.

Lemma add_to_half q h :
  nn (Prim2SF q) -> is_finite h = true ->
  nonnan (Prim2SF (q + h)) /\ rankF h <= rankF (q + h) /\
  (Prim2SF q = S754_zero false -> rankF (q + h) = rankF h).
Proof.
  intros Nq Fh. apply is_finite_spec in Fh.
  destruct (add_mono 0 q h h) as (N0 & N1 & Hle).
  - unfold nonnan. change (Prim2SF 0) with (S754_zero false). discriminate.
  - apply nn_nonnan. exact Nq.
  - exact Fh.
  - exact Fh.
  - change (rankF 0) with 0. apply nn_rank; [apply Prim2SF_valid | exact Nq].
  - lia.
  - assert (R0 : forall z, Prim2SF z = S754_zero false -> rankF (z + h) = rankF h).
    { intros z Ez. unfold rankF. rewrite add_spec.
      destruct (SFadd_finite_rank (Prim2SF z) (Prim2SF h)) as (_ & R);
        try apply Prim2SF_valid; try assumption; [rewrite Ez; exact I|].
      rewrite R, Ez. cbn [rank]. rewrite Z.add_0_l.
      apply sRND_rank; [apply Prim2SF_valid | exact Fh]. }
    rewrite (R0 0%float eq_refl) in Hle. auto.
Qed.

(** ** Exact books on integer decisions *)

Lemma holds_finite f z :
  nonnan (Prim2SF f) -> rankF f = z * 2 ^ 1074 -> - 2 ^ 53 < z < 2 ^ 53 ->
  holds (PyFloat f) z.
Proof.
  intros N R Hz. split; [exact Hz|]. split; [|exact R].
  pose proof (int_rank_bound' z ltac:(lia)) as Hb.
  apply rank_lt_INF; [apply Prim2SF_valid | exact N | |]; fold (rankF f); lia.
Qed.

Lemma holds_to_float x z :
  holds x z ->
  exists f, to_float x = Ok f /\ finite_or_zero (Prim2SF f) /\ rankF f = z * 2 ^ 1074.
Proof.
  intros [Hz H]. destruct x as [a|f]; cbn [to_float].
  - subst a. destruct (of_Z_spec z ltac:(lia)) as (f & E & Ff & R & _).
    exists f. split; [exact E|]. split; [exact Ff|].
    rewrite R. apply sRND_exact_int. exact Hz.
  - exists f. destruct H. auto.
Qed.

Lemma holds_prank x z : holds x z -> exact x /\ prank x = z * 2 ^ 1074.
Proof.
  intros [Hz H]. destruct x as [a|f]; cbn [exact prank].
  - subst a. split; [exact Hz | reflexivity].
  - destruct H as [F R]. split; [apply fz_nonnan; exact F | exact R].
Qed.

Lemma holds_py_eq x z : holds x z -> py_eq x (PyInt z) = true.
Proof.
  intros [Hz H]. destruct x as [a|f]; cbn [py_eq].
  - apply Z.eqb_eq. exact H.
  - destruct H as [Ff R].
    rewrite (Zcompare_SF_rank z _ (Prim2SF_valid f) (fz_nonnan _ Ff))
      by (apply int_rank_bound'; lia).
    fold (rankF f). rewrite R, Z.compare_refl. reflexivity.
Qed.

Lemma holds_of_py_eq f z :
  py_eq (PyFloat f) (PyInt z) = true -> - 2 ^ 53 < z < 2 ^ 53 -> holds (PyFloat f) z.
Proof.
  cbn [py_eq]. intros H Hz.
  assert (N : nonnan (Prim2SF f)).
  { intros E. rewrite E in H. discriminate. }
  rewrite (Zcompare_SF_rank z _ (Prim2SF_valid f) N) in H
    by (apply int_rank_bound'; lia).
  apply holds_finite; [exact N | | exact Hz].
  fold (rankF f) in H.
  destruct (Z.compare_spec (z * 2 ^ 1074) (rankF f)); try discriminate. lia.
Qed.

Lemma py_arith_floats opZ opF x y fx fy :
  to_float x = Ok fx -> to_float y = Ok fy ->
  match x, y with PyInt _, PyInt _ => False | _, _ => True end ->
  py_arith opZ opF x y = Ok (PyFloat (opF fx fy)).
Proof.
  intros Ex Ey H. unfold py_arith.
  destruct x, y; try contradiction; cbn [to_float] in *;
    rewrite ?Ex, ?Ey; cbn [bind]; rewrite ?Ex, ?Ey; cbn [bind];
    repeat match goal with E : Ok _ = Ok _ |- _ => injection E as <- end;
    reflexivity.
Qed.

Lemma add_holds x y a b :
  holds x a -> holds y b -> - 2 ^ 53 < a + b < 2 ^ 53 ->
  exists r, py_add x y = Ok r /\ holds r (a + b).
Proof.
  intros Hx Hy Hab.
  destruct (holds_to_float _ _ Hx) as (fx & Ex & Fx & Rx).
  destruct (holds_to_float _ _ Hy) as (fy & Ey & Fy & Ry).
  assert (Hf : holds (PyFloat (fx + fy)) (a + b)).
  { destruct (SFadd_finite_rank _ _ (Prim2SF_valid fx) (Prim2SF_valid fy) Fx Fy)
      as (N & R).
    rewrite <- add_spec in N, R. fold (rankF fx) (rankF fy) in R.
    apply holds_finite; [exact N | | exact Hab]. unfold rankF at 1.
    rewrite R, Rx, Ry, <- Z.mul_add_distr_r, <- K_split.
    apply sRND_exact_int. exact Hab. }
  destruct x as [xa|xf], y as [yb|yf].
  - destruct Hx as [_ ->], Hy as [_ ->]. eexists. split; [reflexivity|].
    split; [exact Hab | reflexivity].
  - eexists. split; [apply (py_arith_floats _ _ _ _ fx fy Ex Ey I) | exact Hf].
  - eexists. split; [apply (py_arith_floats _ _ _ _ fx fy Ex Ey I) | exact Hf].
  - eexists. split; [apply (py_arith_floats _ _ _ _ fx fy Ex Ey I) | exact Hf].
Qed.

Lemma sub_holds x y a b :
  holds x a -> holds y b -> - 2 ^ 53 < a - b < 2 ^ 53 ->
  exists r, py_sub x y = Ok r /\ holds r (a - b).
Proof.
  intros Hx Hy Hab.
  destruct (holds_to_float _ _ Hx) as (fx & Ex & Fx & Rx).
  destruct (holds_to_float _ _ Hy) as (fy & Ey & Fy & Ry).
  assert (Hf : holds (PyFloat (fx - fy)) (a - b)).
  { destruct (SFsub_finite_rank _ _ (Prim2SF_valid fx) (Prim2SF_valid fy) Fx Fy)
      as (N & R).
    rewrite <- sub_spec in N, R. fold (rankF fx) (rankF fy) in R.
    apply holds_finite; [exact N | | exact Hab]. unfold rankF at 1.
    rewrite R, Rx, Ry, <- Z.mul_sub_distr_r, <- K_split.
    apply sRND_exact_int. exact Hab. }
  destruct x as [xa|xf], y as [yb|yf].
  - destruct Hx as [_ ->], Hy as [_ ->]. eexists. split; [reflexivity|].
    split; [exact Hab | reflexivity].
  - eexists. split; [apply (py_arith_floats _ _ _ _ fx fy Ex Ey I) | exact Hf].
  - eexists. split; [apply (py_arith_floats _ _ _ _ fx fy Ex Ey I) | exact Hf].
  - eexists. split; [apply (py_arith_floats _ _ _ _ fx fy Ex Ey I) | exact Hf].
Qed.

Lemma neg_holds x z : holds x z -> holds (py_neg x) (- z).
Proof.
  intros [Hz H]. split; [lia|]. destruct x as [a|f]; cbn [py_neg].
  - lia.
  - destruct H as [Ff R]. unfold rankF in *. rewrite opp_spec.
    destruct (Prim2SF f) as [s|s| |s m e]; try contradiction; cbn [SFopp].
    + split; [exact I|]. cbn [rank] in *. lia.
    + split; [exact I|]. cbn [rank] in *. destruct s; cbn [negb cond_Zopp] in *; lia.
Qed.

Lemma staff_cost_holds s ns k :
  In s (map snd STAFFING) -> holds (PyFloat ns) k -> 0 <= k <= 200 ->
  exists sc, py_mul (PyFloat ns) (PyInt (CostPer s)) = Ok (PyFloat sc) /\
    holds (PyFloat sc) (k * CostPer s).
Proof.
  intros Is [_ [Fn Rn]] Hk.
  assert (Nn : nn (Prim2SF ns)).
  { apply rank_nonneg_nn; [apply Prim2SF_valid | apply fz_nonnan; exact Fn|].
    fold (rankF ns). rewrite Rn. assert (0 < 2 ^ 1074) by (apply pow2_pos; lia). nia. }
  assert (Hc : exists c m e, F64.of_Z (CostPer s) = Ok c /\
                 Prim2SF c = S754_finite false m e /\
                 rankF c = CostPer s * 2 ^ 1074 /\ 0 < CostPer s <= 300).
  { cbn [map snd STAFFING In] in Is.
    destruct Is as [<-|[<-|[<-|[]]]]; cbn [CostPer];
      do 3 eexists; (split; [vm_compute; reflexivity|]);
      (split; [vm_compute; reflexivity|]);
      (split; [vm_compute; reflexivity | lia]). }
  destruct Hc as (c & m & e & Ec & Sc & Rc & Hcp).
  unfold py_mul, py_arith. cbn [to_float bind]. rewrite Ec. cbn [bind].
  eexists. split; [reflexivity|].
  rewrite (mul_comm_float ns c).
  destruct (mul_pos_rank c m e ns Sc Nn Fn) as (Np & Rp).
  apply holds_finite; [apply nn_nonnan; exact Np | | nia].
  rewrite Rp, Rc, Rn.
  replace (CostPer s * 2 ^ 1074 * (k * 2 ^ 1074)) with (k * CostPer s * 2 ^ K)
    by (rewrite (K_split (k * CostPer s)); ring).
  apply RND_exact_int. nia.
Qed.

Lemma books_hold inputs p m l :
  valid_decision inputs = true ->
  in_Price inputs = PyInt p -> in_Marketing inputs = PyInt m -> p < 2 ^ 40 ->
  simulate inputs = Ok l ->
  let a := attendance l in
  let k := (a * Ratio (staff l) + 99) / 100 in
  let cost := Fixed_Cost (venue l) + m + a * Cost (cat l) + k * CostPer (staff l) in
  (0 <= a <= 5000 /\ 0 <= p < 2 ^ 40 /\ 0 <= m < 2 ^ 50 /\
   0 <= Fixed_Cost (venue l) <= 40000 /\ 0 <= Cost (cat l) <= 60 /\
   0 <= k * CostPer (staff l) <= 60000) /\
  revenue l = PyInt (a * p) /\
  venue_cost l = PyInt (Fixed_Cost (venue l)) /\
  marketing_cost l = PyInt m /\
  catering_cost l = PyInt (a * Cost (cat l)) /\
  holds (staff_cost l) (k * CostPer (staff l)) /\
  holds (total_cost l) cost /\
  holds (profit l) (a * p - cost).
Proof.
  intros V Hp Hm Hp40 El.
  destruct (run_ok inputs V)
    as (l' & o & El' & _ & _ & Iv & Ic & Is & _ & _ & Ha & _).
  rewrite El in El'. injection El' as <-.
  pose proof (simulate_inv inputs l El) as St. unfold steps in St.
  destruct St as (_ & _ & _ & _ & Epr & Emk & _ & _ & _ & Erev & Evc & Emc & Ecc
                  & Ens & Esc & (c1 & c2 & E1 & E2 & E3) & Epf & _).
  cbv zeta.
  unfold valid_decision in V. rewrite !andb_true_iff in V. destruct V as [[_ Vp] Vm].
  rewrite Hp in Vp. rewrite Hm in Vm.
  apply valid_number_small in Vp, Vm.
  destruct (venue_facts _ Iv) as (Hcap & _ & Hfix & _).
  destruct (catering_facts _ Ic) as (Hcost & _).
  destruct (staffing_facts _ Is) as (Hratio & Hper).
  set (a := attendance l) in *. set (k := (a * Ratio (staff l) + 99) / 100).
  assert (Hk : 0 <= k <= 200).
  { subst k. split; [apply Z.div_pos; nia|].
    assert ((a * Ratio (staff l) + 99) / 100 < 201); [|lia].
    apply Z.div_lt_upper_bound; [lia|]. destruct Hratio as [->|[->| ->]]; lia. }
  split; [repeat split; try lia; nia|].
  rewrite Epr, Hp in Erev. injection Erev as Erev.
  injection Ecc as Ecc.
  rewrite Emc, Emk, Hm in *. rewrite Evc in *.
  injection E1 as E1. rewrite <- E1, <- Ecc in E2. injection E2 as E2.
  destruct (num_staff_ok a (Ratio (staff l)) ltac:(lia) ltac:(lia)) as (ns & Ens').
  destruct (num_staff_exact a (Ratio (staff l)) ltac:(lia) (staff_ratio_in _ Is))
    as (ns' & Ens'' & Hns).
  rewrite Ens' in Ens''. injection Ens'' as <-.
  rewrite Ens' in Ens. injection Ens as Ens.
  pose proof (holds_of_py_eq ns k Hns ltac:(lia)) as Hh.
  destruct (staff_cost_holds _ ns k Is Hh Hk) as (sc & Esc' & Hsc).
  rewrite <- Ens, Esc' in Esc. injection Esc as Esc.
  assert (H53 : 2 ^ 53 = 9007199254740992) by reflexivity.
  assert (H50 : 2 ^ 50 = 1125899906842624) by reflexivity.
  assert (H40 : 2 ^ 40 = 1099511627776) by reflexivity.
  assert (Hc2 : holds c2 (Fixed_Cost (venue l) + m + a * Cost (cat l))).
  { rewrite <- E2. split; [nia | reflexivity]. }
  destruct (add_holds c2 (PyFloat sc) _ _ Hc2 Hsc ltac:(nia)) as (tot & Et & Ht).
  rewrite <- Esc, Et in E3. injection E3 as E3.
  assert (Hrev : holds (PyInt (a * p)) (a * p)) by (split; [nia | reflexivity]).
  destruct (sub_holds _ tot _ _ Hrev Ht ltac:(nia)) as (pr & Epr' & Hpr).
  rewrite <- Erev, <- E3, Epr' in Epf. injection Epf as Epf.
  rewrite <- Erev, <- Ecc, <- Esc, <- E3, <- Epf.
  repeat (split; [reflexivity || assumption|]). assumption.
Qed.

(** ** The sidebar and the dashboard *)

Lemma selectbox_resolves {A} (table : list (string * A)) choice :
  selectbox_returns (keys table) choice = true -> resolves table choice = true.
Proof.
  unfold selectbox_returns, resolves, keys.
  induction table as [|[k v] rest IH]; cbn [map fst existsb getitem]; [discriminate|].
  rewrite (String.eqb_sym choice k). destruct (String.eqb k choice); [reflexivity|].
  exact IH.
Qed.

Lemma sidebar_valid inputs :
  sidebar_inputs inputs = true ->
  valid_decision inputs = true /\
  exists p m, in_Price inputs = PyInt p /\ in_Marketing inputs = PyInt m /\
    50 <= p <= 500 /\ 0 <= m <= 100000.
Proof.
  unfold sidebar_inputs. rewrite !andb_true_iff.
  intros [[[[[Hv Hc] Hs] Hp] Hm] Hr].
  apply selectbox_resolves in Hv, Hc, Hs, Hr.
  destruct (in_Price inputs) as [p|] eqn:Ep; [|discriminate].
  destruct (in_Marketing inputs) as [m|] eqn:Em; [|discriminate].
  cbv beta iota delta [slider_returns number_input_returns] in Hp, Hm.
  apply andb_prop in Hp. destruct Hp as [Hp _].
  apply andb_prop in Hp. destruct Hp as [Hp1 Hp2].
  apply andb_prop in Hm. destruct Hm as [Hm1 Hm2].
  apply Z.leb_le in Hp1, Hp2, Hm1, Hm2.
  split.
  - unfold valid_decision, labels_resolve. rewrite Hv, Hc, Hs, Hr, Ep, Em.
    cbn [andb valid_number]. rewrite !andb_true_iff, !Z.leb_le, !Z.ltb_lt.
    assert (2 ^ 50 = 1125899906842624) by reflexivity. lia.
  - exists p, m. repeat split; try reflexivity; lia.
Qed.

(** ** Truncation, the satisfaction formula, and the columns of the workbook *)

Lemma py_lt_float_int rd z :
  nn (Prim2SF rd) -> 0 <= z <= 5001 ->
  py_lt (PyFloat rd) (PyInt z) = (rankF rd <? z * 2 ^ 1074).
Proof.
  intros N Hz. cbn [py_lt].
  rewrite (Zcompare_SF_rank z _ (Prim2SF_valid rd) (nn_nonnan _ N))
    by (apply int_rank_bound; lia).
  fold (rankF rd).
  destruct (Z.compare_spec (z * 2 ^ 1074) (rankF rd)); symmetry;
    [apply Z.ltb_ge | apply Z.ltb_ge | apply Z.ltb_lt]; lia.
Qed.

Lemma attendance_floor rd cap a :
  nn (Prim2SF rd) -> 0 <= cap <= 5000 ->
  attendance_expr (PyFloat rd) cap = Ok a ->
  0 <= a <= cap /\
  (py_le (PyInt cap) (PyFloat rd) = true -> a = cap) /\
  (py_lt (PyFloat rd) (PyInt cap) = true ->
   py_le (PyInt a) (PyFloat rd) = true /\ py_lt (PyFloat rd) (PyInt (a + 1)) = true).
Proof.
  intros N Hc E. rewrite (attendance_rank rd cap N Hc) in E. injection E as E.
  assert (HP : 0 < 2 ^ 1074) by (apply pow2_pos; lia).
  assert (Hr : 0 <= rankF rd) by (apply nn_rank; [apply Prim2SF_valid | exact N]).
  assert (Hq : 0 <= rankF rd / 2 ^ 1074) by (apply Z.div_pos; lia).
  pose proof (Z.mul_div_le (rankF rd) (2 ^ 1074) HP) as Hlo.
  pose proof (Z.mul_succ_div_gt (rankF rd) (2 ^ 1074) HP) as Hhi.
  split; [lia|]. split.
  - rewrite (py_le_int_float _ _ N Hc), Z.leb_le. intros H.
    assert (cap <= rankF rd / 2 ^ 1074); [|lia].
    apply Z.div_le_lower_bound; lia.
  - rewrite (py_lt_float_int _ _ N) by lia. rewrite Z.ltb_lt. intros H.
    assert (Hlt : rankF rd / 2 ^ 1074 < cap) by (apply Z.div_lt_upper_bound; lia).
    assert (Ea : a = rankF rd / 2 ^ 1074) by lia.
    rewrite (py_le_int_float _ _ N) by lia.
    rewrite (py_lt_float_int _ _ N) by lia.
    rewrite Z.leb_le, Z.ltb_lt. subst a. lia.
Qed.

Lemma of_Z_exact z :
  - 2 ^ 53 < z < 2 ^ 53 ->
  exists f, F64.of_Z z = Ok f /\ py_eq (PyFloat f) (PyInt z) = true.
Proof.
  intros Hz.
  destruct (holds_to_float (PyInt z) z) as (f & E & Ff & R); [split; [exact Hz | reflexivity]|].
  exists f. split; [exact E|].
  apply holds_py_eq. split; [exact Hz|]. split; assumption.
Qed.

Lemma sat_formula vibe quality ratio pen sp :
  0 <= vibe <= 10 -> 0 <= quality <= 10 -> 0 <= ratio <= 4 ->
  0 <= pen <= 15 -> -10 <= sp <= 5 ->
  exists fv fq fr fp fd,
    py_eq (PyFloat fv) (PyInt vibe) = true /\
    py_eq (PyFloat fq) (PyInt quality) = true /\
    py_eq (PyFloat fr) (PyInt (ratio * 8)) = true /\
    py_eq (PyFloat fp) (PyInt pen) = true /\
    py_eq (PyFloat fd) (PyInt sp) = true /\
    sat_base_expr vibe quality ratio = Ok (PyFloat (fv * 3.3 + fq * 3.3 + fr)) /\
    sat_adjust_expr (PyFloat (fv * 3.3 + fq * 3.3 + fr)) pen sp
      = Ok (PyFloat (fv * 3.3 + fq * 3.3 + fr - fp + fd)).
Proof.
  intros Hv Hq Hr Hp Hs.
  assert (H53 : 2 ^ 53 = 9007199254740992) by reflexivity.
  destruct (of_Z_exact vibe ltac:(lia)) as (fv & Ev & Pv).
  destruct (of_Z_exact quality ltac:(lia)) as (fq & Eq & Pq).
  destruct (of_Z_exact (ratio * 8) ltac:(lia)) as (fr & Er & Pr).
  destruct (of_Z_exact pen ltac:(lia)) as (fp & Ep & Pp).
  destruct (of_Z_exact sp ltac:(lia)) as (fd & Ed & Pd).
  exists fv, fq, fr, fp, fd.
  do 5 (split; [assumption|]).
  unfold sat_base_expr, sat_adjust_expr, py_mul, py_add, py_sub, py_arith.
  cbn [to_float bind]. rewrite Ev. cbn [bind]. rewrite Eq. cbn [bind].
  rewrite Er. cbn [bind]. rewrite Ep. cbn [bind]. rewrite Ed. cbn [bind].
  split; reflexivity.
Qed.

Lemma fall_check_all :
  forallb (fun v => forallb (fun c => forallb (fun s => forallb (fun r =>
     fall_check v c s r 0 && fall_check v c s r 15)
     (map snd RISKS)) (map snd STAFFING)) (map snd CATERING)) (map snd VENUES) = true.
Proof. vm_compute. reflexivity. Qed.

Lemma fall_exact v c s r pen base u :
  In v (map snd VENUES) -> In c (map snd CATERING) -> In s (map snd STAFFING) ->
  In r (map snd RISKS) -> pen = 0 \/ pen = 15 ->
  sat_base_expr (Vibe v) (Quality c) (Ratio s) = Ok base ->
  sat_adjust_expr base pen (SatPenalty r) = Ok u ->
  exists free fall,
    sat_adjust_expr base 0 (SatPenalty r) = Ok free /\
    py_sub free u = Ok fall /\
    (py_eq fall (PyInt pen) = true \/
     (pen = 15 /\ py_eq fall (PyFloat 14.999999999999993) = true)).
Proof.
  intros Iv Ic Is Ir Hpen Eb Eu. pose proof fall_check_all as H.
  rewrite forallb_forall in H. specialize (H v Iv).
  rewrite forallb_forall in H. specialize (H c Ic).
  rewrite forallb_forall in H. specialize (H s Is).
  rewrite forallb_forall in H. specialize (H r Ir).
  apply andb_true_iff in H. destruct H as [H0 H15].
  assert (Hc : fall_check v c s r pen = true) by (destruct Hpen; subst pen; assumption).
  unfold fall_check in Hc. rewrite Eb, Eu in Hc.
  destruct (sat_adjust_expr base 0 (SatPenalty r)) as [free|] eqn:Ef; [|discriminate].
  destruct (py_sub free u) as [fall|] eqn:Es; [|discriminate].
  exists free, fall. split; [reflexivity|]. split; [exact Es|].
  apply orb_true_iff in Hc. destruct Hc as [Hc|Hc]; [left; exact Hc|].
  apply andb_true_iff in Hc. destruct Hc as [Hp Hf]. apply Z.eqb_eq in Hp. auto.
Qed.

Lemma as_column_text s rest : as_column (CStr s :: rest) = CStr s :: rest.
Proof. reflexivity. Qed.

Lemma amount_column fixed mk cc sc fv fm fc :
  F64.of_Z fixed = Ok fv -> to_float mk = Ok fm -> F64.of_Z cc = Ok fc ->
  as_column [CNum (PyInt fixed); CNum mk; CNum (PyInt cc); CNum (PyFloat sc)] =
    [CNum (PyFloat fv); CNum (PyFloat fm); CNum (PyFloat fc); CNum (PyFloat sc)].
Proof.
  intros Ev Em Ec. unfold as_column.
  destruct mk as [m|g]; cbn [to_float] in Em;
    cbn [forallb is_number andb existsb is_float_cell orb map_result float_cell
         to_float bind];
    rewrite Ev; cbn [bind]; rewrite ?Em; cbn [bind]; rewrite Ec; cbn [bind];
    [reflexivity | injection Em as <-; reflexivity].
Qed.

Lemma zero_plus_fixed v fv :
  In v (map snd VENUES) -> F64.of_Z (Fixed_Cost v) = Ok fv -> (0 + fv)%float = fv.
Proof.
  cbn [map snd VENUES In].
  intros [<-|[<-|[<-|[<-|[]]]]] E; vm_compute in E; injection E as <-;
    vm_compute; reflexivity.
Qed.

Lemma py_eq_refl_float f : nonnan (Prim2SF f) -> py_eq (PyFloat f) (PyFloat f) = true.
Proof. intros N. cbn [py_eq]. rewrite (eqb_rank _ _ N N). apply Z.eqb_refl. Qed.

Lemma costs_hold inputs l :
  valid_decision inputs = true -> simulate inputs = Ok l ->
  let a := attendance l in
  let k := (a * Ratio (staff l) + 99) / 100 in
  exists sc,
    (0 <= a <= 5000 /\ 0 <= Fixed_Cost (venue l) <= 40000 /\
     0 <= Cost (cat l) <= 60 /\ 0 <= k * CostPer (staff l) <= 60000) /\
    In (venue l) (map snd VENUES) /\
    venue_cost l = PyInt (Fixed_Cost (venue l)) /\
    marketing_cost l = in_Marketing inputs /\
    catering_cost l = PyInt (a * Cost (cat l)) /\
    staff_cost l = PyFloat sc /\
    holds (PyFloat sc) (k * CostPer (staff l)) /\
    (exists c1 c2,
       py_add (venue_cost l) (marketing_cost l) = Ok c1 /\
       py_add c1 (catering_cost l) = Ok c2 /\
       py_add c2 (staff_cost l) = Ok (total_cost l)) /\
    py_sub (revenue l) (total_cost l) = Ok (profit l).
Proof.
  intros V El.
  destruct (run_ok inputs V)
    as (l' & o & El' & _ & _ & Iv & Ic & Is & _ & _ & Ha & _).
  rewrite El in El'. injection El' as <-.
  pose proof (simulate_inv inputs l El) as St. unfold steps in St.
  destruct St as (_ & _ & _ & _ & _ & Emk & _ & _ & _ & _ & Evc & Emc & Ecc
                  & Ens & Esc & Hsum & Epf & _).
  cbv zeta.
  destruct (venue_facts _ Iv) as (Hcap & _ & Hfix & _).
  destruct (catering_facts _ Ic) as (Hcost & _).
  destruct (staffing_facts _ Is) as (Hratio & Hper).
  set (a := attendance l) in *. set (k := (a * Ratio (staff l) + 99) / 100).
  assert (Hk : 0 <= k <= 200).
  { subst k. split; [apply Z.div_pos; nia|].
    assert ((a * Ratio (staff l) + 99) / 100 < 201); [|lia].
    apply Z.div_lt_upper_bound; [lia|]. destruct Hratio as [->|[->| ->]]; lia. }
  destruct (num_staff_ok a (Ratio (staff l)) ltac:(lia) ltac:(lia)) as (ns & Ens').
  destruct (num_staff_exact a (Ratio (staff l)) ltac:(lia) (staff_ratio_in _ Is))
    as (ns' & Ens'' & Hns).
  rewrite Ens' in Ens''. injection Ens'' as <-.
  rewrite Ens' in Ens. injection Ens as Ens.
  assert (H53 : 2 ^ 53 = 9007199254740992) by reflexivity.
  pose proof (holds_of_py_eq ns k Hns ltac:(lia)) as Hh.
  destruct (staff_cost_holds _ ns k Is Hh Hk) as (sc & Esc' & Hsc).
  rewrite <- Ens, Esc' in Esc. injection Esc as Esc.
  injection Ecc as Ecc.
  exists sc. split; [repeat split; try lia; nia|].
  split; [exact Iv|]. split; [exact Evc|]. split; [rewrite Emc; exact Emk|].
  split; [symmetry; exact Ecc|]. split; [symmetry; exact Esc|].
  split; [exact Hsc|]. split; [exact Hsum | exact Epf].
Qed.

Lemma amounts_total inputs l sc fv fm fc :
  valid_decision inputs = true ->
  In (venue l) (map snd VENUES) ->
  0 <= Fixed_Cost (venue l) <= 40000 -> 0 <= attendance l * Cost (cat l) <= 300000 ->
  F64.of_Z (Fixed_Cost (venue l)) = Ok fv ->
  to_float (in_Marketing inputs) = Ok fm ->
  F64.of_Z (attendance l * Cost (cat l)) = Ok fc ->
  holds (PyFloat sc)
    ((attendance l * Ratio (staff l) + 99) / 100 * CostPer (staff l)) ->
  0 <= (attendance l * Ratio (staff l) + 99) / 100 * CostPer (staff l) <= 60000 ->
  (exists c1 c2,
     py_add (PyInt (Fixed_Cost (venue l))) (in_Marketing inputs) = Ok c1 /\
     py_add c1 (PyInt (attendance l * Cost (cat l))) = Ok c2 /\
     py_add c2 (PyFloat sc) = Ok (total_cost l)) ->
  py_eq (PyFloat fm) (in_Marketing inputs) = true /\
  exists total,
    sum_cells (PyInt 0)
      [CNum (PyFloat fv); CNum (PyFloat fm); CNum (PyFloat fc); CNum (PyFloat sc)]
      = Ok total /\
    py_eq total (total_cost l) = true.
Proof.
  intros V Iv Hfix Hcc Ev Em Ec Hsc Hkc (c1 & c2 & E1 & E2 & E3).
  unfold valid_decision in V. rewrite !andb_true_iff in V. destruct V as [_ Vm].
  assert (H53 : 2 ^ 53 = 9007199254740992) by reflexivity.
  assert (H50 : 2 ^ 50 = 1125899906842624) by reflexivity.
  assert (Hv : holds (PyFloat fv) (Fixed_Cost (venue l))).
  { destruct (holds_to_float (PyInt (Fixed_Cost (venue l))) (Fixed_Cost (venue l)))
      as (f & E & Ff & R); [split; [lia | reflexivity]|].
    cbn [to_float] in E. rewrite Ev in E. injection E as <-.
    split; [lia|]. split; assumption. }
  assert (Hc : holds (PyFloat fc) (attendance l * Cost (cat l))).
  { destruct (holds_to_float (PyInt (attendance l * Cost (cat l)))
                (attendance l * Cost (cat l)))
      as (f & E & Ff & R); [split; [lia | reflexivity]|].
    cbn [to_float] in E. rewrite Ec in E. injection E as <-.
    split; [lia|]. split; assumption. }
  cbn [sum_cells].
  destruct (in_Marketing inputs) as [m|g] eqn:Emk.
  - (* an integer budget: every amount is an integer below 2^53 *)
    apply valid_number_small in Vm.
    assert (Hm : holds (PyFloat fm) m).
    { destruct (holds_to_float (PyInt m) m) as (f & E & Ff & R);
        [split; [lia | reflexivity]|].
      rewrite Em in E. injection E as <-. split; [lia|]. split; assumption. }
    split; [apply holds_py_eq; exact Hm|].
    assert (H0 : holds (PyInt 0) 0) by (split; [lia | reflexivity]).
    destruct (add_holds _ _ _ _ H0 Hv ltac:(lia)) as (r1 & R1 & K1).
    destruct (add_holds _ _ _ _ K1 Hm ltac:(lia)) as (r2 & R2 & K2).
    destruct (add_holds _ _ _ _ K2 Hc ltac:(lia)) as (r3 & R3 & K3).
    destruct (add_holds _ _ _ _ K3 Hsc ltac:(lia)) as (r4 & R4 & K4).
    rewrite R1. cbn [bind]. rewrite R2. cbn [bind]. rewrite R3. cbn [bind].
    rewrite R4. cbn [bind]. exists r4. split; [reflexivity|].
    injection E1 as E1. rewrite <- E1 in E2. injection E2 as E2.
    assert (Hc2 : holds c2 (Fixed_Cost (venue l) + m + attendance l * Cost (cat l))).
    { rewrite <- E2. split; [lia | reflexivity]. }
    destruct (add_holds _ _ _ _ Hc2 Hsc ltac:(lia)) as (tot & Et & Ht).
    rewrite Et in E3. injection E3 as E3. rewrite <- E3.
    destruct (holds_prank _ _ K4) as [X1 P1].
    destruct (holds_prank _ _ Ht) as [X2 P2].
    apply py_eq_prank; [exact X1 | exact X2 |].
    rewrite P1, P2. f_equal; ring.
  - (* a float budget: the column is summed as the engine sums the costs *)
    cbn [to_float] in Em. injection Em as <-.
    destruct (valid_number_float _ Vm) as (g' & Eg & Ng & Fg).
    cbn [to_float] in Eg. injection Eg as <-.
    split; [apply py_eq_refl_float; apply fz_nonnan; exact Fg|].
    unfold py_add, py_arith in E1, E2, E3 |- *. cbn [to_float bind] in E1, E2, E3 |- *.
    rewrite Ev in E1. cbn [bind] in E1. injection E1 as E1.
    rewrite <- E1 in E2. cbn [to_float bind] in E2. rewrite Ec in E2. cbn [bind] in E2.
    injection E2 as E2. rewrite <- E2 in E3. cbn [to_float bind] in E3.
    injection E3 as E3.
    change (F64.of_Z 0) with (Ok (A:=float) 0%float). cbn [bind].
    rewrite (zero_plus_fixed _ _ Iv Ev).
    eexists. split; [reflexivity|]. rewrite <- E3.
    apply py_eq_refl_float.
    destruct Hv as [_ [Fv _]]. destruct Hc as [_ [Fc _]]. destruct Hsc as [_ [Fs _]].
    destruct (SFadd_finite_rank _ _ (Prim2SF_valid fv) (Prim2SF_valid g) Fv Fg) as (N1 & _).
    rewrite <- add_spec in N1.
    destruct (add_mono (fv + g) (fv + g) fc fc N1 N1 Fc Fc (Z.le_refl _) (Z.le_refl _))
      as (N2 & _).
    destruct (add_mono (fv + g + fc) (fv + g + fc) sc sc N2 N2 Fs Fs
                (Z.le_refl _) (Z.le_refl _)) as (N3 & _).
    exact N3.
Qed.

(** * The properties of the specification *)

(** C1, with the score corrected. For the decision City Center, Standard
    Buffet, Standard staffing, no risk, price 250 and marketing 20000,
    [run_simulation] returns attendance 2000, revenue 500000, venue cost
    25000, marketing cost 20000, catering cost 70000, staff cost 10000 (for
    40 staff), total cost 125000, profit 375000, crowding 100 percent (ratio
    1.0, hence penalty 15), satisfaction 50.5, and score 119.0: the profit
    part of the score is 375000 / 200000 * 50 = 93.75 and is not capped at
    50, so the score is 93.75 + 25.25 and not 75.25. *)
Theorem scenario_outcome :
  exists l,
    simulate scenario = Ok l /\
    run_simulation scenario =
      Ok {| Attendance := 2000;
            Revenue := PyInt 500000;
            Total_Cost := PyFloat 125000;
            Profit := PyFloat 375000;
            Satisfaction := PyFloat 50.5;
            Score := PyFloat 119;
            Crowding := PyFloat 100;
            Details := {| Venue_Cost := PyInt 25000;
                          Marketing_Cost := PyInt 20000;
                          Catering_Cost := PyInt 70000;
                          Staff_Cost := PyFloat 10000 |} |} /\
    num_staff l = PyFloat 40 /\ crowding l = PyFloat 1 /\
    crowding_penalty l = 15.
Proof.
  eexists. split; [vm_compute; reflexivity|].
  split; [vm_compute; reflexivity|].
  cbn [num_staff crowding crowding_penalty]. auto.
Qed.

(** C1 as stated fails on its last figure: the score returned for the
    scenario is 119.0, and Python's [==] tells it apart from 75.25. *)
Lemma scenario_score_is_not_75_25 :
  exists o, run_simulation scenario = Ok o /\
    Score o = PyFloat 119 /\ py_eq (Score o) (PyFloat 75.25) = false.
Proof.
  eexists. split; [vm_compute; reflexivity|].
  split; vm_compute; reflexivity.
Qed.

(** C2. For every valid decision the run succeeds, the returned profit and
    satisfaction are floats, and the returned score is the double
    [q + satisfaction * 0.5], where [q] is [profit / 200000 * 50] when the
    profit is positive and [0.0] otherwise; nothing clamps it afterwards.
    The profit part is 0.0 for every profit that is not positive, exactly
    50.0 for a profit equal to 200000, and for every positive profit [p] it
    is the double [p / 200000 * 50], whatever the size of [p]: it is 100.0
    at 400000, and the scenario of the specification, with profit 375000,
    gets a score above 100. *)
Theorem score_formula (inputs : inputs_t) :
  valid_decision inputs = true ->
  (exists o profit sat,
     run_simulation inputs = Ok o /\
     Profit o = PyFloat profit /\ Satisfaction o = PyFloat sat /\
     Score o =
       PyFloat ((if py_gt (PyFloat profit) (PyInt 0)
                 then profit / 200000 * 50 else 0) + sat * 0.5) /\
     score_expr (Profit o) (Satisfaction o) = Ok (Score o)) /\
  (forall profit, py_gt profit (PyInt 0) = false ->
     profit_points_expr profit = Ok (PyFloat 0)) /\
  (forall profit, py_eq profit (PyInt 200000) = true ->
     profit_points_expr profit = Ok (PyFloat 50)) /\
  (forall p, py_gt (PyFloat p) (PyInt 0) = true ->
     profit_points_expr (PyFloat p) = Ok (PyFloat (p / 200000 * 50))) /\
  profit_points_expr (PyInt 400000) = Ok (PyFloat 100) /\
  (exists o, run_simulation scenario = Ok o /\
     py_eq (Profit o) (PyInt 375000) = true /\
     py_gt (Score o) (PyInt 100) = true).
Proof.
  intros V. split; [|split; [|split; [|split; [|split]]]].
  - destruct (run_ok inputs V)
      as (l & o & El & Eo & Er & Iv & Ic & Is & Ir & _ & _ & _ & Fp).
    destruct (returned_inv l o Eo) as (_ & _ & _ & Hprofit & Hsat & Hscore & _).
    pose proof (simulate_inv inputs l El) as St. unfold steps in St.
    destruct St as (_ & _ & _ & _ & _ & _ & _ & _ & _ & _ & _ & _ & _ & _ & _ & _ & _
                    & _ & Epen & Eb & Ea & Esc & Escore).
    assert (Hpen : crowding_penalty l = 0 \/ crowding_penalty l = 15).
    { rewrite Epen. unfold crowding_penalty_expr. destruct (py_gt _ _); auto. }
    destruct (sat_range _ _ _ _ _ _ _ Iv Ic Is Ir Hpen Eb Ea) as (u & Eu & Hcl & _).
    destruct (is_float_ex _ Fp) as (pf & Epf).
    exists o, pf, u. rewrite Hprofit, Hsat, Hscore, Esc, Hcl.
    split; [exact Er|]. split; [exact Epf|]. split; [exact Eu|].
    split; [|rewrite <- Hcl, <- Esc; exact Escore].
    rewrite Esc, Hcl, Eu, Epf in Escore. unfold score_expr in Escore.
    destruct (py_gt (PyFloat pf) (PyInt 0)) eqn:Eg.
    + rewrite (profit_points_positive pf Eg) in Escore. cbn [bind] in Escore.
      unfold py_mul, py_add, py_arith in Escore. cbn [to_float bind] in Escore.
      injection Escore as <-. reflexivity.
    + rewrite (profit_points_nonpositive _ Eg) in Escore. cbn [bind] in Escore.
      unfold py_mul, py_add, py_arith in Escore. cbn [to_float bind] in Escore.
      injection Escore as <-. reflexivity.
  - exact profit_points_nonpositive.
  - exact profit_points_at_200000.
  - exact profit_points_positive.
  - vm_compute. reflexivity.
  - eexists. split; [vm_compute; reflexivity|]. split; vm_compute; reflexivity.
Qed.

(** C2 at the scenario of the specification. *)
Lemma score_formula_witness :
  valid_decision scenario = true /\
  exists o profit sat,
    run_simulation scenario = Ok o /\
    Profit o = PyFloat profit /\ Satisfaction o = PyFloat sat /\
    Score o =
      PyFloat ((if py_gt (PyFloat profit) (PyInt 0)
                then profit / 200000 * 50 else 0) + sat * 0.5) /\
    score_expr (Profit o) (Satisfaction o) = Ok (Score o).
Proof.
  split; [vm_compute; reflexivity|].
  apply (score_formula scenario). vm_compute. reflexivity.
Defined.

(** C3. For every valid decision the run succeeds and the returned attendance
    is the integer [int(min(risk_demand, Capacity))], between 0 and the
    capacity of the chosen venue: it is the capacity when the risk-adjusted
    demand is at least the capacity, and otherwise the integer [a] with
    [a <= risk_demand < a + 1]. The demand is never negative, so this is the
    truncation toward zero that [int] performs: [int(2.5)] is 2 and
    [int(-2.5)] is -2. *)
Theorem attendance_within_capacity (inputs : inputs_t) :
  valid_decision inputs = true ->
  (exists l o,
     simulate inputs = Ok l /\ run_simulation inputs = Ok o /\
     getitem VENUES (in_Venue inputs) = Ok (venue l) /\
     py_int (py_min (risk_demand l) (PyInt (Capacity (venue l)))) = Ok (Attendance o) /\
     0 <= Attendance o <= Capacity (venue l) /\
     (py_le (PyInt (Capacity (venue l))) (risk_demand l) = true ->
      Attendance o = Capacity (venue l)) /\
     (py_lt (risk_demand l) (PyInt (Capacity (venue l))) = true ->
      py_le (PyInt (Attendance o)) (risk_demand l) = true /\
      py_lt (risk_demand l) (PyInt (Attendance o + 1)) = true)) /\
  py_int (PyFloat 2.5) = Ok 2 /\ py_int (PyFloat (-2.5)) = Ok (-2).
Proof.
  intros V. split; [|split; vm_compute; reflexivity].
  destruct (run_ok inputs V)
    as (l & o & El & Eo & Er & Iv & _ & _ & _ & (rd & Erd & Nrd) & Ha & _).
  exists l, o. destruct (returned_inv l o Eo) as (-> & _).
  pose proof (simulate_inv inputs l El) as St. unfold steps in St.
  destruct St as (Ev & _ & _ & _ & _ & _ & _ & _ & Eat & _).
  destruct (venue_facts _ Iv) as (Hcap & _).
  split; [exact El|]. split; [exact Er|]. split; [exact Ev|]. split; [exact Eat|].
  rewrite Erd in *.
  exact (attendance_floor rd (Capacity (venue l)) (attendance l) Nrd ltac:(lia) Eat).
Qed.

(** C3 on a decision whose risk-adjusted demand is 596.5, below the
    capacity of 2000: 596 attend. *)
Lemma attendance_within_capacity_witness :
  valid_decision undersold = true /\
  exists l o,
    simulate undersold = Ok l /\ run_simulation undersold = Ok o /\
    risk_demand l = PyFloat 596.5 /\ Attendance o = 596 /\
    py_le (PyInt (Attendance o)) (risk_demand l) = true /\
    py_lt (risk_demand l) (PyInt (Attendance o + 1)) = true.
Proof.
  split; [vm_compute; reflexivity|].
  destruct (attendance_within_capacity undersold) as ((l & o & H1 & H2 & _ & _ & _ & _ & H3) & _).
  - vm_compute. reflexivity.
  - exists l, o. split; [exact H1|]. split; [exact H2|].
    assert (Hl : risk_demand l = PyFloat 596.5 /\ Capacity (venue l) = 2000).
    { vm_compute in H1. injection H1 as <-. split; reflexivity. }
    destruct Hl as [Hrd Hcap]. split; [exact Hrd|].
    assert (Ho : Attendance o = 596).
    { vm_compute in H2. injection H2 as <-. reflexivity. }
    split; [exact Ho|]. apply H3. rewrite Hrd, Hcap. reflexivity.
Defined.

(** C4. For every valid decision the satisfaction before clamping is the
    double [Vibe * 3.3 + Quality * 3.3 + Ratio * 8 - crowding_penalty +
    SatPenalty], computed from left to right on the rows the four labels
    select, each integer entering as the double of the same value; the
    returned satisfaction is [min(100, max(0, .))] of it and lies between 0
    and 100. *)
Theorem satisfaction_clamped (inputs : inputs_t) :
  valid_decision inputs = true ->
  exists l o fv fq fr fp fd,
    simulate inputs = Ok l /\ run_simulation inputs = Ok o /\
    getitem VENUES (in_Venue inputs) = Ok (venue l) /\
    getitem CATERING (in_Catering inputs) = Ok (cat l) /\
    getitem STAFFING (in_Staffing inputs) = Ok (staff l) /\
    getitem RISKS (in_Risk inputs) = Ok (risk l) /\
    py_eq (PyFloat fv) (PyInt (Vibe (venue l))) = true /\
    py_eq (PyFloat fq) (PyInt (Quality (cat l))) = true /\
    py_eq (PyFloat fr) (PyInt (Ratio (staff l) * 8)) = true /\
    py_eq (PyFloat fp) (PyInt (crowding_penalty l)) = true /\
    py_eq (PyFloat fd) (PyInt (SatPenalty (risk l))) = true /\
    sat_unclamped l = PyFloat (fv * 3.3 + fq * 3.3 + fr - fp + fd) /\
    Satisfaction o = py_min (PyInt 100) (py_max (PyInt 0) (sat_unclamped l)) /\
    py_le (PyInt 0) (Satisfaction o) = true /\
    py_le (Satisfaction o) (PyInt 100) = true.
Proof.
  intros V. destruct (run_ok inputs V) as (l & o & El & Eo & Er & Iv & Ic & Is & Ir & _).
  destruct (returned_inv l o Eo) as (_ & _ & _ & _ & Hsat & _).
  pose proof (simulate_inv inputs l El) as St. unfold steps in St.
  destruct St as (Ev & Ec & Es & Err & _ & _ & _ & _ & _ & _ & _ & _ & _ & _ & _ & _ & _
                  & _ & Epen & Eb & Ea & Esc & _).
  destruct (venue_facts _ Iv) as (_ & _ & _ & Hvibe).
  destruct (catering_facts _ Ic) as (_ & Hqual).
  destruct (staffing_facts _ Is) as (Hratio & _).
  destruct (risk_facts _ Ir) as (_ & Hsp).
  assert (Hpen : 0 <= crowding_penalty l <= 15).
  { rewrite Epen. unfold crowding_penalty_expr. destruct (py_gt _ _); lia. }
  destruct (sat_formula (Vibe (venue l)) (Quality (cat l)) (Ratio (staff l))
              (crowding_penalty l) (SatPenalty (risk l)) Hvibe Hqual ltac:(lia) Hpen Hsp)
    as (fv & fq & fr & fp & fd & Pv & Pq & Pr & Pp & Pd & Hb & Hu).
  rewrite Hb in Eb. injection Eb as Eb. rewrite <- Eb, Hu in Ea. injection Ea as Ea.
  exists l, o, fv, fq, fr, fp, fd. rewrite Hsat, Esc.
  destruct (sat_clamp_bounds (sat_unclamped l)) as [B0 B1].
  repeat (split; [assumption|]).
  split; [symmetry; exact Ea|]. split; [reflexivity|]. split; assumption.
Qed.

(** C4 at the scenario of the specification: 9, 6, 16, 15 and 0 enter the
    formula, and the satisfaction is 50.5. *)
Lemma satisfaction_clamped_witness :
  valid_decision scenario = true /\
  exists l o fv fq fr fp fd,
    simulate scenario = Ok l /\ run_simulation scenario = Ok o /\
    py_eq (PyFloat fv) (PyInt 9) = true /\
    py_eq (PyFloat fq) (PyInt 6) = true /\
    py_eq (PyFloat fr) (PyInt 16) = true /\
    py_eq (PyFloat fp) (PyInt 15) = true /\
    py_eq (PyFloat fd) (PyInt 0) = true /\
    sat_unclamped l = PyFloat (fv * 3.3 + fq * 3.3 + fr - fp + fd) /\
    Satisfaction o = PyFloat 50.5.
Proof.
  split; [vm_compute; reflexivity|].
  destruct (satisfaction_clamped scenario)
    as (l & o & fv & fq & fr & fp & fd & H1 & H2 & _ & _ & _ & _
        & Pv & Pq & Pr & Pp & Pd & Hu & _).
  - vm_compute. reflexivity.
  - exists l, o, fv, fq, fr, fp, fd.
    assert (Hl : Vibe (venue l) = 9 /\ Quality (cat l) = 6 /\ Ratio (staff l) * 8 = 16 /\
                 crowding_penalty l = 15 /\ SatPenalty (risk l) = 0).
    { vm_compute in H1. injection H1 as <-. repeat split; reflexivity. }
    destruct Hl as (E1 & E2 & E3 & E4 & E5).
    rewrite E1 in Pv. rewrite E2 in Pq. rewrite E3 in Pr. rewrite E4 in Pp. rewrite E5 in Pd.
    repeat (split; [assumption|]).
    vm_compute in H2. injection H2 as <-. reflexivity.
Defined.

(** C5, with the size of the reduction corrected. For every valid decision
    the crowding penalty is 15 when [attendance / Capacity] exceeds 0.9,
    which the program's test on doubles decides exactly as
    [9 * Capacity < 10 * attendance], and 0 otherwise, so also at a ratio of
    exactly 0.9. The subtraction of the penalty is exact (the base minus
    the lowered value equals the penalty), but the change of the risk is
    added afterwards and rounds: the satisfaction before clamping lies below
    the penalty-free one of the same rows by the penalty or, when the
    penalty is 15, by 14.999999999999993. *)
Theorem crowding_penalty_step (inputs : inputs_t) :
  valid_decision inputs = true ->
  exists l,
    simulate inputs = Ok l /\
    crowding_penalty l =
      (if 9 * Capacity (venue l) <? 10 * attendance l then 15 else 0) /\
    (exists lowered drop,
       py_sub (sat_base l) (PyInt (crowding_penalty l)) = Ok lowered /\
       py_add lowered (PyInt (SatPenalty (risk l))) = Ok (sat_unclamped l) /\
       py_sub (sat_base l) lowered = Ok drop /\
       py_eq drop (PyInt (crowding_penalty l)) = true) /\
    (exists free fall,
       sat_adjust_expr (sat_base l) 0 (SatPenalty (risk l)) = Ok free /\
       py_sub free (sat_unclamped l) = Ok fall /\
       (py_eq fall (PyInt (crowding_penalty l)) = true \/
        (crowding_penalty l = 15 /\
         py_eq fall (PyFloat 14.999999999999993) = true))).
Proof.
  intros V. destruct (run_ok inputs V)
    as (l & o & El & _ & _ & Iv & Ic & Is & Ir & _ & Ha & _).
  exists l. split; [exact El|].
  pose proof (simulate_inv inputs l El) as St. unfold steps in St.
  destruct St as (_ & _ & _ & _ & _ & _ & _ & _ & _ & _ & _ & _ & _ & _ & _ & _ & _
                  & Ecr & Epen & Eb & Ea & _).
  assert (Hpen : crowding_penalty l =
                 (if 9 * Capacity (venue l) <? 10 * attendance l then 15 else 0)).
  { destruct (crowding_penalty_exact (attendance l) (Capacity (venue l)) Ha
                (venue_capacity_in _ Iv)) as (c & Ec & Hc).
    rewrite Ecr in Ec. injection Ec as <-. rewrite Epen. exact Hc. }
  split; [exact Hpen|].
  assert (Hp : crowding_penalty l = 0 \/ crowding_penalty l = 15).
  { rewrite Hpen. destruct (_ <? _); auto. }
  split.
  - destruct (lowered_exact (venue l) (cat l) (staff l) (crowding_penalty l) Iv Ic Is Hp)
      as (base & lowered & drop & E0 & E1 & E2 & E3).
    rewrite Eb in E0. injection E0 as <-.
    unfold sat_adjust_expr in Ea. rewrite E1 in Ea. cbn [bind] in Ea.
    exists lowered, drop. auto.
  - exact (fall_exact _ _ _ _ _ _ _ Iv Ic Is Ir Hp Eb Ea).
Qed.

(** C5 on a sold-out Grand Hall. *)
Lemma crowding_penalty_step_witness :
  valid_decision crowded = true /\
  exists l, simulate crowded = Ok l /\
    crowding_penalty l = 15 /\
    exists free fall,
      sat_adjust_expr (sat_base l) 0 (SatPenalty (risk l)) = Ok free /\
      py_sub free (sat_unclamped l) = Ok fall /\
      (py_eq fall (PyInt (crowding_penalty l)) = true \/
       (crowding_penalty l = 15 /\
        py_eq fall (PyFloat 14.999999999999993) = true)).
Proof.
  split; [vm_compute; reflexivity|].
  destruct (crowding_penalty_step crowded) as (l & H1 & H2 & _ & H3).
  - vm_compute. reflexivity.
  - exists l. split; [exact H1|]. split; [|exact H3].
    vm_compute in H1. injection H1 as <-. reflexivity.
Defined.

(** C5 as stated fails: the same rows (Grand Hall, Standard Buffet,
    Standard, Viral Buzz) at price 500, three quarters full and without
    penalty, and at price 400, sold out and with penalty 15, have
    satisfactions before clamping of 67.199999999999989 and
    52.199999999999996; they differ by 14.999999999999993, not by 15. *)
Lemma crowding_drop_is_not_always_15 :
  exists l1 l2 d,
    simulate roomy = Ok l1 /\ simulate crowded = Ok l2 /\
    venue l1 = venue l2 /\ cat l1 = cat l2 /\ staff l1 = staff l2 /\ risk l1 = risk l2 /\
    crowding_penalty l1 = 0 /\ crowding_penalty l2 = 15 /\
    sat_unclamped l1 = PyFloat 67.199999999999989 /\
    sat_unclamped l2 = PyFloat 52.199999999999996 /\
    py_sub (sat_unclamped l1) (sat_unclamped l2) = Ok d /\
    d = PyFloat 14.999999999999993 /\
    py_eq d (PyInt 15) = false.
Proof.
  do 3 eexists.
  split; [vm_compute; reflexivity|]. split; [vm_compute; reflexivity|].
  cbn [venue cat staff risk crowding_penalty sat_unclamped].
  do 8 (split; [reflexivity|]).
  split; [vm_compute; reflexivity|]. split; reflexivity.
Qed.

(** C6, with the numbers it covers corrected. With a price and a marketing
    budget that are floats, or integers of magnitude below [2^50], a
    decision whose four labels are in their tables returns an outcome; a
    decision with a label missing from its table raises [KeyError] on a
    label that its table lacks, and returns nothing; so the run raises if
    and only if some label is missing. *)
Theorem fails_only_on_unknown_label (inputs : inputs_t) :
  any_number (in_Price inputs) = true ->
  any_number (in_Marketing inputs) = true ->
  (labels_resolve inputs = true -> exists o, run_simulation inputs = Ok o) /\
  (labels_resolve inputs = false ->
     exists key,
       run_simulation inputs = Raise (KeyError key) /\
       ((key = in_Venue inputs /\ resolves VENUES key = false) \/
        (key = in_Catering inputs /\ resolves CATERING key = false) \/
        (key = in_Staffing inputs /\ resolves STAFFING key = false) \/
        (key = in_Risk inputs /\ resolves RISKS key = false))) /\
  ((exists e, run_simulation inputs = Raise e) <-> labels_resolve inputs = false).
Proof.
  intros Vp Vm.
  assert (Hok : labels_resolve inputs = true -> exists o, run_simulation inputs = Ok o).
  { intros Hl. destruct (run_any inputs Hl Vp Vm) as (l & o & _ & _ & Er & _). eauto. }
  split; [exact Hok|]. split; [exact (unknown_label_raises inputs)|].
  split.
  - intros [e He]. destruct (labels_resolve inputs) eqn:Hl; [|reflexivity].
    destruct (Hok eq_refl) as (o & Eo). congruence.
  - intros Hl. destruct (unknown_label_raises inputs Hl) as (key & E & _). eauto.
Qed.

(** C6 on the scenario, and on the scenario moved to a venue that is not in
    the table. *)
Lemma fails_only_on_unknown_label_witness :
  (exists o, run_simulation scenario = Ok o) /\
  (exists key, run_simulation unknown_venue = Raise (KeyError key)).
Proof.
  split.
  - apply (fails_only_on_unknown_label scenario); vm_compute; reflexivity.
  - destruct (fails_only_on_unknown_label unknown_venue eq_refl eq_refl) as (_ & H & _).
    destruct (H eq_refl) as (key & E & _). exists key. exact E.
Defined.

(** C6 as stated fails on large integers, which are non-negative and finite:
    with all four labels in their tables, a marketing budget of [2^64]
    raises [TypeError] (in [np.sqrt]) and a price of [10^400] raises
    [OverflowError] (in [3.5 * price]). *)
Lemma resolved_labels_can_still_fail :
  labels_resolve huge_budget = true /\
  in_Price huge_budget = PyInt 250 /\ in_Marketing huge_budget = PyInt (2 ^ 64) /\
  run_simulation huge_budget = Raise TypeError /\
  labels_resolve huge_price = true /\
  in_Price huge_price = PyInt (10 ^ 400) /\ in_Marketing huge_price = PyInt 20000 /\
  run_simulation huge_price = Raise OverflowError.
Proof.
  split; [reflexivity|]. split; [reflexivity|]. split; [reflexivity|].
  split; [vm_compute; reflexivity|].
  split; [reflexivity|]. split; [reflexivity|]. split; [reflexivity|].
  vm_compute. reflexivity.
Qed.

(** C7. With the marketing budget fixed, the base demand never increases
    with the price: for valid numbers [p1 <= p2] and [m], both demands are
    computed and the one at [p2] is at most the one at [p1]. *)
Theorem base_demand_price_monotone (p1 p2 m : pynum) :
  valid_number p1 = true -> valid_number p2 = true -> valid_number m = true ->
  py_le p1 p2 = true ->
  exists d1 d2,
    base_demand_expr p1 m = Ok d1 /\ base_demand_expr p2 m = Ok d2 /\
    py_le d2 d1 = true.
Proof.
  intros V1 V2 Vm Hle.
  destruct (valid_number_float _ V1) as (f1 & E1 & N1 & F1).
  destruct (valid_number_float _ V2) as (f2 & E2 & N2 & F2).
  destruct (valid_number_float _ Vm) as (fm & Em & Nm & Fm).
  pose proof (py_le_rank _ _ _ _ V1 V2 E1 E2 Hle) as Hr.
  destruct (demand_float_price f1 f2 fm N1 N2 Nm Fm Hr) as (Nd1 & Nd2 & Hd).
  exists (py_max (PyInt 0) (PyFloat (demand_float f1 fm))),
         (py_max (PyInt 0) (PyFloat (demand_float f2 fm))).
  split; [apply base_demand_float; assumption|].
  split; [apply base_demand_float; assumption|].
  apply py_max_0_le; assumption.
Qed.

(** C7 at prices 250 and 300.5, marketing 20000. *)
Lemma base_demand_price_monotone_witness :
  exists d1 d2,
    base_demand_expr (PyInt 250) (PyInt 20000) = Ok d1 /\
    base_demand_expr (PyFloat 300.5) (PyInt 20000) = Ok d2 /\
    py_le d2 d1 = true.
Proof.
  apply (base_demand_price_monotone (PyInt 250) (PyFloat 300.5) (PyInt 20000));
    vm_compute; reflexivity.
Defined.

(** C8. With the price fixed, the base demand never decreases with the
    marketing budget: for valid numbers [p] and [m1 <= m2], both demands
    are computed and the one at [m1] is at most the one at [m2]. *)
Theorem base_demand_marketing_monotone (p m1 m2 : pynum) :
  valid_number p = true -> valid_number m1 = true -> valid_number m2 = true ->
  py_le m1 m2 = true ->
  exists d1 d2,
    base_demand_expr p m1 = Ok d1 /\ base_demand_expr p m2 = Ok d2 /\
    py_le d1 d2 = true.
Proof.
  intros Vp V1 V2 Hle.
  destruct (valid_number_float _ Vp) as (fp & Ep & Np & Fp).
  destruct (valid_number_float _ V1) as (f1 & E1 & N1 & F1).
  destruct (valid_number_float _ V2) as (f2 & E2 & N2 & F2).
  pose proof (py_le_rank _ _ _ _ V1 V2 E1 E2 Hle) as Hr.
  destruct (demand_float_marketing fp f1 f2 Np N1 F1 N2 F2 Hr) as (Nd1 & Nd2 & Hd).
  exists (py_max (PyInt 0) (PyFloat (demand_float fp f1))),
         (py_max (PyInt 0) (PyFloat (demand_float fp f2))).
  split; [apply base_demand_float; assumption|].
  split; [apply base_demand_float; assumption|].
  apply py_max_0_le; assumption.
Qed.

(** C8 at price 250, marketing 20000 and 20000.5. *)
Lemma base_demand_marketing_monotone_witness :
  exists d1 d2,
    base_demand_expr (PyInt 250) (PyInt 20000) = Ok d1 /\
    base_demand_expr (PyInt 250) (PyFloat 20000.5) = Ok d2 /\
    py_le d1 d2 = true.
Proof.
  apply (base_demand_marketing_monotone (PyInt 250) (PyInt 20000) (PyFloat 20000.5));
    vm_compute; reflexivity.
Defined.

(** C9. For every valid decision the staff count is
    [ceil((attendance / 100) * Ratio)], the staff cost is that count times
    [CostPer], and the count equals the exact ceiling of
    [attendance * Ratio / 100] (the division and the product on doubles
    lose nothing that the ceiling would see). One attendee with ratio 1
    needs 1 member of staff, not 0. *)
Theorem staff_count_rounds_up (inputs : inputs_t) :
  valid_decision inputs = true ->
  (exists l o,
     simulate inputs = Ok l /\ run_simulation inputs = Ok o /\
     getitem STAFFING (in_Staffing inputs) = Ok (staff l) /\
     (exists hundreds scaled,
        py_truediv (PyInt (attendance l)) (PyInt 100) = Ok hundreds /\
        py_mul hundreds (PyInt (Ratio (staff l))) = Ok scaled /\
        np_ceil scaled = Ok (num_staff l)) /\
     py_mul (num_staff l) (PyInt (CostPer (staff l))) = Ok (staff_cost l) /\
     Staff_Cost (Details o) = staff_cost l /\
     py_eq (num_staff l)
       (PyInt ((attendance l * Ratio (staff l) + 99) / 100)) = true) /\
  num_staff_expr 1 1 = Ok (PyFloat 1).
Proof.
  intros V. split; [|vm_compute; reflexivity].
  destruct (run_ok inputs V)
    as (l & o & El & Eo & Er & Iv & _ & Is & _ & _ & Ha & _).
  exists l, o.
  destruct (returned_inv l o Eo) as (_ & _ & _ & _ & _ & _ & _ & _ & _ & _ & Esc).
  pose proof (simulate_inv inputs l El) as St. unfold steps in St.
  destruct St as (_ & _ & Es & _ & _ & _ & _ & _ & _ & _ & _ & _ & _ & Ens & Ecost & _).
  destruct (venue_facts _ Iv) as (Hcap & _).
  destruct (num_staff_exact (attendance l) (Ratio (staff l)) ltac:(lia)
              (staff_ratio_in _ Is)) as (ns & Ens' & Hns).
  rewrite Ens in Ens'. injection Ens' as <-.
  repeat split; try assumption.
  unfold num_staff_expr in Ens.
  destruct (py_truediv (PyInt (attendance l)) (PyInt 100)) as [hundreds|] eqn:E1;
    [|discriminate].
  cbn [bind] in Ens.
  destruct (py_mul hundreds (PyInt (Ratio (staff l)))) as [scaled|] eqn:E2;
    [|discriminate].
  cbn [bind] in Ens. exists hundreds, scaled. auto.
Qed.

(** C9 on a decision with exactly one attendee. *)
Lemma staff_count_rounds_up_witness :
  valid_decision one_guest = true /\
  exists l, simulate one_guest = Ok l /\
    py_eq (num_staff l) (PyInt ((attendance l * Ratio (staff l) + 99) / 100)) = true.
Proof.
  split; [vm_compute; reflexivity|].
  destruct (staff_count_rounds_up one_guest) as ((l & o & H1 & _ & _ & _ & _ & _ & H2) & _).
  - vm_compute. reflexivity.
  - exists l. auto.
Defined.



(** * Further properties of the code *)

(** X1. The four labels are looked up before anything is computed, in the
    order venue, catering, staffing, risk: [run_simulation] raises
    [KeyError] on the first label that its table lacks, whatever the later
    labels, the price and the marketing budget are. *)
Theorem first_missing_label_is_reported (inputs : inputs_t) :
  (resolves VENUES (in_Venue inputs) = false ->
   run_simulation inputs = Raise (KeyError (in_Venue inputs))) /\
  (resolves VENUES (in_Venue inputs) = true ->
   resolves CATERING (in_Catering inputs) = false ->
   run_simulation inputs = Raise (KeyError (in_Catering inputs))) /\
  (resolves VENUES (in_Venue inputs) = true ->
   resolves CATERING (in_Catering inputs) = true ->
   resolves STAFFING (in_Staffing inputs) = false ->
   run_simulation inputs = Raise (KeyError (in_Staffing inputs))) /\
  (resolves VENUES (in_Venue inputs) = true ->
   resolves CATERING (in_Catering inputs) = true ->
   resolves STAFFING (in_Staffing inputs) = true ->
   resolves RISKS (in_Risk inputs) = false ->
   run_simulation inputs = Raise (KeyError (in_Risk inputs))).
Proof.
  unfold resolves, run_simulation, simulate.
  destruct (getitem VENUES (in_Venue inputs)) as [v|e] eqn:Ev.
  2:{ rewrite (getitem_raise _ _ _ Ev). cbn [bind].
      repeat split; intros; try discriminate; reflexivity. }
  destruct (getitem CATERING (in_Catering inputs)) as [c|e] eqn:Ec.
  2:{ rewrite (getitem_raise _ _ _ Ec). cbn [bind].
      repeat split; intros; try discriminate; reflexivity. }
  destruct (getitem STAFFING (in_Staffing inputs)) as [s|e] eqn:Es.
  2:{ rewrite (getitem_raise _ _ _ Es). cbn [bind].
      repeat split; intros; try discriminate; reflexivity. }
  destruct (getitem RISKS (in_Risk inputs)) as [r|e] eqn:Er.
  2:{ rewrite (getitem_raise _ _ _ Er). cbn [bind].
      repeat split; intros; try discriminate; reflexivity. }
  repeat split; intros; discriminate.
Qed.

(** X1 on a decision with four unknown labels and a NaN price: the venue is
    the label reported. *)
Lemma first_missing_label_is_reported_witness :
  run_simulation (unknown_everything (PyFloat nan) (PyInt (-5))) =
    Raise (KeyError "Moon Base").
Proof.
  apply (first_missing_label_is_reported (unknown_everything (PyFloat nan) (PyInt (-5)))).
  reflexivity.
Defined.

(** X2. [run_simulation] rejects no number: when the four labels are in
    their tables it returns an outcome for every price and marketing budget
    that is a float of any kind (negative, infinite or NaN) or an integer
    of magnitude below [2^50], and the attendance it returns lies between 0
    and the capacity of the venue. *)
Theorem never_rejects_a_number (inputs : inputs_t) :
  labels_resolve inputs = true ->
  any_number (in_Price inputs) = true -> any_number (in_Marketing inputs) = true ->
  exists l o,
    simulate inputs = Ok l /\ run_simulation inputs = Ok o /\
    0 <= Attendance o <= Capacity (venue l) /\
    getitem VENUES (in_Venue inputs) = Ok (venue l).
Proof.
  intros Hl Vp Vm.
  destruct (run_any inputs Hl Vp Vm) as (l & o & El & Eo & Er & _ & _ & _ & _ & _ & Ha & _).
  exists l, o. destruct (returned_inv l o Eo) as (-> & _).
  pose proof (simulate_inv inputs l El) as St. unfold steps in St.
  repeat split; try tauto; lia.
Qed.

(** X2 on the scenario with a NaN price and an infinitely negative budget. *)
Lemma never_rejects_a_number_witness :
  exists o, run_simulation (with_numbers scenario (PyFloat nan) (PyFloat neg_infinity)) = Ok o.
Proof.
  destruct (never_rejects_a_number (with_numbers scenario (PyFloat nan) (PyFloat neg_infinity)))
    as (l & o & _ & H & _); try reflexivity.
  exists o. exact H.
Defined.

(** X3. A negative marketing budget is not refused: its square root is NaN,
    the NaN reaches [max(0, ...)], which keeps its first argument, so the
    base demand is the integer 0 and nobody attends; the negative budget is
    still entered as the marketing cost. *)
Theorem negative_marketing_zeroes_demand (inputs : inputs_t) :
  labels_resolve inputs = true ->
  any_number (in_Price inputs) = true -> any_number (in_Marketing inputs) = true ->
  py_lt (in_Marketing inputs) (PyInt 0) = true ->
  exists l o,
    simulate inputs = Ok l /\ run_simulation inputs = Ok o /\
    base_demand_expr (in_Price inputs) (in_Marketing inputs) = Ok (PyInt 0) /\
    base_demand l = PyInt 0 /\ Attendance o = 0 /\
    Marketing_Cost (Details o) = in_Marketing inputs.
Proof.
  intros Hl Vp Vm Hneg.
  destruct (run_any inputs Hl Vp Vm)
    as (l & o & El & Eo & Er & Iv & _ & _ & Ir & _ & Ha & _).
  exists l, o.
  destruct (returned_inv l o Eo) as (-> & _ & _ & _ & _ & _ & _ & _ & -> & _).
  pose proof (simulate_inv inputs l El) as St. unfold steps in St.
  destruct St as (_ & _ & _ & _ & Epr & Emk & Eb & Erd & Eat & _ & _ & Emc & _).
  destruct (to_float_small _ (any_number_small _ Vp)) as (fp & Efp).
  destruct (to_float_small _ (any_number_small _ Vm)) as (fm & Efm).
  pose proof (base_demand_any _ _ fp fm Vm Efp Efm) as Hb.
  rewrite (py_max_nan _ (demand_float_nan fp fm
             (sqrt_negative fm (negative_float _ _ Vm Hneg Efm)))) in Hb.
  rewrite Epr, Emk, Hb in Eb. injection Eb as Eb.
  split; [exact El|]. split; [exact Er|]. split; [exact Hb|].
  split; [symmetry; exact Eb|]. split; [|rewrite Emc; exact Emk].
  destruct (risk_facts _ Ir) as ((m & e & Em) & _).
  destruct (zero_times _ m e Em) as (rd & s & Ez & Es).
  rewrite <- Eb, Ez in Erd. injection Erd as Erd.
  destruct (venue_facts _ Iv) as (Hcap & _).
  rewrite <- Erd in Eat.
  rewrite (attendance_zero rd (Capacity (venue l))) in Eat.
  - injection Eat as <-. reflexivity.
  - rewrite Es. exact I.
  - lia.
  - cbn [py_lt]. rewrite Es. reflexivity.
Qed.

(** X3 on the scenario with a budget of -0.5. *)
Lemma negative_marketing_zeroes_demand_witness :
  exists o, run_simulation (with_numbers scenario (PyInt 250) (PyFloat (-0.5))) = Ok o /\
    Attendance o = 0.
Proof.
  destruct (negative_marketing_zeroes_demand
              (with_numbers scenario (PyInt 250) (PyFloat (-0.5))))
    as (l & o & _ & H & _ & _ & H0 & _); try reflexivity.
  exists o. auto.
Defined.

(** X4. Between two valid decisions on the same venue under the same risk,
    the one with the higher (or equal) price and the lower (or equal)
    marketing budget never has the larger attendance, whatever catering and
    staffing the two choose. *)
Theorem attendance_monotone (i j : inputs_t) :
  valid_decision i = true -> valid_decision j = true ->
  in_Venue i = in_Venue j -> in_Risk i = in_Risk j ->
  py_le (in_Price i) (in_Price j) = true ->
  py_le (in_Marketing j) (in_Marketing i) = true ->
  exists oi oj,
    run_simulation i = Ok oi /\ run_simulation j = Ok oj /\
    Attendance oj <= Attendance oi.
Proof.
  intros Vi Vj Hv Hr Hp Hm.
  destruct (run_ok i Vi) as (li & oi & Eli & Eoi & Eri & Ivi & _ & _ & Iri & _).
  destruct (run_ok j Vj) as (lj & oj & Elj & Eoj & Erj & _).
  exists oi, oj. split; [exact Eri|]. split; [exact Erj|].
  destruct (returned_inv li oi Eoi) as (-> & _).
  destruct (returned_inv lj oj Eoj) as (-> & _).
  pose proof (simulate_inv i li Eli) as Si. unfold steps in Si.
  pose proof (simulate_inv j lj Elj) as Sj. unfold steps in Sj.
  destruct Si as (Evi & _ & _ & Eki & Epi & Emi & Ebi & Erdi & Eai & _).
  destruct Sj as (Evj & _ & _ & Ekj & Epj & Emj & Ebj & Erdj & Eaj & _).
  rewrite <- Hv, Evi in Evj. injection Evj as Evj.
  rewrite <- Hr, Eki in Ekj. injection Ekj as Ekj.
  unfold valid_decision in Vi, Vj. rewrite !andb_true_iff in Vi, Vj.
  destruct Vi as [[_ Vpi] Vmi]. destruct Vj as [[_ Vpj] Vmj].
  destruct (valid_number_float _ Vpi) as (pi & Epi' & Npi & Fpi).
  destruct (valid_number_float _ Vpj) as (pj & Epj' & Npj & Fpj).
  destruct (valid_number_float _ Vmi) as (mi & Emi' & Nmi & Fmi).
  destruct (valid_number_float _ Vmj) as (mj & Emj' & Nmj & Fmj).
  pose proof (py_le_rank _ _ _ _ Vpi Vpj Epi' Epj' Hp) as Rp.
  pose proof (py_le_rank _ _ _ _ Vmj Vmi Emj' Emi' Hm) as Rm.
  rewrite Epi, Emi, (base_demand_float _ _ pi mi Vmi Epi' Emi') in Ebi.
  rewrite Epj, Emj, (base_demand_float _ _ pj mj Vmj Epj' Emj') in Ebj.
  injection Ebi as Ebi. injection Ebj as Ebj.
  destruct (demand_float_price pi pj mj Npi Npj Nmj Fmj Rp) as (_ & Nd & H1).
  destruct (demand_float_marketing pi mj mi Npi Nmj Fmj Nmi Fmi Rm) as (_ & Nd' & H2).
  destruct (risk_facts _ Iri) as ((m & e & Em) & _).
  destruct (risk_demand_nn (demand_float pi mi) (DemandMult (risk li)) m e Em)
    as (rdi & Hrdi & _).
  destruct (risk_demand_nn (demand_float pj mj) (DemandMult (risk li)) m e Em)
    as (rdj & Hrdj & _).
  rewrite <- Ebi, Hrdi in Erdi. injection Erdi as Erdi.
  rewrite <- Ebj, <- Ekj, Hrdj in Erdj. injection Erdj as Erdj.
  destruct (risk_demand_mono _ _ _ m e rdj rdi Em Nd Nd' ltac:(lia) Hrdj Hrdi)
    as (Nj & Ni & Hrk).
  destruct (venue_facts _ Ivi) as (Hcap & _).
  rewrite <- Erdi in Eai. rewrite <- Erdj, <- Evj in Eaj.
  exact (attendance_mono rdj rdi (Capacity (venue li)) _ _ Nj Ni ltac:(lia) Hrk Eaj Eai).
Qed.

(** X4 on the scenario at prices 250 and 600.5. *)
Lemma attendance_monotone_witness :
  exists oi oj,
    run_simulation scenario = Ok oi /\
    run_simulation (with_numbers scenario (PyFloat 600.5) (PyInt 20000)) = Ok oj /\
    Attendance oj <= Attendance oi.
Proof.
  apply (attendance_monotone scenario (with_numbers scenario (PyFloat 600.5) (PyInt 20000)));
    vm_compute; reflexivity.
Defined.

(** X5. Between two valid decisions that differ at most in catering,
    staffing and risk, the one whose risk has the smaller (or equal) demand
    multiplier never has the larger attendance. *)
Theorem attendance_monotone_risk (i j : inputs_t) (ri rj : risk_t) :
  valid_decision i = true -> valid_decision j = true ->
  in_Venue i = in_Venue j ->
  in_Price i = in_Price j -> in_Marketing i = in_Marketing j ->
  getitem RISKS (in_Risk i) = Ok ri -> getitem RISKS (in_Risk j) = Ok rj ->
  PrimFloat.leb (DemandMult ri) (DemandMult rj) = true ->
  exists oi oj,
    run_simulation i = Ok oi /\ run_simulation j = Ok oj /\
    Attendance oi <= Attendance oj.
Proof.
  intros Vi Vj Hv Hp Hm Gi Gj Hle.
  destruct (run_ok i Vi) as (li & oi & Eli & Eoi & Eri & Ivi & _ & _ & Iri & _).
  destruct (run_ok j Vj) as (lj & oj & Elj & Eoj & Erj & _ & _ & _ & Irj & _).
  exists oi, oj. split; [exact Eri|]. split; [exact Erj|].
  destruct (returned_inv li oi Eoi) as (-> & _).
  destruct (returned_inv lj oj Eoj) as (-> & _).
  pose proof (simulate_inv i li Eli) as Si. unfold steps in Si.
  pose proof (simulate_inv j lj Elj) as Sj. unfold steps in Sj.
  destruct Si as (Evi & _ & _ & Eki & Epi & Emi & Ebi & Erdi & Eai & _).
  destruct Sj as (Evj & _ & _ & Ekj & Epj & Emj & Ebj & Erdj & Eaj & _).
  rewrite <- Hv, Evi in Evj. injection Evj as Evj.
  rewrite Gi in Eki. injection Eki as Eki. rewrite Gj in Ekj. injection Ekj as Ekj.
  unfold valid_decision in Vi. rewrite !andb_true_iff in Vi.
  destruct Vi as [[_ Vp] Vm].
  destruct (valid_number_float _ Vp) as (fp & Efp & Np & Fp).
  destruct (valid_number_float _ Vm) as (fm & Efm & Nm & Fm).
  rewrite Epi, Emi, (base_demand_float _ _ fp fm Vm Efp Efm) in Ebi.
  rewrite Epj, Emj, <- Hp, <- Hm, (base_demand_float _ _ fp fm Vm Efp Efm) in Ebj.
  injection Ebi as Ebi. injection Ebj as Ebj.
  destruct (risk_facts _ Iri) as (Shi & _). destruct (risk_facts _ Irj) as (Shj & _).
  destruct Shi as (m & e & Em). destruct Shj as (m' & e' & Em').
  destruct (risk_demand_nn (demand_float fp fm) (DemandMult (risk li)) m e Em)
    as (rdi & Hrdi & _).
  destruct (risk_demand_nn (demand_float fp fm) (DemandMult (risk lj)) m' e' Em')
    as (rdj & Hrdj & _).
  rewrite <- Ebi, Hrdi in Erdi. injection Erdi as Erdi.
  rewrite <- Ebj, Hrdj in Erdj. injection Erdj as Erdj.
  assert (Hrk : rankF (DemandMult (risk li)) <= rankF (DemandMult (risk lj))).
  { rewrite <- Eki, <- Ekj. destruct (leb_nonnan _ _ Hle) as [N1 N2].
    rewrite (leb_rank _ _ N1 N2) in Hle. apply Z.leb_le. exact Hle. }
  destruct (risk_demand_mono_mult (demand_float fp fm) _ _ rdi rdj
              (ex_intro _ m (ex_intro _ e Em)) (ex_intro _ m' (ex_intro _ e' Em'))
              Hrk Hrdi Hrdj) as (Ni & Nj & Hr).
  destruct (venue_facts _ Ivi) as (Hcap & _).
  rewrite <- Erdi in Eai. rewrite <- Erdj, <- Evj in Eaj.
  exact (attendance_mono rdi rdj (Capacity (venue li)) _ _ Ni Nj ltac:(lia) Hr Eai Eaj).
Qed.

(** X5 on the scenario under heavy rain and under viral buzz. *)
Lemma attendance_monotone_risk_witness :
  exists oi oj,
    run_simulation (with_risk scenario "Heavy Rain") = Ok oi /\
    run_simulation (with_risk scenario "Viral Buzz") = Ok oj /\
    Attendance oi <= Attendance oj.
Proof.
  apply (attendance_monotone_risk
           (with_risk scenario "Heavy Rain") (with_risk scenario "Viral Buzz")
           {| DemandMult := 0.7; SatPenalty := -10 |}
           {| DemandMult := 1.5; SatPenalty := 5 |}); reflexivity.
Defined.

(** X6. For every valid decision the crowding percentage returned lies
    between 0 and 100; it equals 100 exactly when attendance equals the
    capacity, which happens exactly when the risk-adjusted demand is at
    least the capacity, and then the crowding penalty is 15; it equals 0
    exactly when nobody attends. *)
Theorem crowding_percent_range (inputs : inputs_t) :
  valid_decision inputs = true ->
  exists l o,
    simulate inputs = Ok l /\ run_simulation inputs = Ok o /\
    py_le (PyInt 0) (Crowding o) = true /\
    py_le (Crowding o) (PyInt 100) = true /\
    (py_eq (Crowding o) (PyInt 100) = true <-> Attendance o = Capacity (venue l)) /\
    (py_eq (Crowding o) (PyInt 0) = true <-> Attendance o = 0) /\
    (Attendance o = Capacity (venue l) <->
     py_le (PyInt (Capacity (venue l))) (risk_demand l) = true) /\
    (Attendance o = Capacity (venue l) -> crowding_penalty l = 15).
Proof.
  intros V. destruct (run_ok inputs V)
    as (l & o & El & Eo & Er & Iv & _ & _ & _ & (rd & Erd & Nrd) & Ha & _).
  exists l, o.
  destruct (returned_inv l o Eo) as (-> & _ & _ & _ & _ & _ & Epc & _).
  pose proof (simulate_inv inputs l El) as St. unfold steps in St.
  destruct St as (_ & _ & _ & _ & _ & _ & _ & _ & Eat & _ & _ & _ & _ & _ & _ & _ & _
                  & Ecr & Epen & _).
  destruct (venue_facts _ Iv) as (Hcap & Hin & _).
  destruct (crowding_percent_exact _ _ Ha Hin) as (c & pc & E1 & E2 & H0 & H100 & Hf & Hz).
  rewrite Ecr in E1. injection E1 as <-. rewrite Epc in E2. injection E2 as <-.
  split; [exact El|]. split; [exact Er|]. split; [exact H0|]. split; [exact H100|].
  split; [rewrite Hf; apply Z.eqb_eq|]. split; [rewrite Hz; apply Z.eqb_eq|].
  assert (HP : 0 < 2 ^ 1074) by (apply pow2_pos; lia).
  split.
  - rewrite Erd in *. rewrite (py_le_int_float _ _ Nrd) by lia.
    rewrite (attendance_rank rd _ Nrd) in Eat by lia. injection Eat as Eat.
    rewrite Z.leb_le. split.
    + intros E. assert (Capacity (venue l) <= rankF rd / 2 ^ 1074) by lia.
      apply (Z.mul_le_mono_nonneg_r _ _ (2 ^ 1074)) in H; [|lia].
      pose proof (Z.mul_div_le (rankF rd) (2 ^ 1074) HP). lia.
    + intros E. apply (Z.div_le_mono _ _ (2 ^ 1074)) in E; [|lia].
      rewrite Z.div_mul in E by lia. lia.
  - intros E.
    destruct (crowding_penalty_exact _ _ Ha Hin) as (c & Ec & Hc).
    rewrite Ecr in Ec. injection Ec as <-. rewrite Epen, Hc.
    destruct (Z.ltb_spec (9 * Capacity (venue l)) (10 * attendance l)); [reflexivity | lia].
Qed.

(** X6 at the scenario of the specification. *)
Lemma crowding_percent_range_witness :
  exists l o,
    simulate scenario = Ok l /\ run_simulation scenario = Ok o /\
    py_le (PyInt 0) (Crowding o) = true /\
    py_le (Crowding o) (PyInt 100) = true.
Proof.
  destruct (crowding_percent_range scenario) as (l & o & H1 & H2 & H3 & H4 & _).
  - vm_compute. reflexivity.
  - exists l, o. auto.
Defined.

(** X7. With the rows of the four tables the clamp of the satisfaction never
    acts: for every valid decision the satisfaction returned is the value
    computed before clamping, and it lies strictly between 9 and 97. *)
Theorem satisfaction_never_clamped (inputs : inputs_t) :
  valid_decision inputs = true ->
  exists l o,
    simulate inputs = Ok l /\ run_simulation inputs = Ok o /\
    Satisfaction o = sat_unclamped l /\
    py_lt (PyInt 9) (Satisfaction o) = true /\
    py_lt (Satisfaction o) (PyInt 97) = true.
Proof.
  intros V. destruct (run_ok inputs V)
    as (l & o & El & Eo & Er & Iv & Ic & Is & Ir & _ & Ha & _).
  exists l, o.
  destruct (returned_inv l o Eo) as (_ & _ & _ & _ & -> & _).
  pose proof (simulate_inv inputs l El) as St. unfold steps in St.
  destruct St as (_ & _ & _ & _ & _ & _ & _ & _ & _ & _ & _ & _ & _ & _ & _ & _ & _
                  & _ & Epen & Eb & Ea & Esc & _).
  assert (Hpen : crowding_penalty l = 0 \/ crowding_penalty l = 15).
  { rewrite Epen. unfold crowding_penalty_expr. destruct (py_gt _ _); auto. }
  destruct (sat_range _ _ _ _ _ _ _ Iv Ic Is Ir Hpen Eb Ea) as (f & Ef & Hcl & H9 & H97 & _).
  rewrite Esc, Hcl. auto.
Qed.

(** X7 at the scenario of the specification. *)
Lemma satisfaction_never_clamped_witness :
  exists l o,
    simulate scenario = Ok l /\ run_simulation scenario = Ok o /\
    Satisfaction o = sat_unclamped l.
Proof.
  destruct (satisfaction_never_clamped scenario) as (l & o & H1 & H2 & H3 & _).
  - vm_compute. reflexivity.
  - exists l, o. auto.
Defined.

(** X8. For every valid decision the score is at least half the
    satisfaction, hence above 4: a loss never lowers the score. When the
    profit is not positive the score equals half the satisfaction. *)
Theorem score_at_least_half_satisfaction (inputs : inputs_t) :
  valid_decision inputs = true ->
  exists o half,
    run_simulation inputs = Ok o /\
    py_mul (Satisfaction o) (PyFloat 0.5) = Ok half /\
    py_le half (Score o) = true /\
    py_lt (PyInt 4) (Score o) = true /\
    (py_gt (Profit o) (PyInt 0) = false -> py_eq (Score o) half = true).
Proof.
  intros V. destruct (run_ok inputs V)
    as (l & o & El & Eo & Er & Iv & Ic & Is & Ir & _ & Ha & _ & Fp).
  destruct (returned_inv l o Eo) as (_ & _ & _ & Hprofit & Hsat & Hscore & _).
  pose proof (simulate_inv inputs l El) as St. unfold steps in St.
  destruct St as (_ & _ & _ & _ & _ & _ & _ & _ & _ & _ & _ & _ & _ & _ & _ & _ & _
                  & _ & Epen & Eb & Ea & Esc & Escore).
  assert (Hpen : crowding_penalty l = 0 \/ crowding_penalty l = 15).
  { rewrite Epen. unfold crowding_penalty_expr. destruct (py_gt _ _); auto. }
  destruct (sat_range _ _ _ _ _ _ _ Iv Ic Is Ir Hpen Eb Ea)
    as (u & Eu & Hcl & _ & _ & Fh & H4).
  rewrite Esc, Hcl, Eu in *.
  destruct (is_float_ex _ Fp) as (pf & Epf). rewrite Epf in *.
  destruct (profit_points_nn pf) as (q & Eq & Nq & Hz).
  unfold score_expr in Escore. rewrite Eq in Escore. cbn [bind] in Escore.
  unfold py_mul at 1, py_arith in Escore. cbn [to_float bind] in Escore.
  unfold py_add, py_arith in Escore. cbn [to_float bind] in Escore.
  exists o, (PyFloat (u * 0.5)). rewrite Hprofit, Hsat, Hscore.
  split; [exact Er|]. split; [reflexivity|].
  injection Escore as Escore. rewrite <- Escore.
  destruct (add_to_half q (u * 0.5) Nq Fh) as (Ns & Hle & Hz').
  pose proof (is_finite_spec _ Fh) as Fh'. pose proof (fz_nonnan _ Fh') as Nh.
  split; [cbn [py_le]; rewrite (leb_rank _ _ Nh Ns); apply Z.leb_le; exact Hle|].
  split.
  - cbn [py_lt] in *.
    rewrite (Zcompare_SF_rank 4 _ (Prim2SF_valid _) Nh) in H4
      by (apply int_rank_bound; lia).
    rewrite (Zcompare_SF_rank 4 _ (Prim2SF_valid _) Ns) by (apply int_rank_bound; lia).
    fold (rankF (u * 0.5)) in H4. fold (rankF (q + u * 0.5)).
    destruct (Z.compare_spec (4 * 2 ^ 1074) (rankF (u * 0.5))); try discriminate.
    destruct (Z.compare_spec (4 * 2 ^ 1074) (rankF (q + u * 0.5))); try reflexivity; lia.
  - intros Hp. cbn [py_eq]. rewrite (eqb_rank _ _ Ns Nh). apply Z.eqb_eq.
    apply Hz'. apply Hz. exact Hp.
Qed.

(** X8 on a decision that makes a loss. *)
Lemma score_at_least_half_satisfaction_witness :
  exists o half,
    run_simulation overpriced = Ok o /\
    py_mul (Satisfaction o) (PyFloat 0.5) = Ok half /\
    py_le half (Score o) = true.
Proof.
  destruct (score_at_least_half_satisfaction overpriced) as (o & half & H1 & H2 & H3 & _).
  - vm_compute. reflexivity.
  - exists o, half. auto.
Defined.

(** X9. When price and marketing budget are integers (the price below
    [2^40]), no rounding enters the books of a valid decision: revenue is
    the integer [attendance * price], the staff cost equals
    [ceil(attendance * Ratio / 100) * CostPer], the total cost equals the
    integer sum of the four costs, and the profit equals revenue minus that
    sum. *)
Theorem integer_decision_books_are_exact (inputs : inputs_t) (p m : Z) :
  valid_decision inputs = true ->
  in_Price inputs = PyInt p -> in_Marketing inputs = PyInt m -> p < 2 ^ 40 ->
  exists l o,
    simulate inputs = Ok l /\ run_simulation inputs = Ok o /\
    let a := Attendance o in
    let k := (a * Ratio (staff l) + 99) / 100 in
    let cost := Fixed_Cost (venue l) + m + a * Cost (cat l) + k * CostPer (staff l) in
    Revenue o = PyInt (a * p) /\
    Venue_Cost (Details o) = PyInt (Fixed_Cost (venue l)) /\
    Marketing_Cost (Details o) = PyInt m /\
    Catering_Cost (Details o) = PyInt (a * Cost (cat l)) /\
    py_eq (Staff_Cost (Details o)) (PyInt (k * CostPer (staff l))) = true /\
    py_eq (Total_Cost o) (PyInt cost) = true /\
    py_eq (Profit o) (PyInt (a * p - cost)) = true.
Proof.
  intros V Hp Hm Hp40.
  destruct (run_ok inputs V) as (l & o & El & Eo & Er & _).
  exists l, o.
  destruct (returned_inv l o Eo)
    as (-> & -> & -> & -> & _ & _ & _ & -> & -> & -> & ->).
  split; [exact El|]. split; [exact Er|]. cbv zeta.
  pose proof (books_hold inputs p m l V Hp Hm Hp40 El) as H. cbv zeta in H.
  destruct H as (_ & Hrev & Hvc & Hmc & Hcc & Hsc & Htot & Hpr).
  repeat (split; [assumption|]).
  split; [apply holds_py_eq; exact Hsc|].
  split; [apply holds_py_eq; exact Htot | apply holds_py_eq; exact Hpr].
Qed.

(** X9 at the scenario of the specification. *)
Lemma integer_decision_books_are_exact_witness :
  exists o, run_simulation scenario = Ok o /\
    py_eq (Profit o) (PyInt (Attendance o * 250 - (25000 + 20000 + Attendance o * 35
             + (Attendance o * 2 + 99) / 100 * 250))) = true.
Proof.
  destruct (integer_decision_books_are_exact scenario 250 20000)
    as (l & o & H1 & H2 & H3); try reflexivity.
  cbv zeta in H3. destruct H3 as (_ & _ & _ & _ & _ & _ & H).
  exists o. split; [exact H2|].
  vm_compute in H1. injection H1 as <-. exact H.
Defined.

(** X10. For every dict the sidebar can build, the call of
    [run_simulation] on the main page returns, and the waterfall of the
    financial snapshot closes: revenue and the four negated costs, added
    bar after bar from 0, reach the amount of the NET PROFIT bar. *)
Theorem dashboard_waterfall_closes (inputs : inputs_t) :
  sidebar_inputs inputs = true ->
  exists results level,
    run_simulation inputs = Ok results /\
    waterfall_level (PyInt 0) (waterfall_bars results) = Ok level /\
    py_eq level (Profit results) = true.
Proof.
  intros Hs. destruct (sidebar_valid inputs Hs) as (V & p & m & Hp & Hm & Bp & Bm).
  destruct (run_ok inputs V) as (l & o & El & Eo & Er & _).
  assert (H40 : 2 ^ 40 = 1099511627776) by reflexivity.
  pose proof (books_hold inputs p m l V Hp Hm ltac:(lia) El) as H. cbv zeta in H.
  destruct H as ((Ha & _ & _ & Hfix & Hcost & Hkc) & Hrev & Hvc & Hmc & Hcc & Hsc & _ & Hpr).
  destruct (returned_inv l o Eo)
    as (_ & Hrev' & _ & Hpr' & _ & _ & _ & Hvc' & Hmc' & Hcc' & Hsc').
  set (a := attendance l) in *.
  set (k := (a * Ratio (staff l) + 99) / 100) in *.
  assert (H53 : 2 ^ 53 = 9007199254740992) by reflexivity.
  exists o. unfold waterfall_bars, df_fin. cbn [map combine fst snd waterfall_level].
  change ("relative" =? "relative")%string with true.
  change ("total" =? "relative")%string with false. cbv iota.
  rewrite Hrev', Hvc', Hmc', Hcc', Hsc', Hpr', Hrev, Hvc, Hmc, Hcc. cbn [py_neg].
  unfold py_add at 1 2 3 4, py_arith. cbn [bind].
  pose proof (neg_holds _ _ Hsc) as Hneg.
  assert (H4 : holds (PyInt (0 + a * p + - Fixed_Cost (venue l) + - m + - (a * Cost (cat l))))
                 (a * p - Fixed_Cost (venue l) - m - a * Cost (cat l))).
  { split; [nia | lia]. }
  destruct (add_holds _ _ _ _ H4 Hneg ltac:(nia)) as (lev & Elev & Hlev).
  rewrite Elev. cbn [bind]. exists lev. split; [exact Er|]. split; [reflexivity|].
  destruct (holds_prank _ _ Hlev) as [X1 P1].
  destruct (holds_prank _ _ Hpr) as [X2 P2].
  apply py_eq_prank; [exact X1 | exact X2 |].
  rewrite P1, P2. f_equal. ring.
Qed.

(** X10 on the decision the sidebar shows first. *)
Lemma dashboard_waterfall_closes_witness :
  exists results level,
    run_simulation sidebar_default = Ok results /\
    waterfall_level (PyInt 0) (waterfall_bars results) = Ok level /\
    py_eq level (Profit results) = true.
Proof.
  apply (dashboard_waterfall_closes sidebar_default). reflexivity.
Defined.

(** X11. For every valid decision, [generate_excel_download] on the results
    of [run_simulation] builds its three frames without error, in the
    order Summary, Decisions, Cost Breakdown; the Decisions sheet gives back
    the team's six inputs and the Summary the team name; the Amount column
    of the Cost Breakdown sheet is a float64 column whose four cells equal
    the four costs and add up to the Total Cost of the Summary, whose Net
    Profit is its Total Revenue minus its Total Cost. *)
Theorem workbook_sheets_agree (inputs : inputs_t) (team_name : string) :
  valid_decision inputs = true ->
  exists results workbook venue_amount marketing_amount catering_amount staff_amount total,
    run_simulation inputs = Ok results /\
    generate_excel_download inputs results team_name = Ok workbook /\
    map fst workbook = ["Summary"; "Decisions"; "Cost Breakdown"] /\
    read_cell workbook "Summary" "Metric" "Value" "Team Name" = Some (CStr team_name) /\
    read_cell workbook "Decisions" "Decision Variable" "Selected Option" "Venue"
      = Some (CStr (in_Venue inputs)) /\
    read_cell workbook "Decisions" "Decision Variable" "Selected Option" "Catering"
      = Some (CStr (in_Catering inputs)) /\
    read_cell workbook "Decisions" "Decision Variable" "Selected Option" "Staffing"
      = Some (CStr (in_Staffing inputs)) /\
    read_cell workbook "Decisions" "Decision Variable" "Selected Option" "Price"
      = Some (CNum (in_Price inputs)) /\
    read_cell workbook "Decisions" "Decision Variable" "Selected Option" "Marketing"
      = Some (CNum (in_Marketing inputs)) /\
    read_cell workbook "Decisions" "Decision Variable" "Selected Option" "Risk"
      = Some (CStr (in_Risk inputs)) /\
    match assoc "Cost Breakdown" workbook with
    | Some f =>
        assoc "Amount" f =
          Some [CNum (PyFloat venue_amount); CNum (PyFloat marketing_amount);
                CNum (PyFloat catering_amount); CNum (PyFloat staff_amount)]
    | None => False
    end /\
    py_eq (PyFloat venue_amount) (Venue_Cost (Details results)) = true /\
    py_eq (PyFloat marketing_amount) (Marketing_Cost (Details results)) = true /\
    py_eq (PyFloat catering_amount) (Catering_Cost (Details results)) = true /\
    py_eq (PyFloat staff_amount) (Staff_Cost (Details results)) = true /\
    sum_cells (PyInt 0)
      [CNum (PyFloat venue_amount); CNum (PyFloat marketing_amount);
       CNum (PyFloat catering_amount); CNum (PyFloat staff_amount)] = Ok total /\
    py_eq total (Total_Cost results) = true /\
    read_cell workbook "Summary" "Metric" "Value" "Total Cost"
      = Some (CNum (Total_Cost results)) /\
    read_cell workbook "Summary" "Metric" "Value" "Total Revenue"
      = Some (CNum (Revenue results)) /\
    read_cell workbook "Summary" "Metric" "Value" "Net Profit"
      = Some (CNum (Profit results)) /\
    py_sub (Revenue results) (Total_Cost results) = Ok (Profit results).
Proof.
  intros V. destruct (run_ok inputs V) as (l & o & El & Eo & Er & _).
  destruct (returned_inv l o Eo)
    as (Hat & Hrev & Htot & Hpr & _ & _ & _ & Hvc & Hmc & Hcc & Hsc).
  pose proof (costs_hold inputs l V El) as H. cbv zeta in H.
  destruct H as (sc & (Ha & Hfix & Hcost & Hkc) & Iv & Evc & Emc & Ecc & Esc & Hs
                 & Hsum & Epf).
  assert (H53 : 2 ^ 53 = 9007199254740992) by reflexivity.
  destruct (of_Z_exact (Fixed_Cost (venue l)) ltac:(lia)) as (fv & Ev & Pv).
  destruct (of_Z_exact (attendance l * Cost (cat l)) ltac:(nia)) as (fc & Ec & Pc).
  assert (Vm : valid_number (in_Marketing inputs) = true).
  { unfold valid_decision in V. rewrite !andb_true_iff in V. apply V. }
  destruct (valid_number_float _ Vm) as (fm & Em & _).
  rewrite Evc, Emc, Ecc, Esc in Hsum.
  destruct (amounts_total inputs l sc fv fm fc V Iv Hfix ltac:(nia) Ev Em Ec Hs Hkc Hsum)
    as (Pm & total & Et & Ht).
  exists o.
  exists [ ("Summary",
            [ ("Metric", map CStr ["Team Name"; "Success Score"; "Net Profit";
                                   "Satisfaction"; "Attendance"; "Total Revenue";
                                   "Total Cost"]);
              ("Value", [CStr team_name; CNum (Score o); CNum (Profit o);
                         CNum (Satisfaction o); CNum (PyInt (Attendance o));
                         CNum (Revenue o); CNum (Total_Cost o)]) ]);
           ("Decisions",
            [ ("Decision Variable", map (fun kv => CStr (fst kv)) (inputs_items inputs));
              ("Selected Option", map snd (inputs_items inputs)) ]);
           ("Cost Breakdown",
            [ ("Category", map (fun kv => CStr (fst kv)) (details_items (Details o)));
              ("Amount", [CNum (PyFloat fv); CNum (PyFloat fm); CNum (PyFloat fc);
                          CNum (PyFloat sc)]) ]) ].
  exists fv, fm, fc, sc, total.
  split; [exact Er|].
  split.
  { unfold generate_excel_download, DataFrame.
    cbn [map fst snd List.length Nat.eqb forallb andb bind inputs_items details_items].
    rewrite !as_column_text. rewrite Hvc, Hmc, Hcc, Hsc, Evc, Emc, Ecc, Esc.
    rewrite (amount_column _ _ _ sc fv fm fc Ev Em Ec). reflexivity. }
  split; [reflexivity|].
  do 7 (split; [reflexivity|]).
  split; [reflexivity|].
  rewrite Hvc, Hmc, Hcc, Hsc, Htot, Hrev, Hpr, Evc, Emc, Ecc, Esc.
  split; [exact Pv|]. split; [exact Pm|]. split; [exact Pc|].
  split; [apply py_eq_refl_float; apply fz_nonnan; apply Hs|].
  split; [exact Et|]. split; [exact Ht|].
  do 3 (split; [reflexivity|]). exact Epf.
Qed.

(** X11 at the scenario of the specification. *)
Lemma workbook_sheets_agree_witness :
  exists results workbook,
    run_simulation scenario = Ok results /\
    generate_excel_download scenario results "Team Alpha" = Ok workbook /\
    map fst workbook = ["Summary"; "Decisions"; "Cost Breakdown"].
Proof.
  destruct (workbook_sheets_agree scenario "Team Alpha")
    as (o & wb & _ & _ & _ & _ & _ & H1 & H2 & H3 & _).
  - vm_compute. reflexivity.
  - exists o, wb. auto.
Defined.
